(** * CerebroOnline: the capture pipeline of [src/hooks/useCapture.ts]

    A shallow embedding of the [mutationFn] of [useCapture]: the classifier
    invocation with its raw-fetch fallback, the defaulting and keyword
    overrides, the enum sanitization, and the entry/goal router with its
    period boundaries.

    Conventions of the embedding.
    - A JavaScript string is a [string] holding its UTF-8 bytes.
      [toLowerCase] maps the ASCII letters [A-Z] to [a-z] and the Kelvin sign
      U+212A to [k]: these are the characters whose lower case is an ASCII
      letter, so a lower-cased string is one of the ASCII words the code
      compares it with exactly when it is in JavaScript.  Other letters
      outside ASCII are left as they are (the lower case of U+0130 is an [i]
      followed by a combining dot, which no word compared with has).
    - A property that may be [undefined] or [null] is an [option]; the
      operator [x || d] is written out with JavaScript truthiness (the empty
      string and the number zero are falsy, every object and array is truthy).
    - A [Date] is its local calendar reading; the time of day is dropped,
      since [format (_, 'yyyy-MM-dd')] is the only observation made of it.
    - The awaited calls (functions.invoke, fetch, the table inserts) are
      oracles of an environment; the effects are logged in program order.

    Around the hook, the file also embeds its callbacks, the handlers of the
    Kanban board that shows the captured tasks (KanbanView.tsx), the
    navigation of the sidebar, the goal dialog (AddGoalDialog.tsx) and the
    classifier's edge function (classify-entry/index.ts).  There [trim]
    strips the white space and the line terminators of ECMAScript, read off
    the UTF-8 bytes, and a handler that would throw a TypeError returns
    [None]. *)

From Stdlib Require Import ZArith List String Ascii Bool Lia.
From Stdlib Require Import Numbers.DecimalString.
From Stdlib Require Import Sorting.Permutation.
Import ListNotations.

Local Open Scope string_scope.
Local Open Scope Z_scope.

(** ** JavaScript string builtins *)

Module Js.

Definition is_upper (c : ascii) : bool :=
  let n := N_of_ascii c in ((65 <=? n) && (n <=? 90))%N.

Definition lower_ascii (c : ascii) : ascii :=
  if is_upper c then ascii_of_N (N_of_ascii c + 32) else c.

(** The three bytes of U+212A, the Kelvin sign, in UTF-8. *)
Definition isKelvin (c1 c2 c3 : ascii) : bool :=
  ((N_of_ascii c1 =? 226) && (N_of_ascii c2 =? 132) && (N_of_ascii c3 =? 170))%N.

(** [String.prototype.toLowerCase], on the UTF-8 bytes of the string: the
    letters [A-Z] go to [a-z] and the Kelvin sign goes to [k]. *)
Fixpoint toLowerCase (s : string) : string :=
  match s with
  | EmptyString => EmptyString
  | String c1 s1 =>
      match s1 with
      | String c2 (String c3 s3) =>
          if isKelvin c1 c2 c3 then String "k" (toLowerCase s3)
          else String (lower_ascii c1) (toLowerCase s1)
      | _ => String (lower_ascii c1) (toLowerCase s1)
      end
  end.

(** [String.prototype.startsWith] *)
Definition startsWith (s p : string) : bool := String.prefix p s.

(** [String.prototype.includes]: [sub] occurs at some position of [s]. *)
Fixpoint includes (s sub : string) : bool :=
  String.prefix sub s ||
  match s with
  | EmptyString => false
  | String _ s' => includes s' sub
  end.

(** [Array.prototype.includes] on an array of strings. *)
Fixpoint array_includes (l : list string) (x : string) : bool :=
  match l with
  | [] => false
  | y :: l' => String.eqb y x || array_includes l' x
  end.

(** Truthiness of a possibly absent string: [undefined], [null] and [''] are
    falsy. *)
Definition truthy (o : option string) : bool :=
  match o with
  | Some s => negb (String.eqb s "")
  | None => false
  end.

(** [o || d] for a possibly absent string [o]. *)
Definition str_or (o : option string) (d : string) : string :=
  match o with
  | Some s => if String.eqb s "" then d else s
  | None => d
  end.

(** [o || null] for a possibly absent string [o]. *)
Definition str_or_null (o : option string) : option string :=
  match o with
  | Some s => if String.eqb s "" then None else Some s
  | None => None
  end.

(** [o || d] for a possibly absent number [o] (zero is falsy). *)
Definition num_or (o : option Z) (d : Z) : Z :=
  match o with
  | Some n => if n =? 0 then d else n
  | None => d
  end.

(** [o || d] for a possibly absent array [o] (every array is truthy). *)
Definition arr_or {A : Type} (o : option (list A)) (d : list A) : list A :=
  match o with
  | Some l => l
  | None => d
  end.

End Js.

Import Js.

(** ** The classifier's output: [ClassificationResult] *)

(** [checklist?: string[] | { text: string; done: boolean }[]] *)
Inductive ChecklistItem : Type :=
| PlainItem (text : string)
| CheckItem (text : string) (done : bool).

Module Metadata.
Record t : Type := mk {
  summary : option string;
  tags : option (list string);
  emoji : option string;
  target : option Z;
  unit : option string;
  period_type : option string;
  due_date : option string;
  priority : option string;
  checklist : option (list ChecklistItem)
}.

(** The assignment [metadata.priority = p]. *)
Definition set_priority (m : t) (p : string) : t :=
  mk (summary m) (tags m) (emoji m) (target m) (unit m) (period_type m)
     (due_date m) (Some p) (checklist m).
End Metadata.

Module Classification.
Record t : Type := mk {
  category_slug : option string;
  entry_type : option string;
  status : option string;
  metadata : option Metadata.t
}.

Definition set_metadata (c : t) (m : Metadata.t) : t :=
  mk (category_slug c) (entry_type c) (status c) (Some m).
End Classification.

(** Optional chaining [classification?.field] on a nullable classification. *)
Definition opt_field {A : Type} (c : option Classification.t)
  (f : Classification.t -> option A) : option A :=
  match c with
  | Some r => f r
  | None => None
  end.

(** ** Dates: the local calendar, and the date-fns functions the hook calls *)

Module DateFns.

(** The local calendar reading of a JavaScript [Date]: [getMonth] counts from
    zero, [getDate] is the day of the month. *)
Record Date : Type := mkDate {
  getFullYear : Z;
  getMonth : Z;
  getDate : Z
}.

(** Day number (days since 1970-01-01) of the civil date [y]-[m]-[d], months
    counted from one, in the proleptic Gregorian calendar. *)
Definition days_from_civil (y m d : Z) : Z :=
  let y' := if m <=? 2 then y - 1 else y in
  let era := y' / 400 in
  let yoe := y' - era * 400 in
  let mp := if m >? 2 then m - 3 else m + 9 in
  let doy := (153 * mp + 2) / 5 + d - 1 in
  let doe := yoe * 365 + yoe / 4 - yoe / 100 + doy in
  era * 146097 + doe - 719468.

(** Civil date of a day number. *)
Definition civil_from_days (n : Z) : Date :=
  let z := n + 719468 in
  let era := z / 146097 in
  let doe := z - era * 146097 in
  let yoe := (doe - doe / 1460 + doe / 36524 - doe / 146096) / 365 in
  let doy := doe - (365 * yoe + yoe / 4 - yoe / 100) in
  let mp := (5 * doy + 2) / 153 in
  let d := doy - (153 * mp + 2) / 5 + 1 in
  let m := if mp <? 10 then mp + 3 else mp - 9 in
  mkDate (if m <=? 2 then yoe + era * 400 + 1 else yoe + era * 400) (m - 1) d.

(** ECMAScript [Day(t)] of the local reading. *)
Definition dayNumber (date : Date) : Z :=
  days_from_civil (getFullYear date) (getMonth date + 1) (getDate date).

(** [Date.prototype.getDay]: 0 is Sunday, 1 is Monday; 1970-01-01 was a
    Thursday. *)
Definition getDay (date : Date) : Z := (dayNumber date + 4) mod 7.

(** [Date.prototype.setDate]: the day of the month is replaced, and a value
    outside the month carries into the neighbouring months. *)
Definition setDate (date : Date) (n : Z) : Date :=
  civil_from_days (days_from_civil (getFullYear date) (getMonth date + 1) 1 + n - 1).

(** date-fns [startOfWeek (date, { weekStartsOn })]. *)
Definition startOfWeek (date : Date) (weekStartsOn : Z) : Date :=
  let day := getDay date in
  let diff := (if day <? weekStartsOn then 7 else 0) + day - weekStartsOn in
  setDate date (getDate date - diff).

(** date-fns [startOfMonth]: [date.setDate(1)]. *)
Definition startOfMonth (date : Date) : Date :=
  mkDate (getFullYear date) (getMonth date) 1.

(** [String.prototype.padStart (targetLength, '0')] *)
Definition padStart0 (s : string) (targetLength : nat) : string :=
  String.concat "" (repeat "0" (targetLength - String.length s)) ++ s.

(** Decimal digits of a natural number. *)
Definition toString (n : Z) : string :=
  NilZero.string_of_uint (N.to_uint (Z.to_N n)).

(** date-fns [addLeadingZeros]. *)
Definition addLeadingZeros (number : Z) (targetLength : nat) : string :=
  let sign := if number <? 0 then "-" else "" in
  sign ++ padStart0 (toString (Z.abs number)) targetLength.

(** date-fns [format (date, 'yyyy-MM-dd')]: the year token prints the year of
    the era, so year zero and below print as [1 - year]. *)
Definition format_yyyy_MM_dd (date : Date) : string :=
  let signedYear := getFullYear date in
  let year := if signedYear >? 0 then signedYear else 1 - signedYear in
  addLeadingZeros year 4 ++ "-" ++
  addLeadingZeros (getMonth date + 1) 2 ++ "-" ++
  addLeadingZeros (getDate date) 2.

End DateFns.

Import DateFns.

(** ** Rows submitted for persistence *)

Record User : Type := mkUser { id : string }.

(** The object of [from('goals').insert]. *)
Module GoalRow.
Record t : Type := mk {
  user_id : string;
  title : string;
  emoji : string;
  target : Z;
  unit : string;
  period_type : string;
  period_start : string;
  current : Z;
  category : string
}.
End GoalRow.

(** The object of the companion [from('entries').insert] of a goal; its
    metadata is [{ ...metadata, is_goal_trigger: true }], and it has no
    [priority], [category_id], [due_date] or [tags] key. *)
Module HistoryRow.
Record t : Type := mk {
  user_id : string;
  content : string;
  entry_type : string;
  metadata : Metadata.t;
  is_goal_trigger : bool;
  status : string;
  checklist : list ChecklistItem
}.
End HistoryRow.

(** [insertPayload], the object of the regular [from('entries').insert]. *)
Module EntryRow.
Record t : Type := mk {
  user_id : string;
  content : string;
  category_id : option string;
  entry_type : string;
  metadata : Metadata.t;
  status : string;
  due_date : option string;
  priority : option string;
  tags : list string;
  checklist : list ChecklistItem
}.
End EntryRow.

Inductive EntriesInsert : Type :=
| HistoryInsert (row : HistoryRow.t)
| EntryInsert (row : EntryRow.t).

(** ** Defaults and keyword overrides (lines 75 to 87) *)

Definition targetSlug (classification : option Classification.t) : string :=
  str_or (opt_field classification Classification.category_slug) "ideas".

Definition entryType (classification : option Classification.t) : string :=
  toLowerCase (str_or (opt_field classification Classification.entry_type) "note").

(** The fresh object [{ summary: text, priority: 'medium' }]. *)
Definition defaultMetadata (text : string) : Metadata.t :=
  Metadata.mk (Some text) None None None None None None (Some "medium") None.

Definition lowerText (text : string) : string := toLowerCase text.

Definition urgentKeyword (text : string) : bool :=
  includes (lowerText text) "urgente" || includes (lowerText text) "urgent"
  || includes (lowerText text) "pra ontem".

Definition isNull {A : Type} (o : option A) : bool :=
  match o with
  | Some _ => false
  | None => true
  end.

(** The [if ... else if ...] of lines 83 to 87, as the assignment it makes to
    the object [metadata] is bound to. *)
Definition assignPriority (text : string) (classification : option Classification.t)
  (metadata : Metadata.t) : Metadata.t :=
  if urgentKeyword text then Metadata.set_priority metadata "urgent"
  else if isNull classification && negb (truthy (Metadata.priority metadata))
       then Metadata.set_priority metadata "medium"
       else metadata.

(** Lines 78 to 87 with the aliasing written out: [metadata] is the
    classification's own metadata object when there is one, so the assignment
    to [metadata.priority] is seen through [classification] too; otherwise it
    is a fresh object and the classification is untouched.  The result is the
    object [metadata] is bound to and the classification as it then stands. *)
Definition overridePriority (text : string) (classification : option Classification.t)
  : Metadata.t * option Classification.t :=
  match classification with
  | Some c =>
      match Classification.metadata c with
      | Some m =>
          let m' := assignPriority text classification m in
          (m', Some (Classification.set_metadata c m'))
      | None => (assignPriority text classification (defaultMetadata text), classification)
      end
  | None => (assignPriority text classification (defaultMetadata text), None)
  end.

(** ** Goals (lines 90 to 146) *)

Definition periodType (metadata : Metadata.t) : string :=
  let periodType := toLowerCase (str_or (Metadata.period_type metadata) "weekly") in
  if negb (array_includes ["daily"; "weekly"; "monthly"] periodType)
  then "weekly"
  else periodType.

Definition periodStart (now : Date) (periodType : string) : Date :=
  if String.eqb periodType "weekly" then startOfWeek now 1
  else if String.eqb periodType "monthly" then startOfMonth now
  else now.

Definition goalPayload (user : User) (now : Date) (text targetSlug : string)
  (metadata : Metadata.t) : GoalRow.t :=
  let periodType := periodType metadata in
  GoalRow.mk
    (id user)
    (str_or (Metadata.summary metadata) text)
    (str_or (Metadata.emoji metadata) "🎯")
    (num_or (Metadata.target metadata) 1)
    (str_or (Metadata.unit metadata) "unidade")
    periodType
    (format_yyyy_MM_dd (periodStart now periodType))
    0
    (str_or (Some targetSlug) "ideas").

Definition historyPayload (user : User) (text : string) (metadata : Metadata.t)
  : HistoryRow.t :=
  HistoryRow.mk (id user) text "task" metadata true "pending"
    (arr_or (Metadata.checklist metadata) []).

Definition goalCategoryName (periodType : string) : string :=
  if String.eqb periodType "weekly" then "Meta Semanal"
  else if String.eqb periodType "monthly" then "Meta Mensal"
  else "Meta Diária".

(** ** Regular entries (lines 148 to 216) *)

Definition validTypes : list string := ["task"; "note"; "insight"; "bookmark"].
Definition validPriorities : list string := ["low"; "medium"; "high"; "urgent"].
Definition validStatuses : list string := ["pending"; "in_progress"; "done"].

Definition finalEntryType (entryType : string) : string :=
  if negb (array_includes validTypes entryType) then "note" else entryType.

Definition finalPriority (metadata : Metadata.t) : option string :=
  let finalPriority :=
    str_or_null (option_map toLowerCase (Metadata.priority metadata)) in
  match finalPriority with
  | Some p =>
      if truthy finalPriority && negb (array_includes validPriorities p)
      then None
      else finalPriority
  | None => None
  end.

Definition progressKeyword (text : string) : bool :=
  startsWith (lowerText text) "estou " || includes (lowerText text) "fazendo"
  || includes (lowerText text) "andamento".

Definition finalStatus (text : string) (classification : option Classification.t)
  : string :=
  let finalStatus :=
    str_or (option_map toLowerCase (opt_field classification Classification.status))
           "pending" in
  let finalStatus :=
    if negb (array_includes validStatuses finalStatus) then "pending" else finalStatus in
  if progressKeyword text then "in_progress" else finalStatus.

Definition insertPayload (user : User) (text : string) (categoryId : option string)
  (entryType : string) (metadata : Metadata.t)
  (classification : option Classification.t) : EntryRow.t :=
  EntryRow.mk
    (id user)
    text
    categoryId
    (finalEntryType entryType)
    metadata
    (finalStatus text classification)
    (str_or_null (Metadata.due_date metadata))
    (finalPriority metadata)
    (arr_or (Metadata.tags metadata) [])
    (arr_or (Metadata.checklist metadata) []).

(** ** Effects: awaited calls, exceptions and the log *)

(** A thrown or returned error object; only its [message] is ever read. *)
Record Error : Type := mkError { message : option string }.

(** The row the database hands back from [.select().single()]. *)
Definition StoredRow : Type := string.

Record Category : Type := mkCategory { category_id : string; name : string }.

(** [{ data, error }] of a table call. *)
Record Response (A : Type) : Type := mkResponse {
  data : option A;
  error : option Error
}.
Arguments mkResponse {A} _ _.
Arguments data {A} _.
Arguments error {A} _.

(** What [supabase.functions.invoke] does: it resolves to [{ data, error }]
    or the awaited call rejects. *)
Inductive InvokeOutcome : Type :=
| InvokeResolved (r : Response Classification.t)
| InvokeRejected (e : Error).

(** What [response.json()] does. *)
Inductive JsonOutcome : Type :=
| JsonParsed (data : option Classification.t)
| JsonRejected (e : Error).

(** What the raw [fetch] does. *)
Inductive FetchOutcome : Type :=
| FetchResolved (ok : bool) (status : Z) (json : JsonOutcome)
| FetchRejected (e : Error).

(** Everything the hook reads from outside: the session, the two classifier
    transports, the clock and the tables. *)
Record Env : Type := mkEnv {
  user : option User;
  functions_invoke : string -> InvokeOutcome;
  VITE_SUPABASE_ANON_KEY : option string;
  fetch_classify_entry : string -> FetchOutcome;
  now : Date;
  categories_single : string -> Response Category;
  goals_insert : GoalRow.t -> Response StoredRow;
  entries_insert : EntriesInsert -> Response StoredRow
}.

Inductive Event : Type :=
| FunctionsInvoke (content : string)
| Fetch (content : string)
| ConsoleWarn (what : string) (e : Error)
| ConsoleError (what : string) (e : Error)
| ConsoleLog (what : string) (row : EntryRow.t)
| ToastError (text : string)
| CategoriesSelect (slug : string)
| GoalsInsert (row : GoalRow.t)
| EntriesInsertCall (payload : EntriesInsert).

Inductive Completion (A : Type) : Type :=
| Returns (a : A)
| Throws (e : Error).
Arguments Returns {A} a.
Arguments Throws {A} e.

(** An awaited computation: its log, and how it completed. *)
Definition Async (A : Type) : Type := (list Event * Completion A)%type.

Definition ret {A : Type} (a : A) : Async A := ([], Returns a).

Definition throw {A : Type} (e : Error) : Async A := ([], Throws e).

Definition bind {A B : Type} (m : Async A) (k : A -> Async B) : Async B :=
  match m with
  | (l, Returns a) => let '(l', r) := k a in ((l ++ l')%list, r)
  | (l, Throws e) => (l, Throws e)
  end.

(** [try { m } catch (e) { h e }] *)
Definition tryCatch {A : Type} (m : Async A) (h : Error -> Async A) : Async A :=
  match m with
  | (l, Throws e) => let '(l', r) := h e in ((l ++ l')%list, r)
  | (l, Returns a) => (l, Returns a)
  end.

Definition emit (e : Event) : Async unit := ([e], Returns tt).

Notation "x <- m ;; k" := (bind m (fun x => k))
  (at level 61, m at next level, right associativity).
Notation "m ;;; k" := (bind m (fun _ => k))
  (at level 61, right associativity).

Definition log {A : Type} (m : Async A) : list Event := fst m.
Definition completion {A : Type} (m : Async A) : Completion A := snd m.

(** ** The classifier invocation (lines 32 to 73) *)

Definition await_invoke (env : Env) (text : string)
  : Async (Response Classification.t) :=
  emit (FunctionsInvoke text) ;;;
  match functions_invoke env text with
  | InvokeResolved r => ret r
  | InvokeRejected e => throw e
  end.

Definition await_json (j : JsonOutcome) : Async (option Classification.t) :=
  match j with
  | JsonParsed d => ret d
  | JsonRejected e => throw e
  end.

(** The inner [try] block: the raw fetch. *)
Definition rawFetch (env : Env) (text : string) : Async (option Classification.t) :=
  if negb (truthy (VITE_SUPABASE_ANON_KEY env))
  then throw (mkError (Some "No anon key for fallback"))
  else
    emit (Fetch text) ;;;
    match fetch_classify_entry env text with
    | FetchRejected e => throw e
    | FetchResolved ok status json =>
        if negb ok
        then throw (mkError (Some ("Fallback HTTP error " ++ toString status)))
        else await_json json
    end.

(** The value of [classification] when line 75 is reached. *)
Definition classify (env : Env) (text : string) : Async (option Classification.t) :=
  tryCatch
    (r <- await_invoke env text ;;
     match error r with
     | Some aiError =>
         emit (ConsoleWarn "AI Classification SDK error, triggering fallback:" aiError) ;;;
         throw aiError
     | None => ret (data r)
     end)
    (fun err =>
       emit (ConsoleWarn "SDK Invocation failed, trying raw fetch fallback:" err) ;;;
       tryCatch
         (rawFetch env text)
         (fun fallbackErr =>
            emit (ConsoleError "Fallback failed:" fallbackErr) ;;;
            emit (ToastError ("Erro ao chamar IA: " ++ str_or (message err) "Erro de rede")) ;;;
            ret None)).

(** ** The mutation function *)

Record CaptureResult : Type := mkResult {
  entry : option StoredRow;
  type : string;
  categoryName : option string
}.

(** The awaited table calls: each resolves to its [{ data, error }]; without
    [throwOnError] the client reports a failure in [error] and does not
    reject. *)
Definition await_goals_insert (env : Env) (row : GoalRow.t)
  : Async (Response StoredRow) :=
  emit (GoalsInsert row) ;;; ret (goals_insert env row).

Definition await_entries_insert (env : Env) (payload : EntriesInsert)
  : Async (Response StoredRow) :=
  emit (EntriesInsertCall payload) ;;; ret (entries_insert env payload).

Definition await_categories_single (env : Env) (slug : string)
  : Async (Response Category) :=
  emit (CategoriesSelect slug) ;;; ret (categories_single env slug).

(** Lines 75 to 216: everything after the classifier invocation. *)
Definition persist (env : Env) (user : User) (text : string)
  (classification : option Classification.t) : Async CaptureResult :=
  let targetSlug := targetSlug classification in
  let entryType := entryType classification in
  let '(metadata, classification) := overridePriority text classification in
  if String.eqb entryType "goal" then
    let periodType := periodType metadata in
    r <- await_goals_insert env
           (goalPayload user (now env) text targetSlug metadata) ;;
    match error r with
    | Some goalError =>
        emit (ConsoleError "Goal Creation Error:" goalError) ;;;
        throw goalError
    | None =>
        _ <- await_entries_insert env
               (HistoryInsert (historyPayload user text metadata)) ;;
        ret (mkResult (data r) "goal" (Some (goalCategoryName periodType)))
    end
  else
    c <- await_categories_single env targetSlug ;;
    let categories := data c in
    let categoryId := option_map category_id categories in
    let insertPayload :=
      insertPayload user text categoryId entryType metadata classification in
    emit (ConsoleLog "Inserting Entry Payload:" insertPayload) ;;;
    r <- await_entries_insert env (EntryInsert insertPayload) ;;
    match error r with
    | Some dbError => throw dbError
    | None => ret (mkResult (data r) "entry" (option_map name categories))
    end.

Definition mutationFn (env : Env) (text : string) : Async CaptureResult :=
  match user env with
  | None => throw (mkError (Some "User not authenticated"))
  | Some user =>
      classification <- classify env text ;;
      persist env user text classification
  end.

(** ** Vocabulary of the properties *)

(** The rows a log submits to each table. *)
Fixpoint submittedEntries (l : list Event) : list EntryRow.t :=
  match l with
  | [] => []
  | EntriesInsertCall (EntryInsert row) :: l' => row :: submittedEntries l'
  | _ :: l' => submittedEntries l'
  end.

Fixpoint submittedHistory (l : list Event) : list HistoryRow.t :=
  match l with
  | [] => []
  | EntriesInsertCall (HistoryInsert row) :: l' => row :: submittedHistory l'
  | _ :: l' => submittedHistory l'
  end.

Fixpoint submittedGoals (l : list Event) : list GoalRow.t :=
  match l with
  | [] => []
  | GoalsInsert row :: l' => row :: submittedGoals l'
  | _ :: l' => submittedGoals l'
  end.

(** The rows [persist] builds: the regular entry, the goal and its
    companion entry. *)
Definition regularRow (env : Env) (u : User) (text : string)
  (classification : option Classification.t) : EntryRow.t :=
  insertPayload u text
    (option_map category_id (data (categories_single env (targetSlug classification))))
    (entryType classification)
    (fst (overridePriority text classification))
    (snd (overridePriority text classification)).

Definition goalRow (env : Env) (u : User) (text : string)
  (classification : option Classification.t) : GoalRow.t :=
  goalPayload u (now env) text (targetSlug classification)
    (fst (overridePriority text classification)).

Definition historyRow (u : User) (text : string)
  (classification : option Classification.t) : HistoryRow.t :=
  historyPayload u text (fst (overridePriority text classification)).

(** The [period_type] the classifier asked for, if any. *)
Definition requestedPeriod (classification : option Classification.t)
  : option string :=
  match opt_field classification Classification.metadata with
  | Some m => Metadata.period_type m
  | None => None
  end.

(** The environment [env] with another answer of the [entries] table. *)
Definition withEntriesInsert (env : Env)
  (answer : EntriesInsert -> Response StoredRow) : Env :=
  mkEnv (user env) (functions_invoke env) (VITE_SUPABASE_ANON_KEY env)
        (fetch_classify_entry env) (now env) (categories_single env)
        (goals_insert env) answer.

(** The value sets of the check constraints, as the comments of the hook give
    them. *)
Definition validPeriods : list string := ["daily"; "weekly"; "monthly"].

(** The Gregorian calendar: leap years, the length of a month (counted from
    zero, as [getMonth] does), and the dates that exist in it. *)
Definition isLeapYear (y : Z) : bool :=
  ((y mod 4 =? 0) && negb (y mod 100 =? 0)) || (y mod 400 =? 0).

Definition daysInMonth (y m : Z) : Z :=
  if m =? 1 then (if isLeapYear y then 29 else 28)
  else if (m =? 3) || (m =? 5) || (m =? 8) || (m =? 10) then 30
  else 31.

Definition isCalendarDate (date : Date) : Prop :=
  0 <= getMonth date <= 11
  /\ 1 <= getDate date <= daysInMonth (getFullYear date) (getMonth date).

(** [monday] is the Monday of the week of [today]: a date of the calendar, a
    Monday, on [today] or within the six days before it. *)
Definition mondayOfWeek (today monday : Date) : Prop :=
  isCalendarDate monday
  /\ getDay monday = 1
  /\ dayNumber today - 6 <= dayNumber monday <= dayNumber today.

Definition accepted_priority (p : option string) : Prop :=
  match p with
  | Some v => In v validPriorities
  | None => True
  end.

(** The rows of an event lie within the accepted value sets. *)
Definition accepted (e : Event) : Prop :=
  match e with
  | GoalsInsert row => In (GoalRow.period_type row) validPeriods
  | EntriesInsertCall (HistoryInsert row) =>
      In (HistoryRow.entry_type row) validTypes /\
      In (HistoryRow.status row) validStatuses
  | EntriesInsertCall (EntryInsert row) =>
      In (EntryRow.entry_type row) validTypes /\
      In (EntryRow.status row) validStatuses /\
      accepted_priority (EntryRow.priority row)
  | _ => True
  end.

(** Bytes of the Kelvin sign, and words free of them and of [k]: a word the
    lower-casing can only produce from its own letters. *)
Definition kelvinByte (c : ascii) : bool :=
  let n := N_of_ascii c in ((n =? 226) || (n =? 132) || (n =? 170))%N.

Fixpoint plainWord (s : string) : bool :=
  match s with
  | EmptyString => true
  | String c s' => negb (kelvinByte c) && negb (Ascii.eqb c "k") && plainWord s'
  end.

Fixpoint lacksKelvinBytes (s : string) : bool :=
  match s with
  | EmptyString => true
  | String c s' => negb (kelvinByte c) && lacksKelvinBytes s'
  end.

(** Lower-casing byte by byte. *)
Fixpoint eachLower (s : string) : string :=
  match s with
  | EmptyString => EmptyString
  | String c s' => String (lower_ascii c) (eachLower s')
  end.

(** The string begins with the Kelvin sign. *)
Definition kelvinHead (s : string) : bool :=
  match s with
  | String c1 (String c2 (String c3 _)) => isKelvin c1 c2 c3
  | _ => false
  end.

(** The string begins with a byte that is none of the Kelvin sign's. *)
Definition plainHead (s : string) : bool :=
  match s with
  | EmptyString => false
  | String c _ => negb (kelvinByte c)
  end.

(** [text] contains [keyword] in some letter case. *)
Definition occurs_in_any_case (keyword text : string) : Prop :=
  exists pre w post, text = pre ++ w ++ post /\ toLowerCase w = keyword.

(** [text] starts with [keyword] in some letter case. *)
Definition starts_in_any_case (keyword text : string) : Prop :=
  exists w post, text = w ++ post /\ toLowerCase w = keyword.

Definition urgency_worded (text : string) : Prop :=
  occurs_in_any_case "urgente" text \/ occurs_in_any_case "urgent" text
  \/ occurs_in_any_case "pra ontem" text.

Definition progress_worded (text : string) : Prop :=
  starts_in_any_case "estou " text \/ occurs_in_any_case "fazendo" text
  \/ occurs_in_any_case "andamento" text.

(** The primary invocation failed: it rejected, or resolved with an error. *)
Definition primaryFailed (env : Env) (text : string) : bool :=
  match functions_invoke env text with
  | InvokeResolved r => negb (isNull (error r))
  | InvokeRejected _ => true
  end.

(** The raw fetch failed: no key, a rejected fetch, a status that is not 2xx,
    or a body that does not parse. *)
Definition fallbackFailed (env : Env) (text : string) : bool :=
  negb (truthy (VITE_SUPABASE_ANON_KEY env)) ||
  match fetch_classify_entry env text with
  | FetchRejected _ => true
  | FetchResolved ok _ (JsonRejected _) => true
  | FetchResolved ok _ (JsonParsed _) => negb ok
  end.

(** ** Sample environments *)

Module Sample.

Definition ana : User := mkUser "ana".

Definition networkError : Error := mkError (Some "Failed to fetch").

Definition stored {A : Type} (_ : A) : Response StoredRow :=
  mkResponse (Some "row-1") None.

Definition refused {A : Type} (_ : A) : Response StoredRow :=
  mkResponse None (Some (mkError (Some "violates check constraint"))).

Definition noCategory (_ : string) : Response Category :=
  mkResponse None (Some (mkError (Some "no rows"))).

Definition monday : Date := mkDate 2026 10 2.

(** Both classifier transports are down; the tables answer. *)
Definition offline : Env :=
  mkEnv (Some ana) (fun _ => InvokeRejected networkError) (Some "anon-key")
        (fun _ => FetchRejected networkError) monday noCategory stored stored.

(** The classifier answers [c] on the primary transport. *)
Definition answering (c : Classification.t) : Env :=
  mkEnv (Some ana) (fun _ => InvokeResolved (mkResponse (Some c) None))
        (Some "anon-key") (fun _ => FetchRejected networkError) monday
        noCategory stored stored.

Definition noMetadata : Metadata.t :=
  Metadata.mk None None None None None None None None None.

Definition withPriority (p : string) : Metadata.t :=
  Metadata.mk None None None None None None None (Some p) None.

Definition classified (entry_type : string) (m : Metadata.t) : Classification.t :=
  Classification.mk (Some "work") (Some entry_type) None (Some m).

Definition monthlyGoal : Classification.t :=
  Classification.mk (Some "work") (Some "goal") None
    (Some (Metadata.mk None None None (Some 10) (Some "km") (Some "monthly")
                       None None None)).

Definition sunday : Date := mkDate 2026 10 1.

(** U+212A, the Kelvin sign: its UTF-8 bytes are E2 84 AA. *)
Definition kelvinSign : string :=
  String (ascii_of_N 226) (String (ascii_of_N 132) (String (ascii_of_N 170) "")).

(** The classifier answers [c] on the primary transport, on the day [today]. *)
Definition answeringOn (today : Date) (c : Classification.t) : Env :=
  mkEnv (Some ana) (fun _ => InvokeResolved (mkResponse (Some c) None))
        (Some "anon-key") (fun _ => FetchRejected networkError) today
        noCategory stored stored.

Definition weeklyGoal : Classification.t :=
  Classification.mk (Some "health") (Some "goal") None
    (Some (Metadata.mk None None None (Some 3) (Some "treinos") (Some "Weekly")
                       None None None)).

End Sample.

(** ** Variations of an environment *)

(** The environment [env] with another primary transport. *)
Definition withInvoke (env : Env) (answer : string -> InvokeOutcome) : Env :=
  mkEnv (user env) answer (VITE_SUPABASE_ANON_KEY env)
        (fetch_classify_entry env) (now env) (categories_single env)
        (goals_insert env) (entries_insert env).

(** The environment [env] with another answer of the [categories] table. *)
Definition withCategories (env : Env) (answer : string -> Response Category) : Env :=
  mkEnv (user env) (functions_invoke env) (VITE_SUPABASE_ANON_KEY env)
        (fetch_classify_entry env) (now env) answer
        (goals_insert env) (entries_insert env).

(** ** The callbacks of the mutation (useCapture.ts, lines 218 to 237) *)

Module Callbacks.

Inductive UiEvent : Type :=
| InvalidateQueries (queryKey : list string)
| ToastSuccess (message description : string) (icon : option string)
| ToastFailure (message description : string)
| ConsoleErrorLog (e : Error).

(** A template literal's [${x}] for a possibly undefined string. *)
Definition interpolate (o : option string) : string :=
  match o with
  | Some s => s
  | None => "undefined"
  end.

Definition onSuccess (data : CaptureResult) : list UiEvent :=
  if String.eqb (type data) "goal" then
    [InvalidateQueries ["goals"];
     ToastSuccess "Meta criada! 🎯"
       ("Adicionado em " ++ interpolate (categoryName data)) None]
  else
    [InvalidateQueries ["entries"];
     ToastSuccess ("Salvo em " ++ str_or (categoryName data) "Inbox")
       "Classificado com sucesso pela IA" (Some "✨")].

Definition onError (error : Error) : list UiEvent :=
  [ConsoleErrorLog error;
   ToastFailure "Erro ao salvar" (str_or (message error) "Tente novamente.")].

(** What [useMutation] does when the mutation function settles: [onSuccess]
    with the value it returned, [onError] with what it threw. *)
Definition settle (c : Completion CaptureResult) : list UiEvent :=
  match c with
  | Returns data => onSuccess data
  | Throws error => onError error
  end.

(** The feedback of one capture. *)
Definition feedback (env : Env) (text : string) : list UiEvent :=
  settle (completion (mutationFn env text)).

End Callbacks.

(** ** The Kanban board (KanbanView.tsx) *)

Module Kanban.

(** A row of [entries], with the columns the board reads. *)
Record Entry : Type := mkEntry {
  id : string;
  status : option string;
  metadata : option Metadata.t;
  checklist : option (list ChecklistItem)
}.

Record Column : Type := mkColumn { column_id : string; title : string }.

Definition statusColumns : list Column :=
  [mkColumn "pending" "Pendente"; mkColumn "in_progress" "Em Progresso";
   mkColumn "done" "Concluído"].

Definition priorityColumns : list Column :=
  [mkColumn "urgent" "Urgente"; mkColumn "high" "Alta";
   mkColumn "medium" "Média"; mkColumn "low" "Baixa"].

Inductive GroupBy : Type := ByStatus | ByPriority.

(** [(entry.metadata as any)?.priority || 'medium'] *)
Definition priorityOrMedium (entry : Entry) : string :=
  str_or (match metadata entry with
          | Some m => Metadata.priority m
          | None => None
          end) "medium".

(** [entry.status === columnId] and [draggedEntry.status !== columnId], for a
    status that may be null. *)
Definition status_is (entry : Entry) (columnId : string) : bool :=
  match status entry with
  | Some s => String.eqb s columnId
  | None => false
  end.

(** [getColumnEntries] (lines 233 to 245); [filteredEntries] is undefined
    until the query has loaded. *)
Definition getColumnEntries (groupBy : GroupBy) (filteredEntries : option (list Entry))
  (columnId : string) : list Entry :=
  match groupBy with
  | ByStatus =>
      arr_or (option_map (filter (fun entry => status_is entry columnId))
                filteredEntries) []
  | ByPriority =>
      arr_or (option_map
                (filter (fun entry =>
                   let p := priorityOrMedium entry in
                   if String.eqb columnId "medium" && negb (truthy (Some p))
                   then true
                   else String.eqb p columnId))
                filteredEntries) []
  end.

(** The object [{ priority, metadata: { ...currentMetadata, priority } }] of
    the update of [updatePriorityMutation] (lines 122 to 137). *)
Record PriorityUpdate : Type := mkPriorityUpdate {
  update_priority : string;
  update_metadata : Metadata.t
}.

Definition emptyMetadata : Metadata.t :=
  Metadata.mk None None None None None None None None None.

Definition priorityUpdate (entry : Entry) (priority : string) : PriorityUpdate :=
  let currentMetadata :=
    match metadata entry with
    | Some m => m
    | None => emptyMetadata
    end in
  mkPriorityUpdate priority (Metadata.set_priority currentMetadata priority).

Inductive Effect : Type :=
| MutateStatus (id status : string)
| MutatePriority (id priority : string) (entry : Entry)
| MutateChecklist (id : string) (checklist : list ChecklistItem)
| ToastMoved (message : string).

Record Board : Type := mkBoard {
  draggedEntry : option Entry;
  groupBy : GroupBy
}.

(** [statusColumns.find(c => c.id === columnId)?.title] *)
Definition findTitle (columns : list Column) (columnId : string) : option string :=
  option_map title (find (fun c => String.eqb (column_id c) columnId) columns).

(** [handleDrop] (lines 199 to 222): the effects, and the board afterwards. *)
Definition handleDrop (board : Board) (columnId : string) : list Effect * Board :=
  match draggedEntry board with
  | None => ([], board)
  | Some dragged =>
      let effects :=
        match groupBy board with
        | ByStatus =>
            if negb (status_is dragged columnId)
            then [MutateStatus (id dragged) columnId;
                  ToastMoved ("Movido para " ++
                              Callbacks.interpolate (findTitle statusColumns columnId))]
            else []
        | ByPriority =>
            let currentPriority := priorityOrMedium dragged in
            if negb (String.eqb currentPriority columnId)
            then [MutatePriority (id dragged) columnId dragged]
            else []
        end in
      (effects, mkBoard None (groupBy board))
  end.

(** The [isDragOver] handed to a column (lines 322 to 326). *)
Definition isDragOver (board : Board) (columnId : string) : bool :=
  match draggedEntry board with
  | None => false
  | Some dragged =>
      match groupBy board with
      | ByStatus => negb (status_is dragged columnId)
      | ByPriority => negb (String.eqb (priorityOrMedium dragged) columnId)
      end
  end.

(** The new value of a checklist item: a string becomes a done item, an
    object has its [done] flipped. *)
Definition toggled (item : ChecklistItem) : ChecklistItem :=
  match item with
  | PlainItem text => CheckItem text true
  | CheckItem text done => CheckItem text (negb done)
  end.

(** [newChecklist[itemIndex] = v] on the copy, for an index within it. *)
Fixpoint assignAt (l : list ChecklistItem) (i : nat) (v : ChecklistItem)
  : list ChecklistItem :=
  match l, i with
  | [], _ => []
  | _ :: l', O => v :: l'
  | x :: l', S i' => x :: assignAt l' i' v
  end.

(** [handleToggleChecklist] (lines 164 to 177).  Outside the checklist the
    item is undefined, and reading [item.done] throws a TypeError before any
    mutation is started: that is [None]. *)
Definition handleToggleChecklist (entry : Entry) (itemIndex : nat) : option Effect :=
  let currentChecklist := arr_or (checklist entry) [] in
  match nth_error currentChecklist itemIndex with
  | Some item =>
      Some (MutateChecklist (id entry)
              (assignAt currentChecklist itemIndex (toggled item)))
  | None => None
  end.

(** The checklist lines of a card (lines 546 and 571): the first three items,
    and the count behind ["+ N itens"] when there are more. *)
Definition shownItems (l : list ChecklistItem) : list ChecklistItem := firstn 3 l.

Definition hiddenCount (l : list ChecklistItem) : option nat :=
  if (3 <? List.length l)%nat then Some (List.length l - 3)%nat else None.

(** What a checklist line of a card shows (lines 547 to 549): the text, and
    whether it is struck through. *)
Definition itemText (item : ChecklistItem) : string :=
  match item with
  | PlainItem text => text
  | CheckItem text _ => text
  end.

Definition itemDone (item : ChecklistItem) : bool :=
  match item with
  | PlainItem _ => false
  | CheckItem _ done => done
  end.

(** [activeColumns] (line 252) and the cards of the board, column after
    column, as lines 313 to 318 render them. *)
Definition activeColumns (groupBy : GroupBy) : list Column :=
  match groupBy with
  | ByStatus => statusColumns
  | ByPriority => priorityColumns
  end.

Definition cards (groupBy : GroupBy) (filteredEntries : option (list Entry))
  : list Entry :=
  List.concat
    (map (fun column => getColumnEntries groupBy filteredEntries (column_id column))
         (activeColumns groupBy)).

(** The columns of the board, each with the cards handed to it (lines 314 to
    318). *)
Definition boardColumns (groupBy : GroupBy) (filteredEntries : option (list Entry))
  : list (Column * list Entry) :=
  map (fun column => (column, getColumnEntries groupBy filteredEntries (column_id column)))
      (activeColumns groupBy).

(** The priority a task counts under: the one of its metadata when there is a
    metadata with a priority that is not empty, and "medium" otherwise. *)
Definition countedPriority (entry : Entry) : string :=
  match metadata entry with
  | Some (Metadata.mk _ _ _ _ _ _ _ (Some p) _) =>
      match p with
      | EmptyString => "medium"
      | String _ _ => p
      end
  | _ => "medium"
  end.

(** The tasks of [entries] counted under [priority], in their order. *)
Definition tasksOfPriority (priority : string) (entries : list Entry) : list Entry :=
  filter (fun entry => String.eqb (countedPriority entry) priority) entries.

(** The row once an update of its checklist, or of its priority, has been
    applied. *)
Definition withChecklist (entry : Entry) (l : list ChecklistItem) : Entry :=
  mkEntry (id entry) (status entry) (metadata entry) (Some l).

Definition withPriorityUpdate (entry : Entry) (u : PriorityUpdate) : Entry :=
  mkEntry (id entry) (status entry) (Some (update_metadata u)) (checklist entry).

End Kanban.

(** ** The sidebar's navigation (lines 670 to 783 of the same file) *)

Module Sidebar.

Record NavItem : Type := mkNav { label : string; slug : string }.

Definition navItems : list NavItem :=
  [mkNav "Dashboard" "/"; mkNav "Kanban" "/kanban"; mkNav "Calendário" "/calendar";
   mkNav "Doméstico" "/home"; mkNav "Trabalho" "/work"; mkNav "Faculdade" "/uni";
   mkNav "Ideias" "/ideas"].

Definition isActive (pathname : string) (item : NavItem) : bool :=
  String.eqb pathname (slug item)
  || (String.eqb (slug item) "/" && String.eqb pathname "/dashboard").

(** The [to] of the item's link. *)
Definition linkTo (item : NavItem) : string :=
  if String.eqb (slug item) "/" then "/dashboard" else slug item.

End Sidebar.

(** ** The goal dialog (AddGoalDialog.tsx) *)

Module GoalDialog.

Record NewGoal : Type := mkGoal {
  goal_title : string;
  goal_emoji : string;
  goal_target : Z;
  goal_unit : string;
  goal_category : option string
}.

Record State : Type := mkState {
  title : string;
  emoji : string;
  target : Z;
  unit : string
}.

(** The initial [useState] values, also what a save resets to. *)
Definition initial : State := mkState "" "🎯" 4 "dias".

(** White space and line terminators of [String.prototype.trim], by the
    length of their UTF-8 encoding.  One byte: tab, line feed, vertical tab,
    form feed, carriage return, space. *)
Definition isWhiteSpace (c : ascii) : bool :=
  let n := N_of_ascii c in
  (((9 <=? n) && (n <=? 13)) || (n =? 32))%N.

(** Two bytes: the no-break space U+00A0. *)
Definition isWhiteSpace2 (c1 c2 : ascii) : bool :=
  ((N_of_ascii c1 =? 194) && (N_of_ascii c2 =? 160))%N.

(** Three bytes: U+1680, U+2000 to U+200A, the separators U+2028 and U+2029,
    U+202F, U+205F, U+3000 and the byte order mark U+FEFF. *)
Definition isWhiteSpace3 (c1 c2 c3 : ascii) : bool :=
  let n1 := N_of_ascii c1 in
  let n2 := N_of_ascii c2 in
  let n3 := N_of_ascii c3 in
  (((n1 =? 225) && (n2 =? 154) && (n3 =? 128))
   || ((n1 =? 226) && (n2 =? 128)
       && (((128 <=? n3) && (n3 <=? 138)) || (n3 =? 168) || (n3 =? 169) || (n3 =? 175)))
   || ((n1 =? 226) && (n2 =? 129) && (n3 =? 159))
   || ((n1 =? 227) && (n2 =? 128) && (n3 =? 128))
   || ((n1 =? 239) && (n2 =? 187) && (n3 =? 191)))%N.

(** The string without its leading white space. *)
Fixpoint trimStart (s : string) : string :=
  match s with
  | EmptyString => EmptyString
  | String c1 s1 =>
      if isWhiteSpace c1 then trimStart s1
      else
        match s1 with
        | String c2 s2 =>
            if isWhiteSpace2 c1 c2 then trimStart s2
            else
              match s2 with
              | String c3 s3 => if isWhiteSpace3 c1 c2 c3 then trimStart s3 else s
              | EmptyString => s
              end
        | EmptyString => s
        end
  end.

(** The string holds nothing but white space. *)
Fixpoint isBlank (s : string) : bool :=
  match s with
  | EmptyString => true
  | String c1 s1 =>
      if isWhiteSpace c1 then isBlank s1
      else
        match s1 with
        | String c2 s2 =>
            if isWhiteSpace2 c1 c2 then isBlank s2
            else
              match s2 with
              | String c3 s3 => isWhiteSpace3 c1 c2 c3 && isBlank s3
              | EmptyString => false
              end
        | EmptyString => false
        end
  end.

(** The string without its trailing white space: it ends where nothing but
    white space follows. *)
Fixpoint trimEnd (s : string) : string :=
  match s with
  | EmptyString => EmptyString
  | String c s' => if isBlank s then EmptyString else String c (trimEnd s')
  end.

(** [String.prototype.trim] *)
Definition trim (s : string) : string := trimEnd (trimStart s).

(** U+00A0, the no-break space, and U+FEFF, the byte order mark. *)
Definition noBreakSpace : string :=
  String (ascii_of_N 194) (String (ascii_of_N 160) "").

Definition byteOrderMark : string :=
  String (ascii_of_N 239) (String (ascii_of_N 187) (String (ascii_of_N 191) "")).

Inductive Effect : Type :=
| OnSave (goal : NewGoal)
| OnClose.

(** What the user and the parent can do to the dialog. *)
Inductive Action : Type :=
| TypeTitle (value : string)
| PickEmoji (e : string)
| Minus
| Plus
| PickUnit (u : string)
| Save
| EditingGoalChanged (editingGoal : option NewGoal).

(** [handleSave] (lines 48 to 56). *)
Definition handleSave (st : State) : list Effect * State :=
  if negb (truthy (Some (trim (title st)))) then ([], st)
  else ([OnSave (mkGoal (title st) (emoji st) (target st) (unit st) None); OnClose],
        initial).

Definition step (st : State) (a : Action) : list Effect * State :=
  match a with
  | TypeTitle value => ([], mkState value (emoji st) (target st) (unit st))
  | PickEmoji e => ([], mkState (title st) e (target st) (unit st))
  | Minus => ([], mkState (title st) (emoji st) (Z.max 1 (target st - 1)) (unit st))
  | Plus => ([], mkState (title st) (emoji st) (target st + 1) (unit st))
  | PickUnit u => ([], mkState (title st) (emoji st) (target st) u)
  | Save => handleSave st
  | EditingGoalChanged (Some g) =>
      ([], mkState (goal_title g) (goal_emoji g) (goal_target g) (goal_unit g))
  | EditingGoalChanged None => ([], initial)
  end.

(** A session: the effects of a sequence of actions, in order, and the state
    it ends in. *)
Fixpoint run (st : State) (actions : list Action) : list Effect * State :=
  match actions with
  | [] => ([], st)
  | a :: rest =>
      let '(e1, st1) := step st a in
      let '(e2, st2) := run st1 rest in
      ((e1 ++ e2)%list, st2)
  end.

(** The goals handed to [onSave]. *)
Fixpoint savedGoals (effects : list Effect) : list NewGoal :=
  match effects with
  | [] => []
  | OnSave g :: rest => g :: savedGoals rest
  | OnClose :: rest => savedGoals rest
  end.

(** An action that is a click or a keystroke in the open dialog, as opposed
    to the parent handing in a goal to edit. *)
Definition isUserAction (a : Action) : bool :=
  match a with
  | EditingGoalChanged (Some _) => false
  | _ => true
  end.

End GoalDialog.

(** ** The classifier's edge function (classify-entry/index.ts) *)

Module EdgeFunction.

Definition isOpen (c : ascii) : bool := Ascii.eqb c "{".
Definition isClose (c : ascii) : bool := Ascii.eqb c "}".

(** No character of [s] satisfies [f]. *)
Fixpoint lacks (f : ascii -> bool) (s : string) : bool :=
  match s with
  | EmptyString => true
  | String c s' => negb (f c) && lacks f s'
  end.

(** The longest prefix of [s] that ends with a closing brace: what the greedy
    [[\s\S]*\}] takes from [s]. *)
Fixpoint throughLastClose (s : string) : option string :=
  match s with
  | EmptyString => None
  | String c s' =>
      match throughLastClose s' with
      | Some p => Some (String c p)
      | None => if isClose c then Some (String c EmptyString) else None
      end
  end.

(** [text.match(/\{[\s\S]*\}/)?.[0]]: the leftmost position where the
    pattern matches, and there the longest match. *)
Fixpoint jsonMatch (text : string) : option string :=
  match text with
  | EmptyString => None
  | String c s' =>
      if isOpen c then
        match throughLastClose s' with
        | Some p => Some (String c p)
        | None => jsonMatch s'
        end
      else jsonMatch s'
  end.

(** The argument of [JSON.parse] on line 125: the match, or the whole text. *)
Definition jsonCandidate (text : string) : string :=
  str_or (jsonMatch text) text.

(** What the awaited calls of the handler do. *)
Inductive BodyOutcome : Type :=
| BodyParsed (content : option string)
| BodyRejected (e : Error).

Inductive GeminiJson : Type :=
| GeminiParsed (text : option string)
| GeminiJsonRejected (e : Error).

Inductive GeminiOutcome : Type :=
| GeminiResolved (ok : bool) (status : Z) (errText : string) (json : GeminiJson)
| GeminiRejected (e : Error).

Record Request : Type := mkRequest {
  method : string;
  GEMINI_API_KEY : option string;
  body : BodyOutcome;
  gemini : string -> GeminiOutcome;
  (** [JSON.stringify (JSON.parse s)], or the SyntaxError of the parse *)
  reserialize : string -> Error + string
}.

Inductive ResponseBody : Type :=
| OkText
| ErrorObject (message : option string)
| ResultJson (json : string).

Record HttpResponse : Type := mkHttp { http_status : Z; http_body : ResponseBody }.

Inductive Call : Type := GenerateContent (content : string).

(** The [try] block of the handler (lines 16 to 129). *)
Definition classifyRequest (req : Request) : list Call * (Error + string) :=
  if negb (truthy (GEMINI_API_KEY req))
  then ([], inl (mkError (Some "Missing GEMINI_API_KEY")))
  else
    match body req with
    | BodyRejected e => ([], inl e)
    | BodyParsed content =>
        if negb (truthy content)
        then ([], inl (mkError (Some "Content is required")))
        else
          let content := str_or content "" in
          ([GenerateContent content],
           match gemini req content with
           | GeminiRejected e => inl e
           | GeminiResolved ok status err json =>
               if negb ok
               then inl (mkError (Some ("API Error " ++ toString status ++ ": " ++ err)))
               else
                 match json with
                 | GeminiJsonRejected e => inl e
                 | GeminiParsed text =>
                     if negb (truthy text)
                     then inl (mkError (Some "Empty AI response"))
                     else reserialize req (jsonCandidate (str_or text ""))
                 end
           end)
    end.

(** The handler (lines 10 to 137). *)
Definition serve (req : Request) : list Call * HttpResponse :=
  if String.eqb (method req) "OPTIONS" then ([], mkHttp 200 OkText)
  else
    match classifyRequest req with
    | (calls, inr result) => (calls, mkHttp 200 (ResultJson result))
    | (calls, inl error) => (calls, mkHttp 400 (ErrorObject (message error)))
    end.

(** Every step of the handler succeeds on [req]: it is no preflight, the key
    is configured, the body carries the content [content], the model answers
    it with the text [text], and what is cut out of the text parses and
    serializes to [result]. *)
Definition succeeds (req : Request) (content text result : string) : Prop :=
  method req <> "OPTIONS"
  /\ truthy (GEMINI_API_KEY req) = true
  /\ body req = BodyParsed (Some content)
  /\ content <> ""
  /\ (exists status errText,
         gemini req content = GeminiResolved true status errText (GeminiParsed (Some text)))
  /\ text <> ""
  /\ reserialize req (jsonCandidate text) = inr result.

(** A request for "comprar leite", which the model answers with an empty
    object inside a Markdown fence. *)
Definition sampleRequest : Request :=
  mkRequest "POST" (Some "gemini-key") (BodyParsed (Some "comprar leite"))
    (fun _ => GeminiResolved true 200 "" (GeminiParsed (Some "```json {} ```")))
    (fun s => if String.eqb s "{}" then inr "{}"
              else inl (mkError (Some "Unexpected token"))).

End EdgeFunction.

(** * Properties *)

(** ** Strings *)

Section Strings.

Lemma prefix_app (w post : string) : String.prefix w (w ++ post) = true.
Proof.
  induction w as [| c w IH]; cbn.
  - now destruct post.
  - destruct (ascii_dec c c) as [_ | Hne]; [exact IH | now elim Hne].
Qed.

Lemma prefix_split (w s : string) :
  String.prefix w s = true -> exists post, s = w ++ post.
Proof.
  revert s; induction w as [| c w IH]; intros s H.
  - now exists s.
  - destruct s as [| c' s]; cbn in H; [discriminate |].
    destruct (ascii_dec c c') as [-> | _]; [| discriminate].
    destruct (IH s H) as [post ->]. now exists post.
Qed.

Lemma includes_app (pre w post : string) :
  includes (pre ++ w ++ post) w = true.
Proof.
  induction pre as [| c pre IH].
  - cbn [append]. destruct (w ++ post) eqn:E; cbn [includes];
      rewrite <- E, prefix_app; reflexivity.
  - cbn [append includes]. rewrite IH. apply orb_true_r.
Qed.

Lemma includes_split (s w : string) :
  includes s w = true -> exists pre post, s = pre ++ w ++ post.
Proof.
  induction s as [| c s IH]; cbn [includes]; intros H.
  - rewrite orb_false_r in H. destruct (prefix_split _ _ H) as [post Hp].
    now exists "", post.
  - apply orb_true_iff in H as [H | H].
    + destruct (prefix_split _ _ H) as [post Hp]. now exists "", post.
    + destruct (IH H) as (pre & post & ->). now exists (String c pre), post.
Qed.

(** A split of the lower-cased text is the image of a split of the text. *)
Lemma toLowerCase_cons (c : ascii) (s : string) :
  toLowerCase (String c s)
  = if kelvinHead (String c s)
    then String "k" (toLowerCase (match s with String _ (String _ r) => r | _ => "" end))
    else String (lower_ascii c) (toLowerCase s).
Proof. destruct s as [| c2 [| c3 s3]]; reflexivity. Qed.

Lemma kelvinHead_app (s t : string) :
  kelvinHead s = true -> kelvinHead (s ++ t) = true.
Proof. destruct s as [| c1 [| c2 [| c3 s3]]]; cbn; auto; discriminate. Qed.

Lemma kelvinHead_byte (c : ascii) (s : string) :
  kelvinHead (String c s) = true -> kelvinByte c = true.
Proof.
  destruct s as [| c2 [| c3 s3]]; cbn; try discriminate.
  unfold isKelvin, kelvinByte. intros H.
  apply andb_true_iff in H as [H _]. apply andb_true_iff in H as [H _].
  now rewrite H.
Qed.

Lemma toLowerCase_split (s a b : string) :
  toLowerCase s = a ++ b ->
  exists a' b', s = a' ++ b' /\ toLowerCase a' = a /\ toLowerCase b' = b.
Proof.
  revert s; induction a as [| c a IH]; intros s H.
  - exists "", s. auto.
  - destruct s as [| c1 s1]; [discriminate |].
    rewrite toLowerCase_cons in H.
    destruct (kelvinHead (String c1 s1)) eqn:Ek.
    + destruct s1 as [| c2 [| c3 s3]]; try discriminate Ek.
      cbn in H. injection H as <- Hs.
      destruct (IH s3 Hs) as (x & y & -> & Hx & Hy).
      exists (String c1 (String c2 (String c3 x))), y.
      split; [reflexivity |]. split; [| exact Hy].
      rewrite toLowerCase_cons. cbn in Ek |- *. now rewrite Ek, Hx.
    + cbn in H. injection H as <- Hs.
      destruct (IH s1 Hs) as (x & y & -> & Hx & Hy).
      exists (String c1 x), y. split; [reflexivity |]. split; [| exact Hy].
      rewrite toLowerCase_cons.
      destruct (kelvinHead (String c1 x)) eqn:Ek'.
      * apply (kelvinHead_app _ y) in Ek'.
        change (String c1 x ++ y) with (String c1 (x ++ y)) in Ek'. congruence.
      * now rewrite Hx.
Qed.

Lemma toLowerCase_plain (w : string) :
  plainWord (toLowerCase w) = true ->
  lacksKelvinBytes w = true /\ toLowerCase w = eachLower w.
Proof.
  induction w as [| c w IH]; [auto |].
  rewrite toLowerCase_cons.
  destruct (kelvinHead (String c w)) eqn:Ek.
  - cbn. discriminate.
  - cbn. intros H. apply andb_true_iff in H as [H Hw].
    apply andb_true_iff in H as [Hc _].
    destruct (IH Hw) as [H1 H2]. rewrite H1, H2.
    split; [| reflexivity].
    assert (E : kelvinByte c = false).
    { destruct (kelvinByte c) eqn:E; [| reflexivity].
      assert (lower_ascii c = c).
      { unfold lower_ascii, is_upper. unfold kelvinByte in E.
        destruct (N.leb_spec 65 (N_of_ascii c)); [| reflexivity].
        destruct (N.leb_spec (N_of_ascii c) 90); [| reflexivity].
        exfalso. apply orb_true_iff in E as [E | E]; [apply orb_true_iff in E as [E | E] |];
          apply N.eqb_eq in E; lia. }
      rewrite H, E in Hc. discriminate. }
    now rewrite E.
Qed.

Lemma toLowerCase_plain_app (w post : string) :
  lacksKelvinBytes w = true ->
  toLowerCase (w ++ post) = eachLower w ++ toLowerCase post.
Proof.
  induction w as [| c w IH]; [reflexivity |].
  cbn [lacksKelvinBytes append eachLower]. intros H.
  apply andb_true_iff in H as [Hc Hw].
  rewrite toLowerCase_cons.
  destruct (kelvinHead (String c (w ++ post))) eqn:Ek.
  - apply kelvinHead_byte in Ek. rewrite Ek in Hc. discriminate.
  - now rewrite IH.
Qed.

Lemma toLowerCase_before_plain (pre r : string) :
  plainHead r = true ->
  toLowerCase (pre ++ r) = toLowerCase pre ++ toLowerCase r.
Proof.
  intros Hr.
  assert (H : forall n pre, (String.length pre <= n)%nat ->
                            toLowerCase (pre ++ r) = toLowerCase pre ++ toLowerCase r).
  { clear pre. induction n as [| n IH]; intros pre Hn.
    - destruct pre; [reflexivity | cbn in Hn; lia].
    - destruct pre as [| c1 p1]; [reflexivity |].
      cbn in Hn.
      destruct p1 as [| c2 p2].
      + (* one byte before r *)
        destruct r as [| c r']; [discriminate |]. cbn in Hr.
        cbn [append]. rewrite toLowerCase_cons.
        destruct (kelvinHead (String c1 (String c r'))) eqn:Ek; [| reflexivity].
        exfalso. destruct r' as [| c' r'']; cbn in Ek; [discriminate |].
        unfold isKelvin in Ek. unfold kelvinByte in Hr.
        apply andb_true_iff in Ek as [Ek _]. apply andb_true_iff in Ek as [_ Ek].
        rewrite Ek in Hr. rewrite orb_true_r in Hr. discriminate.
      + destruct p2 as [| c3 p3].
        * (* two bytes before r *)
          destruct r as [| c r']; [discriminate |]. cbn in Hr.
          cbn [append]. rewrite toLowerCase_cons.
          destruct (kelvinHead (String c1 (String c2 (String c r')))) eqn:Ek.
          -- exfalso. cbn in Ek. unfold isKelvin in Ek. unfold kelvinByte in Hr.
             apply andb_true_iff in Ek as [_ Ek].
             rewrite Ek in Hr. rewrite orb_true_r in Hr. discriminate.
          -- change (String c2 (String c r')) with (String c2 "" ++ String c r').
             rewrite (IH (String c2 "")) by (cbn in *; lia).
             reflexivity.
        * cbn [append].
          rewrite (toLowerCase_cons c1 (String c2 (String c3 (p3 ++ r)))),
                  (toLowerCase_cons c1 (String c2 (String c3 p3))).
          cbn [kelvinHead].
          destruct (isKelvin c1 c2 c3).
          -- rewrite (IH p3) by (cbn in *; lia). reflexivity.
          -- change (String c2 (String c3 (p3 ++ r)))
               with (String c2 (String c3 p3) ++ r).
             rewrite (IH (String c2 (String c3 p3))) by (cbn in *; lia).
             reflexivity. }
  now apply (H (String.length pre)).
Qed.

Lemma plainWord_head (c : ascii) (w kw : string) :
  lacksKelvinBytes (String c w) = true -> plainHead (String c w ++ kw) = true.
Proof. cbn. now intros [H _]%andb_true_iff. Qed.

Lemma includes_lower_iff (keyword text : string) :
  plainWord keyword = true ->
  includes (toLowerCase text) keyword = true <-> occurs_in_any_case keyword text.
Proof.
  intros Hk. split.
  - intros H. apply includes_split in H as (pre & post & H).
    apply toLowerCase_split in H as (pre' & rest & -> & _ & H).
    apply toLowerCase_split in H as (w & post' & -> & Hw & _).
    now exists pre', w, post'.
  - intros (pre & w & post & -> & <-).
    destruct (toLowerCase_plain w Hk) as [Hw He].
    destruct w as [| c w].
    + cbn. destruct (toLowerCase (pre ++ post)); reflexivity.
    + rewrite toLowerCase_before_plain by (now apply plainWord_head).
      rewrite toLowerCase_plain_app by exact Hw.
      rewrite He. apply includes_app.
Qed.

Lemma startsWith_lower_iff (keyword text : string) :
  plainWord keyword = true ->
  startsWith (toLowerCase text) keyword = true <-> starts_in_any_case keyword text.
Proof.
  intros Hk. unfold startsWith. split.
  - intros H. apply prefix_split in H as (post & H).
    apply toLowerCase_split in H as (w & post' & -> & Hw & _).
    now exists w, post'.
  - intros (w & post & -> & <-).
    destruct (toLowerCase_plain w Hk) as [Hw He].
    rewrite toLowerCase_plain_app by exact Hw.
    rewrite He. apply prefix_app.
Qed.

Lemma urgentKeyword_iff (text : string) :
  urgentKeyword text = true <-> urgency_worded text.
Proof.
  unfold urgentKeyword, urgency_worded, lowerText.
  rewrite !orb_true_iff, !includes_lower_iff by reflexivity. tauto.
Qed.

Lemma progressKeyword_iff (text : string) :
  progressKeyword text = true <-> progress_worded text.
Proof.
  unfold progressKeyword, progress_worded, lowerText.
  rewrite !orb_true_iff, !includes_lower_iff, startsWith_lower_iff by reflexivity.
  tauto.
Qed.

Lemma array_includes_In (l : list string) (x : string) :
  array_includes l x = true <-> In x l.
Proof.
  induction l as [| y l IH]; cbn.
  - split; [discriminate | tauto].
  - rewrite orb_true_iff, String.eqb_eq, IH. tauto.
Qed.

Lemma array_includes_not_In (l : list string) (x : string) :
  array_includes l x = false <-> ~ In x l.
Proof.
  rewrite <- array_includes_In. now destruct (array_includes l x).
Qed.

End Strings.

(** ** The sanitizers *)

Section Sanitizers.

Lemma finalEntryType_valid (e : string) : In (finalEntryType e) validTypes.
Proof.
  unfold finalEntryType.
  destruct (array_includes validTypes e) eqn:E; cbn [negb].
  - now apply array_includes_In.
  - cbn; tauto.
Qed.

Lemma finalEntryType_idem (e : string) :
  finalEntryType (finalEntryType e) = finalEntryType e.
Proof.
  unfold finalEntryType at 1.
  now rewrite (proj2 (array_includes_In _ _) (finalEntryType_valid e)).
Qed.

Lemma finalStatus_valid (text : string) (c : option Classification.t) :
  In (finalStatus text c) validStatuses.
Proof.
  unfold finalStatus.
  destruct (progressKeyword text); [cbn; tauto |].
  match goal with |- context [array_includes validStatuses ?s] =>
    destruct (array_includes validStatuses s) eqn:E end; cbn [negb].
  - now apply array_includes_In.
  - cbn; tauto.
Qed.

Lemma finalPriority_valid (m : Metadata.t) : accepted_priority (finalPriority m).
Proof.
  unfold finalPriority.
  destruct (str_or_null _) as [p |] eqn:E; [| exact I].
  destruct (array_includes validPriorities p) eqn:Ep.
  - rewrite andb_false_r. now apply array_includes_In.
  - cbn [negb]. rewrite andb_true_r. destruct (truthy (Some p)) eqn:Et; [exact I |].
    cbn in Et. destruct (String.eqb_spec p ""); [| discriminate].
    subst p. destruct (Metadata.priority m) as [q |]; cbn in E; [| discriminate].
    destruct (String.eqb_spec (toLowerCase q) ""); [discriminate | congruence].
Qed.

Lemma periodType_valid (m : Metadata.t) : In (periodType m) validPeriods.
Proof.
  unfold periodType.
  match goal with |- context [array_includes ?l ?s] =>
    destruct (array_includes l s) eqn:E end; cbn [negb].
  - now apply array_includes_In.
  - cbn; tauto.
Qed.

End Sanitizers.

(** ** The log of an awaited computation *)

Section Logs.

Lemma log_bind {A B : Type} (m : Async A) (k : A -> Async B) :
  log (bind m k) =
  (log m ++ match completion m with
            | Returns a => log (k a)
            | Throws _ => []
            end)%list.
Proof.
  destruct m as [l [a | e]]; cbn.
  - now destruct (k a).
  - now rewrite app_nil_r.
Qed.

Lemma completion_bind {A B : Type} (m : Async A) (k : A -> Async B) :
  completion (bind m k) =
  match completion m with
  | Returns a => completion (k a)
  | Throws e => Throws e
  end.
Proof.
  destruct m as [l [a | e]]; cbn; [now destruct (k a) | reflexivity].
Qed.

Lemma submittedEntries_app (l l' : list Event) :
  submittedEntries (l ++ l') = (submittedEntries l ++ submittedEntries l')%list.
Proof.
  induction l as [| e l IH]; [reflexivity |].
  destruct e as [| | | | | | | | [|]]; cbn; now rewrite ?IH.
Qed.

Lemma submittedHistory_app (l l' : list Event) :
  submittedHistory (l ++ l') = (submittedHistory l ++ submittedHistory l')%list.
Proof.
  induction l as [| e l IH]; [reflexivity |].
  destruct e as [| | | | | | | | [|]]; cbn; now rewrite ?IH.
Qed.

Lemma submittedGoals_app (l l' : list Event) :
  submittedGoals (l ++ l') = (submittedGoals l ++ submittedGoals l')%list.
Proof.
  induction l as [| e l IH]; [reflexivity |].
  destruct e; cbn; now rewrite ?IH.
Qed.

End Logs.

(** ** The classifier invocation never throws and submits nothing *)

Section Classifier.

Variables (env : Env) (text : string).

Ltac run_classify :=
  unfold classify, await_invoke, rawFetch, await_json;
  destruct (functions_invoke env text) as [[d [e |]] | e];
  destruct (truthy (VITE_SUPABASE_ANON_KEY env));
  destruct (fetch_classify_entry env text) as [[|] st [d' | e'] | e'];
  cbn.

Lemma classify_returns :
  exists classification, completion (classify env text) = Returns classification.
Proof. run_classify; eauto. Qed.

Lemma classify_submits_nothing :
  submittedEntries (log (classify env text)) = [] /\
  submittedHistory (log (classify env text)) = [] /\
  submittedGoals (log (classify env text)) = [].
Proof. run_classify; auto. Qed.

Lemma classify_accepted : Forall accepted (log (classify env text)).
Proof.
  run_classify; repeat (apply Forall_cons || apply Forall_nil); exact I.
Qed.

(** With both transports down the classification is [null]. *)
Lemma classify_unavailable :
  primaryFailed env text = true -> fallbackFailed env text = true ->
  completion (classify env text) = Returns None.
Proof.
  unfold primaryFailed, fallbackFailed.
  run_classify; intros H1 H2; try reflexivity; discriminate.
Qed.

End Classifier.

(** ** The mutation function as classifier invocation followed by persistence *)

Lemma mutationFn_log (env : Env) (text : string) (u : User)
  (classification : option Classification.t) :
  user env = Some u ->
  completion (classify env text) = Returns classification ->
  log (mutationFn env text)
  = (log (classify env text) ++ log (persist env u text classification))%list
  /\ completion (mutationFn env text)
     = completion (persist env u text classification).
Proof.
  intros Hu Hc. unfold mutationFn. rewrite Hu, log_bind, completion_bind, Hc.
  split; reflexivity.
Qed.

(** ** The two routes of [persist] *)

Section Routes.

Variables (env : Env) (u : User) (text : string)
          (classification : option Classification.t).

Lemma persist_regular :
  String.eqb (entryType classification) "goal" = false ->
  log (persist env u text classification)
  = [CategoriesSelect (targetSlug classification);
     ConsoleLog "Inserting Entry Payload:" (regularRow env u text classification);
     EntriesInsertCall (EntryInsert (regularRow env u text classification))]
  /\ completion (persist env u text classification)
     = match error (entries_insert env (EntryInsert (regularRow env u text classification))) with
       | Some dbError => Throws dbError
       | None =>
           Returns (mkResult
             (data (entries_insert env (EntryInsert (regularRow env u text classification))))
             "entry"
             (option_map name (data (categories_single env (targetSlug classification)))))
       end.
Proof.
  intros Hg. unfold persist, regularRow, await_categories_single, await_entries_insert.
  destruct (overridePriority text classification) as [metadata classification'].
  rewrite Hg. cbn [fst snd bind emit ret app].
  destruct (error (entries_insert env _)); split; reflexivity.
Qed.

Lemma persist_goal :
  String.eqb (entryType classification) "goal" = true ->
  log (persist env u text classification)
  = GoalsInsert (goalRow env u text classification)
    :: match error (goals_insert env (goalRow env u text classification)) with
       | Some goalError => [ConsoleError "Goal Creation Error:" goalError]
       | None => [EntriesInsertCall (HistoryInsert (historyRow u text classification))]
       end
  /\ completion (persist env u text classification)
     = match error (goals_insert env (goalRow env u text classification)) with
       | Some goalError => Throws goalError
       | None =>
           Returns (mkResult
             (data (goals_insert env (goalRow env u text classification)))
             "goal"
             (Some (goalCategoryName
                      (periodType (fst (overridePriority text classification))))))
       end.
Proof.
  intros Hg. unfold persist, goalRow, historyRow, await_goals_insert, await_entries_insert.
  destruct (overridePriority text classification) as [metadata classification'].
  rewrite Hg. cbn [fst snd bind emit ret app].
  destruct (error (goals_insert env _)); split; reflexivity.
Qed.

Lemma persist_submits :
  if String.eqb (entryType classification) "goal"
  then submittedEntries (log (persist env u text classification)) = []
       /\ submittedGoals (log (persist env u text classification))
          = [goalRow env u text classification]
       /\ submittedHistory (log (persist env u text classification))
          = match error (goals_insert env (goalRow env u text classification)) with
            | Some _ => []
            | None => [historyRow u text classification]
            end
  else submittedEntries (log (persist env u text classification))
       = [regularRow env u text classification]
       /\ submittedGoals (log (persist env u text classification)) = []
       /\ submittedHistory (log (persist env u text classification)) = [].
Proof.
  destruct (String.eqb (entryType classification) "goal") eqn:Hg.
  - destruct (persist_goal Hg) as [-> _].
    destruct (error (goals_insert env _)); cbn; auto.
  - destruct (persist_regular Hg) as [-> _]. cbn; auto.
Qed.

End Routes.

(** What [mutationFn] submits, for a signed-in user, is what [persist]
    submits for the classification the invocation ended with. *)
Lemma mutationFn_submits (env : Env) (text : string) (u : User)
  (classification : option Classification.t) :
  user env = Some u ->
  completion (classify env text) = Returns classification ->
  submittedEntries (log (mutationFn env text))
  = submittedEntries (log (persist env u text classification))
  /\ submittedHistory (log (mutationFn env text))
     = submittedHistory (log (persist env u text classification))
  /\ submittedGoals (log (mutationFn env text))
     = submittedGoals (log (persist env u text classification)).
Proof.
  intros Hu Hc. destruct (mutationFn_log env text u classification Hu Hc) as [-> _].
  destruct (classify_submits_nothing env text) as (He & Hh & Hg).
  rewrite submittedEntries_app, submittedHistory_app, submittedGoals_app, He, Hh, Hg.
  auto.
Qed.

Lemma mutationFn_signed_out (env : Env) (text : string) :
  user env = None -> log (mutationFn env text) = [].
Proof. intros Hu. unfold mutationFn. now rewrite Hu. Qed.

(** ** Accepted value sets *)

Lemma persist_accepted (env : Env) (u : User) (text : string)
  (classification : option Classification.t) :
  Forall accepted (log (persist env u text classification)).
Proof.
  destruct (String.eqb (entryType classification) "goal") eqn:Hg.
  - destruct (persist_goal env u text classification Hg) as [-> _].
    constructor; [apply periodType_valid |].
    destruct (error (goals_insert env _)); repeat constructor; cbn; tauto.
  - destruct (persist_regular env u text classification Hg) as [-> _].
    repeat (apply Forall_cons || apply Forall_nil); cbn [accepted]; try exact I.
    split; [apply finalEntryType_valid
           | split; [apply finalStatus_valid | apply finalPriority_valid]].
Qed.

(** C1. Whatever the text, the session, the classifier's answer on either
    transport (absent, in the wrong letter case, out of range) and the tables'
    answers, every row the pipeline submits lies within the accepted value
    sets: a goal's [period_type] is daily, weekly or monthly; the companion
    entry of a goal has an accepted [entry_type] and [status]; a regular entry
    has an accepted [entry_type] and [status] and a [priority] that is null or
    accepted. *)
Theorem submitted_rows_are_accepted (env : Env) (text : string) :
  Forall accepted (log (mutationFn env text)).
Proof.
  destruct (user env) as [u |] eqn:Hu.
  - destruct (classify_returns env text) as [c Hc].
    destruct (mutationFn_log env text u c Hu Hc) as [-> _].
    apply Forall_app. split; [apply classify_accepted | apply persist_accepted].
  - unfold mutationFn. rewrite Hu. constructor.
Qed.

(** ** Keyword overrides *)

Section Keywords.

Variables (text : string) (classification : option Classification.t).

Lemma overridePriority_urgent :
  urgentKeyword text = true ->
  Metadata.priority (fst (overridePriority text classification)) = Some "urgent".
Proof.
  intros Hk. unfold overridePriority, assignPriority. rewrite Hk.
  destruct classification as [c |]; [destruct (Classification.metadata c) |];
    reflexivity.
Qed.

Lemma finalPriority_urgent (m : Metadata.t) :
  Metadata.priority m = Some "urgent" -> finalPriority m = Some "urgent".
Proof. intros H. unfold finalPriority. now rewrite H. Qed.

Lemma finalStatus_progress :
  progressKeyword text = true -> finalStatus text classification = "in_progress".
Proof. intros H. unfold finalStatus. now rewrite H. Qed.

End Keywords.

(** C2. When the text contains "urgente", "urgent" or "pra ontem" in any
    letter case, then whatever the classifier answered on either transport,
    and also when it answered nothing, every regular entry the pipeline
    submits has priority "urgent", and the companion entry of a goal carries
    priority "urgent" in its metadata (it has no priority column); and for a
    signed-in user the pipeline does submit an entry or a goal. *)
Theorem urgency_wording_forces_urgent (env : Env) (text : string) :
  urgency_worded text ->
  Forall (fun row => EntryRow.priority row = Some "urgent"
                     /\ Metadata.priority (EntryRow.metadata row) = Some "urgent")
         (submittedEntries (log (mutationFn env text)))
  /\ Forall (fun row => Metadata.priority (HistoryRow.metadata row) = Some "urgent")
            (submittedHistory (log (mutationFn env text)))
  /\ (user env <> None ->
      submittedEntries (log (mutationFn env text)) <> []
      \/ submittedGoals (log (mutationFn env text)) <> []).
Proof.
  intros Hk%urgentKeyword_iff.
  destruct (user env) as [u |] eqn:Hu.
  - destruct (classify_returns env text) as [c Hc].
    destruct (mutationFn_submits env text u c Hu Hc) as (-> & -> & ->).
    pose proof (persist_submits env u text c) as Hs.
    pose proof (overridePriority_urgent text c Hk) as Hp.
    destruct (String.eqb (entryType c) "goal"); destruct Hs as (-> & -> & ->).
    + repeat split; [constructor | | intros _; right; discriminate].
      destruct (error (goals_insert env _)); repeat constructor. exact Hp.
    + repeat split; [| constructor | intros _; left; discriminate].
      repeat constructor; [apply finalPriority_urgent |]; exact Hp.
  - rewrite (mutationFn_signed_out env text Hu).
    split; [constructor | split; [constructor | intros Hn; now elim Hn]].
Qed.

Lemma urgency_wording_forces_urgent_witness :
  urgency_worded "comprar leite URGENTE"
  /\ (Forall (fun row => EntryRow.priority row = Some "urgent"
                        /\ Metadata.priority (EntryRow.metadata row) = Some "urgent")
        (submittedEntries (log (mutationFn Sample.offline "comprar leite URGENTE")))
      /\ Forall (fun row => Metadata.priority (HistoryRow.metadata row) = Some "urgent")
           (submittedHistory (log (mutationFn Sample.offline "comprar leite URGENTE")))
      /\ (user Sample.offline <> None ->
          submittedEntries (log (mutationFn Sample.offline "comprar leite URGENTE")) <> []
          \/ submittedGoals (log (mutationFn Sample.offline "comprar leite URGENTE")) <> [])).
Proof.
  assert (Hw : urgency_worded "comprar leite URGENTE")
    by (left; exists "comprar leite ", "URGENTE", ""; split; reflexivity).
  split; [exact Hw |].
  exact (urgency_wording_forces_urgent Sample.offline "comprar leite URGENTE" Hw).
Defined.

(** C7. When the text starts with "estou " or contains "fazendo" or
    "andamento", in any letter case, the normalized status is "in_progress"
    whatever status the classifier returned, and every regular entry the
    pipeline submits has that status. *)
Theorem progress_wording_forces_in_progress (env : Env) (text : string) :
  progress_worded text ->
  (forall classification, finalStatus text classification = "in_progress")
  /\ Forall (fun row => EntryRow.status row = "in_progress")
            (submittedEntries (log (mutationFn env text))).
Proof.
  intros Hk%progressKeyword_iff. split.
  - intros c. now apply finalStatus_progress.
  - destruct (user env) as [u |] eqn:Hu.
    + destruct (classify_returns env text) as [c Hc].
      destruct (mutationFn_submits env text u c Hu Hc) as (-> & _).
      pose proof (persist_submits env u text c) as Hs.
      destruct (String.eqb (entryType c) "goal"); destruct Hs as (-> & _).
      * constructor.
      * repeat constructor. now apply finalStatus_progress.
    + rewrite (mutationFn_signed_out env text Hu). constructor.
Qed.

Lemma progress_wording_forces_in_progress_witness :
  progress_worded "Estou lendo o livro"
  /\ ((forall classification,
         finalStatus "Estou lendo o livro" classification = "in_progress")
      /\ Forall (fun row => EntryRow.status row = "in_progress")
           (submittedEntries
              (log (mutationFn
                      (Sample.answering (Sample.classified "task" Sample.noMetadata))
                      "Estou lendo o livro")))).
Proof.
  assert (Hw : progress_worded "Estou lendo o livro")
    by (left; exists "Estou ", "lendo o livro"; split; reflexivity).
  split; [exact Hw |].
  exact (progress_wording_forces_in_progress _ "Estou lendo o livro" Hw).
Defined.

(** ** Defaults when the classifier is unavailable *)

Lemma regularRow_unavailable (env : Env) (u : User) (text : string) :
  regularRow env u text None
  = EntryRow.mk (id u) text
      (option_map category_id (data (categories_single env "ideas")))
      "note"
      (Metadata.mk (Some text) None None None None None None
         (Some (if urgentKeyword text then "urgent" else "medium")) None)
      (if progressKeyword text then "in_progress" else "pending")
      None
      (Some (if urgentKeyword text then "urgent" else "medium"))
      [] [].
Proof.
  unfold regularRow, insertPayload, overridePriority, assignPriority, finalStatus.
  destruct (urgentKeyword text), (progressKeyword text); reflexivity.
Qed.

(** C3, as the code has it. When both classifier transports fail, a signed-in
    user's capture is submitted as one regular entry: the category looked up
    is "ideas", the entry type is "note", the priority is "medium" unless the
    text contains an urgency keyword, in which case it is "urgent", and the
    status is "pending" unless the text matches a progress keyword, in which
    case it is "in_progress". *)
Theorem unavailable_classification_defaults (env : Env) (text : string) (u : User) :
  user env = Some u ->
  primaryFailed env text = true ->
  fallbackFailed env text = true ->
  exists row,
    submittedEntries (log (mutationFn env text)) = [row]
    /\ submittedGoals (log (mutationFn env text)) = []
    /\ In (CategoriesSelect "ideas") (log (mutationFn env text))
    /\ EntryRow.entry_type row = "note"
    /\ EntryRow.priority row
       = Some (if urgentKeyword text then "urgent" else "medium")
    /\ EntryRow.status row
       = (if progressKeyword text then "in_progress" else "pending").
Proof.
  intros Hu H1 H2.
  pose proof (classify_unavailable env text H1 H2) as Hc.
  destruct (mutationFn_submits env text u None Hu Hc) as (He & _ & Hg).
  destruct (mutationFn_log env text u None Hu Hc) as [Hl _].
  assert (Hs : submittedEntries (log (persist env u text None))
               = [regularRow env u text None]
               /\ submittedGoals (log (persist env u text None)) = []
               /\ submittedHistory (log (persist env u text None)) = [])
    by exact (persist_submits env u text None).
  destruct (persist_regular env u text None eq_refl) as [Hp _].
  destruct Hs as (Hs & Hs' & _).
  exists (regularRow env u text None).
  rewrite He, Hg, Hl, Hs, Hs', Hp, regularRow_unavailable.
  cbn [EntryRow.entry_type EntryRow.priority EntryRow.status].
  repeat split. apply in_or_app. right. left. reflexivity.
Qed.

Lemma unavailable_classification_defaults_witness :
  user Sample.offline = Some Sample.ana
  /\ primaryFailed Sample.offline "comprar leite" = true
  /\ fallbackFailed Sample.offline "comprar leite" = true
  /\ exists row,
       submittedEntries (log (mutationFn Sample.offline "comprar leite")) = [row]
       /\ submittedGoals (log (mutationFn Sample.offline "comprar leite")) = []
       /\ In (CategoriesSelect "ideas") (log (mutationFn Sample.offline "comprar leite"))
       /\ EntryRow.entry_type row = "note"
       /\ EntryRow.priority row
          = Some (if urgentKeyword "comprar leite" then "urgent" else "medium")
       /\ EntryRow.status row
          = (if progressKeyword "comprar leite" then "in_progress" else "pending").
Proof.
  repeat (split; [reflexivity |]).
  exact (unavailable_classification_defaults Sample.offline "comprar leite" Sample.ana
           eq_refl eq_refl eq_refl).
Defined.

(** C3 as stated fails: with both transports down, the text "estou resolvendo
    isso urgente" is submitted with priority "urgent" and status
    "in_progress", not "medium" and "pending". *)
Lemma unavailable_classification_keywords_still_apply :
  primaryFailed Sample.offline "estou resolvendo isso urgente" = true
  /\ fallbackFailed Sample.offline "estou resolvendo isso urgente" = true
  /\ map (fun row => (EntryRow.priority row, EntryRow.status row))
       (submittedEntries (log (mutationFn Sample.offline "estou resolvendo isso urgente")))
     = [(Some "urgent", "in_progress")]
  /\ Some "urgent" <> Some "medium"
  /\ "in_progress" <> "pending".
Proof. repeat split; try reflexivity; discriminate. Qed.

(** ** Priority sanitization *)

Lemma finalPriority_invalid (m : Metadata.t) :
  (forall p, Metadata.priority m = Some p -> ~ In (toLowerCase p) validPriorities) ->
  finalPriority m = None.
Proof.
  intros H. unfold finalPriority.
  destruct (Metadata.priority m) as [p |]; cbn [option_map str_or_null]; [| reflexivity].
  destruct (String.eqb_spec (toLowerCase p) ""); [reflexivity |].
  rewrite (proj2 (array_includes_not_In _ _) (H p eq_refl)).
  cbn. destruct (String.eqb_spec (toLowerCase p) ""); [contradiction | reflexivity].
Qed.

Lemma overridePriority_classified (text : string) (c : Classification.t)
  (m : Metadata.t) :
  Classification.metadata c = Some m ->
  urgentKeyword text = false ->
  fst (overridePriority text (Some c)) = m.
Proof.
  intros Hm Hk. unfold overridePriority, assignPriority. now rewrite Hm, Hk.
Qed.

(** C4, as the code has it. When the classifier's answer has a metadata object
    whose priority is absent or, lower-cased, none of low, medium, high and
    urgent, and the text contains no urgency keyword, every regular entry
    submitted has a null priority, and one is submitted unless the answer is
    a goal. *)
Theorem invalid_priority_becomes_null (env : Env) (text : string) (u : User)
  (c : Classification.t) (m : Metadata.t) :
  user env = Some u ->
  completion (classify env text) = Returns (Some c) ->
  Classification.metadata c = Some m ->
  (forall p, Metadata.priority m = Some p -> ~ In (toLowerCase p) validPriorities) ->
  ~ urgency_worded text ->
  Forall (fun row => EntryRow.priority row = None)
         (submittedEntries (log (mutationFn env text)))
  /\ (entryType (Some c) <> "goal" ->
      submittedEntries (log (mutationFn env text)) <> []).
Proof.
  intros Hu Hc Hm Hp Hk.
  assert (Hk' : urgentKeyword text = false).
  { destruct (urgentKeyword text) eqn:E; [| reflexivity].
    elim Hk. now apply urgentKeyword_iff. }
  destruct (mutationFn_submits env text u (Some c) Hu Hc) as (-> & _).
  pose proof (persist_submits env u text (Some c)) as Hs.
  destruct (String.eqb_spec (entryType (Some c)) "goal") as [Hg | Hg];
    destruct Hs as (-> & _).
  - split; [constructor | intros Hn; now elim Hn].
  - split; [| discriminate].
    repeat constructor. unfold regularRow, insertPayload; cbn [EntryRow.priority].
    rewrite (overridePriority_classified text c m Hm Hk').
    now apply finalPriority_invalid.
Qed.

Lemma invalid_priority_becomes_null_witness :
  let c := Sample.classified "task" (Sample.withPriority "Banana") in
  let env := Sample.answering c in
  user env = Some Sample.ana
  /\ completion (classify env "pagar boleto") = Returns (Some c)
  /\ Classification.metadata c = Some (Sample.withPriority "Banana")
  /\ (forall p, Metadata.priority (Sample.withPriority "Banana") = Some p ->
                ~ In (toLowerCase p) validPriorities)
  /\ ~ urgency_worded "pagar boleto"
  /\ (Forall (fun row => EntryRow.priority row = None)
             (submittedEntries (log (mutationFn env "pagar boleto")))
      /\ (entryType (Some c) <> "goal" ->
          submittedEntries (log (mutationFn env "pagar boleto")) <> [])).
Proof.
  intros c env.
  assert (Hp : forall p, Metadata.priority (Sample.withPriority "Banana") = Some p ->
                         ~ In (toLowerCase p) validPriorities).
  { intros p [= <-]. apply array_includes_not_In. reflexivity. }
  assert (Hk : ~ urgency_worded "pagar boleto").
  { intros H%urgentKeyword_iff. discriminate H. }
  repeat (split; [reflexivity |]).
  split; [exact Hp |]. split; [exact Hk |].
  exact (invalid_priority_becomes_null env "pagar boleto" Sample.ana c
           (Sample.withPriority "Banana") eq_refl eq_refl eq_refl Hp Hk).
Defined.

(** C4 as stated fails twice: an answer whose priority is "banana" is
    persisted with priority "urgent" when the text contains an urgency
    keyword, and an answer with no metadata object is persisted with the
    default priority "medium". *)
Lemma invalid_priority_not_always_null :
  map EntryRow.priority
    (submittedEntries
       (log (mutationFn
               (Sample.answering (Sample.classified "task" (Sample.withPriority "banana")))
               "pagar boleto urgente")))
  = [Some "urgent"]
  /\ map EntryRow.priority
       (submittedEntries
          (log (mutationFn
                  (Sample.answering (Classification.mk (Some "work") (Some "task") None None))
                  "pagar boleto")))
     = [Some "medium"]
  /\ array_includes validPriorities (toLowerCase "banana") = false.
Proof. repeat split; reflexivity. Qed.

(** ** Entry type sanitization *)

Lemma entryType_classified (c : Classification.t) (e : string) :
  Classification.entry_type c = Some e ->
  entryType (Some c) = if String.eqb e "" then "note" else toLowerCase e.
Proof.
  intros He. unfold entryType, opt_field, str_or. rewrite He.
  now destruct (String.eqb e "").
Qed.

(** C5. The classifier's [entry_type] is lower-cased before it is validated:
    when its lower-case form is task, note, insight or bookmark, the entry is
    submitted with that lower-case form (so "BOOKMARK" is persisted as
    "bookmark"); when its lower-case form is none of task, note, insight,
    bookmark and goal, the entry is submitted with type "note". In both cases
    exactly one regular entry is submitted. *)
Theorem entry_type_sanitized (env : Env) (text : string) (u : User)
  (c : Classification.t) (e : string) :
  user env = Some u ->
  completion (classify env text) = Returns (Some c) ->
  Classification.entry_type c = Some e ->
  (In (toLowerCase e) validTypes ->
   map EntryRow.entry_type (submittedEntries (log (mutationFn env text)))
   = [toLowerCase e])
  /\ (~ In (toLowerCase e) ("goal" :: validTypes) ->
      map EntryRow.entry_type (submittedEntries (log (mutationFn env text)))
      = ["note"]).
Proof.
  intros Hu Hc He.
  destruct (mutationFn_submits env text u (Some c) Hu Hc) as (-> & _).
  pose proof (persist_submits env u text (Some c)) as Hs.
  pose proof (entryType_classified c e He) as Ht.
  split; intros Hin.
  - assert (Hne : String.eqb e "" = false).
    { destruct (String.eqb_spec e ""); [subst e | reflexivity].
      cbn in Hin. intuition discriminate. }
    rewrite Hne in Ht.
    assert (Hg : String.eqb (entryType (Some c)) "goal" = false).
    { rewrite Ht. destruct (String.eqb_spec (toLowerCase e) "goal") as [E |];
        [| reflexivity].
      rewrite E in Hin. cbn in Hin. intuition discriminate. }
    rewrite Hg in Hs. destruct Hs as (-> & _).
    unfold regularRow, insertPayload. cbn [map EntryRow.entry_type].
    unfold finalEntryType. rewrite Ht.
    now rewrite (proj2 (array_includes_In _ _) Hin).
  - assert (Hn : ~ In (entryType (Some c)) validTypes -> 
                 String.eqb (entryType (Some c)) "goal" = false ->
                 map EntryRow.entry_type
                   (submittedEntries (log (persist env u text (Some c)))) = ["note"]).
    { intros Hv Hg. rewrite Hg in Hs. destruct Hs as (-> & _).
      unfold regularRow, insertPayload. cbn [map EntryRow.entry_type].
      unfold finalEntryType.
      now rewrite (proj2 (array_includes_not_In _ _) Hv). }
    destruct (String.eqb e "") eqn:Hne.
    + (* the empty string is falsy: the default "note" is taken *)
      rewrite Ht in Hs. cbn in Hs. destruct Hs as (-> & _).
      unfold regularRow, insertPayload. cbn [map EntryRow.entry_type].
      now rewrite Ht.
    + apply Hn; rewrite Ht.
      * intros H. apply Hin. now right.
      * destruct (String.eqb_spec (toLowerCase e) "goal") as [E |]; [| reflexivity].
        elim Hin. now left.
Qed.

Lemma entry_type_sanitized_witness :
  let c := Sample.classified "BOOKMARK" Sample.noMetadata in
  let env := Sample.answering c in
  user env = Some Sample.ana
  /\ completion (classify env "ler https://rocq-prover.org") = Returns (Some c)
  /\ Classification.entry_type c = Some "BOOKMARK"
  /\ toLowerCase "BOOKMARK" = "bookmark"
  /\ ((In (toLowerCase "BOOKMARK") validTypes ->
       map EntryRow.entry_type
         (submittedEntries (log (mutationFn env "ler https://rocq-prover.org")))
       = [toLowerCase "BOOKMARK"])
      /\ (~ In (toLowerCase "BOOKMARK") ("goal" :: validTypes) ->
          map EntryRow.entry_type
            (submittedEntries (log (mutationFn env "ler https://rocq-prover.org")))
          = ["note"])).
Proof.
  intros c env.
  do 4 (split; [reflexivity |]).
  exact (entry_type_sanitized env "ler https://rocq-prover.org" Sample.ana c "BOOKMARK"
           eq_refl eq_refl eq_refl).
Defined.

(** ** Failure of both transports *)

(** C8. When the primary invocation and the raw fetch both fail, the
    classifier invocation completes normally with a null classification and
    tells the user with a toast; a signed-in user's capture then goes down the
    default route: the default entry is submitted, and the capture throws only
    if that insert is refused. *)
Theorem transport_failure_is_recovered (env : Env) (text : string) (u : User) :
  user env = Some u ->
  primaryFailed env text = true ->
  fallbackFailed env text = true ->
  completion (classify env text) = Returns None
  /\ (exists notice, In (ToastError notice) (log (classify env text)))
  /\ submittedEntries (log (mutationFn env text)) = [regularRow env u text None]
  /\ completion (mutationFn env text)
     = match error (entries_insert env (EntryInsert (regularRow env u text None))) with
       | Some dbError => Throws dbError
       | None =>
           Returns (mkResult
             (data (entries_insert env (EntryInsert (regularRow env u text None))))
             "entry"
             (option_map name (data (categories_single env "ideas"))))
       end.
Proof.
  intros Hu H1 H2.
  pose proof (classify_unavailable env text H1 H2) as Hc.
  destruct (mutationFn_submits env text u None Hu Hc) as (He & _).
  destruct (mutationFn_log env text u None Hu Hc) as [_ Hr].
  destruct (persist_regular env u text None eq_refl) as [Hl Hp].
  split; [exact Hc |]. split.
  - revert H1 H2. unfold primaryFailed, fallbackFailed, classify, await_invoke,
      rawFetch, await_json.
    destruct (functions_invoke env text) as [[d [e |]] | e];
      destruct (truthy (VITE_SUPABASE_ANON_KEY env));
      destruct (fetch_classify_entry env text) as [[|] st [d' | e'] | e'];
      cbn; intros H1 H2; try discriminate;
      eexists; repeat (try (left; reflexivity); right).
  - split; [rewrite He, Hl; reflexivity | rewrite Hr, Hp; reflexivity].
Qed.

Lemma transport_failure_is_recovered_witness :
  user Sample.offline = Some Sample.ana
  /\ primaryFailed Sample.offline "comprar leite" = true
  /\ fallbackFailed Sample.offline "comprar leite" = true
  /\ completion (mutationFn Sample.offline "comprar leite")
     = Returns (mkResult (Some "row-1") "entry" None)
  /\ (completion (classify Sample.offline "comprar leite") = Returns None
      /\ (exists notice,
             In (ToastError notice) (log (classify Sample.offline "comprar leite")))
      /\ submittedEntries (log (mutationFn Sample.offline "comprar leite"))
         = [regularRow Sample.offline Sample.ana "comprar leite" None]
      /\ completion (mutationFn Sample.offline "comprar leite")
         = match
             error (entries_insert Sample.offline
                      (EntryInsert
                         (regularRow Sample.offline Sample.ana "comprar leite" None)))
           with
           | Some dbError => Throws dbError
           | None =>
               Returns (mkResult
                 (data (entries_insert Sample.offline
                          (EntryInsert
                             (regularRow Sample.offline Sample.ana "comprar leite" None))))
                 "entry"
                 (option_map name (data (categories_single Sample.offline "ideas"))))
           end).
Proof.
  do 4 (split; [reflexivity |]).
  exact (transport_failure_is_recovered Sample.offline "comprar leite" Sample.ana
           eq_refl eq_refl eq_refl).
Defined.

(** ** Running the normalization again *)

Lemma assignPriority_again (text : string) (c c' : option Classification.t)
  (m : Metadata.t) :
  isNull c' = isNull c ->
  assignPriority text c' (assignPriority text c m) = assignPriority text c m.
Proof.
  intros Hn. unfold assignPriority. rewrite Hn.
  destruct (urgentKeyword text); [reflexivity |].
  destruct (isNull c); [| reflexivity].
  destruct (truthy (Metadata.priority m)) eqn:E; cbn [andb negb]; [| reflexivity].
  now rewrite E.
Qed.

Lemma overridePriority_again (text : string) (c : option Classification.t) :
  overridePriority text (snd (overridePriority text c)) = overridePriority text c.
Proof.
  destruct c as [[slug ty st [m |]] |]; [| reflexivity | reflexivity].
  unfold overridePriority, Classification.set_metadata.
  cbn [snd fst Classification.metadata Classification.category_slug
       Classification.entry_type Classification.status].
  now rewrite !assignPriority_again by reflexivity.
Qed.

(** C9. Normalizing the same raw classification object again, with the same
    text, gives the same result as the first time: the only write the
    normalization makes to the object (the priority it assigns through
    [metadata]) leaves it in a state from which the same metadata, the same
    rows, the same log and the same outcome are produced, and which a second
    run does not change further. *)
Theorem normalization_is_idempotent (env : Env) (u : User) (text : string)
  (classification : option Classification.t) :
  let again := snd (overridePriority text classification) in
  overridePriority text again = overridePriority text classification
  /\ snd (overridePriority text again) = again
  /\ targetSlug again = targetSlug classification
  /\ entryType again = entryType classification
  /\ persist env u text again = persist env u text classification.
Proof.
  intros again.
  assert (Ho : overridePriority text again = overridePriority text classification)
    by apply overridePriority_again.
  assert (Hs : targetSlug again = targetSlug classification)
    by (subst again; destruct classification as [[slug ty st [m |]] |]; reflexivity).
  assert (Ht : entryType again = entryType classification)
    by (subst again; destruct classification as [[slug ty st [m |]] |]; reflexivity).
  repeat split; try assumption.
  - now rewrite Ho.
  - unfold persist. now rewrite Ho, Hs, Ht.
Qed.

(** ** Goals *)

(** C10. On the goal route the answer of the companion insert is never
    looked at: the outcome of the capture is the same whatever the [entries]
    table answers; an error of the goals insert is thrown, and otherwise the
    companion insert is submitted and the capture returns the goal. *)
Theorem companion_insert_result_is_ignored (env : Env) (text : string) (u : User)
  (c : option Classification.t) (answer : EntriesInsert -> Response StoredRow) :
  user env = Some u ->
  completion (classify env text) = Returns c ->
  entryType c = "goal" ->
  completion (mutationFn (withEntriesInsert env answer) text)
  = completion (mutationFn env text)
  /\ match error (goals_insert env (goalRow env u text c)) with
     | Some goalError =>
         completion (mutationFn env text) = Throws goalError
         /\ submittedHistory (log (mutationFn env text)) = []
     | None =>
         completion (mutationFn env text)
         = Returns (mkResult (data (goals_insert env (goalRow env u text c))) "goal"
                      (Some (goalCategoryName
                               (periodType (fst (overridePriority text c))))))
         /\ submittedHistory (log (mutationFn env text)) = [historyRow u text c]
     end.
Proof.
  intros Hu Hc Hg.
  assert (Hg' : String.eqb (entryType c) "goal" = true) by now rewrite Hg.
  destruct (mutationFn_log env text u c Hu Hc) as [_ Hr].
  destruct (mutationFn_log (withEntriesInsert env answer) text u c Hu Hc) as [_ Hr'].
  destruct (mutationFn_submits env text u c Hu Hc) as (_ & Hh & _).
  destruct (persist_goal env u text c Hg') as [_ Hp].
  destruct (persist_goal (withEntriesInsert env answer) u text c Hg') as [_ Hp'].
  pose proof (persist_submits env u text c) as Hs. rewrite Hg' in Hs.
  destruct Hs as (_ & _ & Hs).
  split.
  - rewrite Hr, Hr', Hp, Hp'. reflexivity.
  - rewrite Hr, Hh, Hp, Hs.
    destruct (error (goals_insert env (goalRow env u text c))); split; reflexivity.
Qed.

Lemma companion_insert_result_is_ignored_witness :
  let env := Sample.answering Sample.monthlyGoal in
  user env = Some Sample.ana
  /\ completion (classify env "correr 10km por mes") = Returns (Some Sample.monthlyGoal)
  /\ entryType (Some Sample.monthlyGoal) = "goal"
  /\ error (Sample.refused (HistoryInsert
                              (historyRow Sample.ana "correr 10km por mes"
                                 (Some Sample.monthlyGoal))))
     <> None
  /\ completion (mutationFn (withEntriesInsert env Sample.refused) "correr 10km por mes")
     = Returns (mkResult (Some "row-1") "goal" (Some "Meta Mensal"))
  /\ (completion (mutationFn (withEntriesInsert env Sample.refused) "correr 10km por mes")
      = completion (mutationFn env "correr 10km por mes")
      /\ match
           error (goals_insert env
                    (goalRow env Sample.ana "correr 10km por mes"
                       (Some Sample.monthlyGoal)))
         with
         | Some goalError =>
             completion (mutationFn env "correr 10km por mes") = Throws goalError
             /\ submittedHistory (log (mutationFn env "correr 10km por mes")) = []
         | None =>
             completion (mutationFn env "correr 10km por mes")
             = Returns (mkResult
                          (data (goals_insert env
                                   (goalRow env Sample.ana "correr 10km por mes"
                                      (Some Sample.monthlyGoal))))
                          "goal"
                          (Some (goalCategoryName
                                   (periodType
                                      (fst (overridePriority "correr 10km por mes"
                                              (Some Sample.monthlyGoal)))))))
             /\ submittedHistory (log (mutationFn env "correr 10km por mes"))
                = [historyRow Sample.ana "correr 10km por mes" (Some Sample.monthlyGoal)]
         end).
Proof.
  intros env.
  do 3 (split; [reflexivity |]).
  split; [discriminate |]. split; [reflexivity |].
  exact (companion_insert_result_is_ignored env "correr 10km por mes" Sample.ana
           (Some Sample.monthlyGoal) Sample.refused eq_refl eq_refl eq_refl).
Defined.

(** ** The calendar *)

Section Calendar.

Lemma days_from_civil_day (y m d : Z) :
  days_from_civil y m d = days_from_civil y m 1 + d - 1.
Proof. unfold days_from_civil. lia. Qed.

(** The civil date of a day number has that day number. *)
Lemma dayNumber_civil_from_days (n : Z) : dayNumber (civil_from_days n) = n.
Proof.
  unfold dayNumber, civil_from_days, days_from_civil;
    cbn [getFullYear getMonth getDate].
  set (z := n + 719468).
  set (era := z / 146097).
  set (doe := z - era * 146097).
  assert (Hdoe : 0 <= doe < 146097)
    by (subst doe era; Z.to_euclidean_division_equations; lia).
  set (yoe := (doe - doe / 1460 + doe / 36524 - doe / 146096) / 365).
  set (doy := doe - (365 * yoe + yoe / 4 - yoe / 100)).
  assert (Hy : 0 <= yoe <= 399 /\ 0 <= doy <= 365)
    by (subst doy yoe; Z.to_euclidean_division_equations; lia).
  set (mp := (5 * doy + 2) / 153).
  assert (Hmp : 0 <= mp <= 11)
    by (subst mp; Z.to_euclidean_division_equations; lia).
  replace ((if mp <? 10 then mp + 3 else mp - 9) - 1 + 1)
    with (if mp <? 10 then mp + 3 else mp - 9) by lia.
  destruct (Z.ltb_spec mp 10) as [Hlt | Hge].
  - destruct (Z.leb_spec (mp + 3) 2); [lia |].
    destruct (Z.gtb_spec (mp + 3) 2); [| lia].
    replace (mp + 3 - 3) with mp by lia.
    replace ((yoe + era * 400) / 400) with era
      by (Z.to_euclidean_division_equations; lia).
    replace (yoe + era * 400 - era * 400) with yoe by lia.
    subst doy doe z. lia.
  - destruct (Z.leb_spec (mp - 9) 2); [| lia].
    destruct (Z.gtb_spec (mp - 9) 2); [lia |].
    replace (mp - 9 + 9) with mp by lia.
    replace (yoe + era * 400 + 1 - 1) with (yoe + era * 400) by lia.
    replace ((yoe + era * 400) / 400) with era
      by (Z.to_euclidean_division_equations; lia).
    replace (yoe + era * 400 - era * 400) with yoe by lia.
    subst doy doe z. lia.
Qed.

(** The civil date of a day number has a month and a day in range. *)
Lemma civil_from_days_wellformed (n : Z) :
  0 <= getMonth (civil_from_days n) <= 11
  /\ 1 <= getDate (civil_from_days n) <= 31.
Proof.
  unfold civil_from_days; cbn [getMonth getDate].
  set (z := n + 719468).
  set (era := z / 146097).
  set (doe := z - era * 146097).
  assert (Hdoe : 0 <= doe < 146097)
    by (subst doe era; Z.to_euclidean_division_equations; lia).
  set (yoe := (doe - doe / 1460 + doe / 36524 - doe / 146096) / 365).
  set (doy := doe - (365 * yoe + yoe / 4 - yoe / 100)).
  assert (Hy : 0 <= doy <= 365)
    by (subst doy yoe; Z.to_euclidean_division_equations; lia).
  clearbody doy.
  destruct (Z.ltb_spec ((5 * doy + 2) / 153) 10);
    Z.to_euclidean_division_equations; lia.
Qed.

Lemma isLeapYear_spec (y : Z) :
  isLeapYear y = true <-> (y mod 4 = 0 /\ (y mod 100 <> 0 \/ y mod 400 = 0)).
Proof.
  unfold isLeapYear.
  destruct (Z.eqb_spec (y mod 4) 0), (Z.eqb_spec (y mod 100) 0),
    (Z.eqb_spec (y mod 400) 0); cbn; split; try tauto; try discriminate;
    intros; exfalso; Z.to_euclidean_division_equations; lia.
Qed.

Lemma daysInMonth_cases (y m : Z) :
  0 <= m <= 11 ->
  (m = 1 /\ isLeapYear y = true /\ daysInMonth y m = 29)
  \/ (m = 1 /\ isLeapYear y = false /\ daysInMonth y m = 28)
  \/ ((m = 3 \/ m = 5 \/ m = 8 \/ m = 10) /\ daysInMonth y m = 30)
  \/ ((m = 0 \/ m = 2 \/ m = 4 \/ m = 6 \/ m = 7 \/ m = 9 \/ m = 11)
      /\ daysInMonth y m = 31).
Proof.
  intros H. unfold daysInMonth.
  destruct (Z.eqb_spec m 1); [destruct (isLeapYear y); lia |].
  destruct (Z.eqb_spec m 3), (Z.eqb_spec m 5), (Z.eqb_spec m 8), (Z.eqb_spec m 10);
    cbn; lia.
Qed.

(** The civil date of a day number exists in the calendar: its day is within
    the length of its month, the 29th of February only in a leap year. *)
Lemma civil_from_days_calendar (n : Z) : isCalendarDate (civil_from_days n).
Proof.
  unfold isCalendarDate, civil_from_days; cbn [getFullYear getMonth getDate].
  set (z := n + 719468).
  set (era := z / 146097).
  set (doe := z - era * 146097).
  assert (Hdoe : 0 <= doe < 146097)
    by (subst doe era; Z.to_euclidean_division_equations; lia).
  set (yoe := (doe - doe / 1460 + doe / 36524 - doe / 146096) / 365).
  set (doy := doe - (365 * yoe + yoe / 4 - yoe / 100)).
  assert (Hy : 0 <= yoe <= 399 /\ 0 <= doy <= 365 /\
               (doy = 365 -> (yoe + 1) mod 4 = 0
                             /\ ((yoe + 1) mod 100 <> 0 \/ (yoe + 1) mod 400 = 0)))
    by (subst doy yoe; Z.to_euclidean_division_equations; lia).
  clearbody doy yoe. clear Hdoe. clearbody era.
  set (mp := (5 * doy + 2) / 153).
  assert (Hmp : 0 <= mp <= 11) by (subst mp; Z.to_euclidean_division_equations; lia).
  set (d := doy - (153 * mp + 2) / 5 + 1).
  destruct (Z.ltb_spec mp 10) as [Hlt | Hge].
  - destruct (Z.leb_spec (mp + 3) 2); [lia |].
    split; [lia |].
    destruct (daysInMonth_cases (yoe + era * 400) (mp + 3 - 1) ltac:(lia))
      as [(? & _) | [(? & _) | [(? & ->) | (? & ->)]]]; try lia;
      subst d mp; Z.to_euclidean_division_equations; lia.
  - destruct (Z.leb_spec (mp - 9) 2); [| lia].
    split; [lia |].
    destruct (daysInMonth_cases (yoe + era * 400 + 1) (mp - 9 - 1) ltac:(lia))
      as [(? & Hl & ->) | [(? & Hl & ->) | [(? & ->) | (? & ->)]]];
      try (subst d mp; Z.to_euclidean_division_equations; lia).
    (* February of a common year: the era year has no day 365 *)
    assert (Hn : doy <> 365).
    { intros E. destruct Hy as (_ & _ & Hy). specialize (Hy E).
      assert (isLeapYear (yoe + era * 400 + 1) = true); [| congruence].
      apply isLeapYear_spec.
      replace (yoe + era * 400 + 1) with (yoe + 1 + era * 400) by lia.
      rewrite !Z.mod_add by lia.
      replace (yoe + 1 + era * 400) with (yoe + 1 + (era * 4) * 100) by lia.
      replace ((yoe + 1 + era * 4 * 100) mod 4) with ((yoe + 1) mod 4)
        by (Z.to_euclidean_division_equations; lia).
      rewrite Z.mod_add by lia. exact Hy. }
    subst d mp; Z.to_euclidean_division_equations; lia.
Qed.

(** A date of the calendar is the civil date of its day number: no two dates
    of the calendar share a day number. *)
Lemma civil_from_days_dayNumber (date : Date) :
  isCalendarDate date -> civil_from_days (dayNumber date) = date.
Proof.
  destruct date as [y m d]. unfold isCalendarDate; cbn [getFullYear getMonth getDate].
  intros [Hm Hd].
  unfold dayNumber, days_from_civil; cbn [getFullYear getMonth getDate].
  set (y' := if m + 1 <=? 2 then y - 1 else y).
  set (era := y' / 400).
  set (yoe := y' - era * 400).
  assert (Hyoe : 0 <= yoe <= 399)
    by (subst yoe era; Z.to_euclidean_division_equations; lia).
  set (mp := if m + 1 >? 2 then m + 1 - 3 else m + 1 + 9).
  assert (Hmp : (m <= 1 /\ mp = m + 10 /\ y' = y - 1) \/ (2 <= m /\ mp = m - 2 /\ y' = y)).
  { subst mp y'. destruct (Z.gtb_spec (m + 1) 2), (Z.leb_spec (m + 1) 2); lia. }
  set (doy := (153 * mp + 2) / 5 + d - 1).
  assert (Hleap : isLeapYear y = true <-> (y mod 4 = 0 /\ (y mod 100 <> 0 \/ y mod 400 = 0)))
    by apply isLeapYear_spec.
  assert (Hdoy : 0 <= doy <= 365 /\ (5 * doy + 2) / 153 = mp
                 /\ doy - (153 * mp + 2) / 5 + 1 = d
                 /\ (doy = 365 -> (yoe + 1) mod 4 = 0
                      /\ ((yoe + 1) mod 100 <> 0 \/ (yoe + 1) mod 400 = 0))).
  { destruct (daysInMonth_cases y m Hm)
      as [(? & Hl & Hdm) | [(? & Hl & Hdm) | [(? & Hdm) | (? & Hdm)]]];
      rewrite Hdm in Hd.
    - apply Hleap in Hl.
      assert (yoe + 1 = y - era * 400) by (subst yoe; lia).
      subst doy. repeat split; try (Z.to_euclidean_division_equations; lia).
    - subst doy. repeat split; try (Z.to_euclidean_division_equations; lia).
    - subst doy. repeat split; try (Z.to_euclidean_division_equations; lia).
    - subst doy. repeat split; try (Z.to_euclidean_division_equations; lia). }
  destruct Hdoy as (Hdoy & Hmp' & Hd' & Hl).
  clearbody doy.
  set (doe := yoe * 365 + yoe / 4 - yoe / 100 + doy).
  assert (Hdoe : 0 <= doe < 146097
                 /\ (doe - doe / 1460 + doe / 36524 - doe / 146096) / 365 = yoe).
  { subst doe. clear - Hyoe Hdoy Hl. clearbody yoe.
    Z.to_euclidean_division_equations. lia. }
  destruct Hdoe as (Hdoe & Hyoe').
  unfold civil_from_days.
  replace (era * 146097 + doe - 719468 + 719468) with (doe + era * 146097) by lia.
  rewrite Z.div_add by lia. rewrite (Z.div_small doe) by lia.
  rewrite Z.add_0_l.
  replace (doe + era * 146097 - era * 146097) with doe by lia.
  rewrite Hyoe'.
  replace (doe - (365 * yoe + yoe / 4 - yoe / 100)) with doy by (subst doe; lia).
  rewrite Hmp', Hd'.
  assert (Hy : yoe + era * 400 = y') by (subst yoe; lia).
  rewrite Hy.
  destruct Hmp as [(? & -> & Ey) | (? & -> & Ey)]; rewrite Ey.
  - destruct (Z.ltb_spec (m + 10) 10); [lia |].
    destruct (Z.leb_spec (m + 10 - 9) 2); [| lia].
    f_equal; lia.
  - destruct (Z.ltb_spec (m - 2) 10); [| lia].
    destruct (Z.leb_spec (m - 2 + 3) 2); [lia |].
    f_equal; lia.
Qed.

Lemma dayNumber_setDate (date : Date) (n : Z) :
  dayNumber (setDate date n) = dayNumber date - getDate date + n.
Proof.
  unfold setDate. rewrite dayNumber_civil_from_days. unfold dayNumber.
  rewrite (days_from_civil_day _ _ (getDate date)). lia.
Qed.

(** [startOfWeek] with [weekStartsOn: 1] is the Monday on or before the
    date, at most six days back. *)
Lemma startOfWeek_monday (date : Date) :
  getDay (startOfWeek date 1) = 1
  /\ dayNumber date - 6 <= dayNumber (startOfWeek date 1) <= dayNumber date.
Proof.
  unfold getDay, startOfWeek. rewrite dayNumber_setDate. unfold getDay.
  destruct (Z.ltb_spec ((dayNumber date + 4) mod 7) 1);
    Z.to_euclidean_division_equations; lia.
Qed.

Lemma setDate_calendar (date : Date) (n : Z) : isCalendarDate (setDate date n).
Proof. unfold setDate. apply civil_from_days_calendar. Qed.

Lemma civil_from_days_setDate (date : Date) (n : Z) :
  civil_from_days (dayNumber (setDate date n)) = setDate date n.
Proof. unfold setDate. rewrite dayNumber_civil_from_days. reflexivity. Qed.

Lemma one_monday_a_week (today d1 d2 : Date) :
  getDay d1 = 1 -> getDay d2 = 1 ->
  dayNumber today - 6 <= dayNumber d1 <= dayNumber today ->
  dayNumber today - 6 <= dayNumber d2 <= dayNumber today ->
  dayNumber d1 = dayNumber d2.
Proof.
  unfold getDay.
  generalize (dayNumber d1), (dayNumber d2), (dayNumber today).
  intros a b t Ha Hb Hwa Hwb. Z.to_euclidean_division_equations. lia.
Qed.

(** [startOfWeek] with [weekStartsOn: 1] is the Monday of the week of the
    date, and the only one. *)
Lemma startOfWeek_mondayOfWeek (date : Date) :
  mondayOfWeek date (startOfWeek date 1)
  /\ forall other, mondayOfWeek date other -> other = startOfWeek date 1.
Proof.
  split.
  - split; [| exact (startOfWeek_monday date)].
    unfold startOfWeek. apply setDate_calendar.
  - intros other (Hc & Hd & Hw).
    destruct (startOfWeek_monday date) as (Hd' & Hw').
    pose proof (one_monday_a_week date other (startOfWeek date 1) Hd Hd' Hw Hw') as E.
    rewrite <- (civil_from_days_dayNumber other Hc). rewrite E.
    unfold startOfWeek. apply civil_from_days_setDate.
Qed.

Lemma startOfMonth_first (date : Date) :
  getFullYear (startOfMonth date) = getFullYear date
  /\ getMonth (startOfMonth date) = getMonth date
  /\ getDate (startOfMonth date) = 1.
Proof. repeat split. Qed.

End Calendar.

(** ** The goal route *)

Lemma periodType_requested (text : string) (c : option Classification.t) :
  Metadata.period_type (fst (overridePriority text c)) = requestedPeriod c.
Proof.
  unfold overridePriority, assignPriority, requestedPeriod.
  destruct c as [[slug ty st [m |]] |]; cbn;
    destruct (urgentKeyword text); reflexivity.
Qed.

(** C6. When the normalized entry type is "goal", a signed-in user's capture
    submits one goal and no regular entry. The goal has [current = 0]; its
    [period_type] is the lower-cased requested one when that is daily, weekly
    or monthly, and "weekly" otherwise (also when none was requested); its
    [period_start] is, for weekly, the formatted Monday of the current week
    (a date that exists in the calendar, a Monday, today or within the six
    days before it, and the only such date), for monthly the first day of the
    current month, and for daily today. When the goals insert reports no
    error, one companion entry is submitted, of type "task", status "pending"
    and flagged [is_goal_trigger]. *)
Theorem goal_capture (env : Env) (text : string) (u : User)
  (c : option Classification.t) :
  user env = Some u ->
  completion (classify env text) = Returns c ->
  entryType c = "goal" ->
  exists g,
    submittedGoals (log (mutationFn env text)) = [g]
    /\ submittedEntries (log (mutationFn env text)) = []
    /\ GoalRow.current g = 0
    /\ In (GoalRow.period_type g) validPeriods
    /\ (let requested := toLowerCase (str_or (requestedPeriod c) "weekly") in
        (In requested validPeriods -> GoalRow.period_type g = requested)
        /\ (~ In requested validPeriods -> GoalRow.period_type g = "weekly"))
    /\ (GoalRow.period_type g = "weekly" ->
        exists monday,
          GoalRow.period_start g = format_yyyy_MM_dd monday
          /\ isCalendarDate monday
          /\ getDay monday = 1
          /\ dayNumber (now env) - 6 <= dayNumber monday <= dayNumber (now env)
          /\ forall other, mondayOfWeek (now env) other -> other = monday)
    /\ (GoalRow.period_type g = "monthly" ->
        GoalRow.period_start g
        = format_yyyy_MM_dd (mkDate (getFullYear (now env)) (getMonth (now env)) 1))
    /\ (GoalRow.period_type g = "daily" ->
        GoalRow.period_start g = format_yyyy_MM_dd (now env))
    /\ (error (goals_insert env g) = None ->
        exists h,
          submittedHistory (log (mutationFn env text)) = [h]
          /\ HistoryRow.content h = text
          /\ HistoryRow.entry_type h = "task"
          /\ HistoryRow.status h = "pending"
          /\ HistoryRow.is_goal_trigger h = true).
Proof.
  intros Hu Hc Hg.
  assert (Hg' : String.eqb (entryType c) "goal" = true) by now rewrite Hg.
  destruct (mutationFn_submits env text u c Hu Hc) as (-> & -> & ->).
  pose proof (persist_submits env u text c) as Hs. rewrite Hg' in Hs.
  destruct Hs as (-> & -> & ->).
  exists (goalRow env u text c).
  unfold goalRow, goalPayload;
    cbn [GoalRow.current GoalRow.period_type GoalRow.period_start].
  set (m := fst (overridePriority text c)).
  do 3 (split; [reflexivity |]).
  split; [apply periodType_valid |].
  split; [| split; [| split; [| split]]].
  - unfold periodType. subst m. rewrite periodType_requested. split; intros H.
    + apply array_includes_In in H. unfold validPeriods in H. now rewrite H.
    + apply array_includes_not_In in H. unfold validPeriods in H. now rewrite H.
  - intros ->. exists (startOfWeek (now env) 1).
    destruct (startOfWeek_mondayOfWeek (now env)) as ((Hcal & Hday & Hweek) & Honly).
    split; [reflexivity |]. split; [exact Hcal |]. split; [exact Hday |].
    split; [exact Hweek | exact Honly].
  - intros ->. reflexivity.
  - intros ->. reflexivity.
  - fold m. fold (goalPayload u (now env) text (targetSlug c) m).
    fold (goalRow env u text c). intros ->.
    exists (historyRow u text c). repeat split.
Qed.

Lemma goal_capture_witness :
  let env := Sample.answeringOn Sample.sunday Sample.weeklyGoal in
  user env = Some Sample.ana
  /\ completion (classify env "treinar 3 vezes") = Returns (Some Sample.weeklyGoal)
  /\ entryType (Some Sample.weeklyGoal) = "goal"
  /\ getDay (now env) = 0
  /\ map (fun g => (GoalRow.period_type g, GoalRow.period_start g, GoalRow.current g))
       (submittedGoals (log (mutationFn env "treinar 3 vezes")))
     = [("weekly", "2026-10-26", 0)]
  /\ exists g,
       submittedGoals (log (mutationFn env "treinar 3 vezes")) = [g]
       /\ submittedEntries (log (mutationFn env "treinar 3 vezes")) = []
       /\ GoalRow.current g = 0
       /\ In (GoalRow.period_type g) validPeriods
       /\ (let requested :=
             toLowerCase (str_or (requestedPeriod (Some Sample.weeklyGoal)) "weekly") in
           (In requested validPeriods -> GoalRow.period_type g = requested)
           /\ (~ In requested validPeriods -> GoalRow.period_type g = "weekly"))
       /\ (GoalRow.period_type g = "weekly" ->
           exists monday,
             GoalRow.period_start g = format_yyyy_MM_dd monday
             /\ isCalendarDate monday
             /\ getDay monday = 1
             /\ dayNumber (now env) - 6 <= dayNumber monday <= dayNumber (now env)
             /\ forall other, mondayOfWeek (now env) other -> other = monday)
       /\ (GoalRow.period_type g = "monthly" ->
           GoalRow.period_start g
           = format_yyyy_MM_dd (mkDate (getFullYear (now env)) (getMonth (now env)) 1))
       /\ (GoalRow.period_type g = "daily" ->
           GoalRow.period_start g = format_yyyy_MM_dd (now env))
       /\ (error (goals_insert env g) = None ->
           exists h,
             submittedHistory (log (mutationFn env "treinar 3 vezes")) = [h]
             /\ HistoryRow.content h = "treinar 3 vezes"
             /\ HistoryRow.entry_type h = "task"
             /\ HistoryRow.status h = "pending"
             /\ HistoryRow.is_goal_trigger h = true).
Proof.
  intros env.
  do 5 (split; [reflexivity |]).
  exact (goal_capture env "treinar 3 vezes" Sample.ana (Some Sample.weeklyGoal)
           eq_refl eq_refl eq_refl).
Defined.

(** ** Scenarios *)

(** "comprar leite urgente" with both transports down: a note in "ideas" with
    priority "urgent". *)
Example scenario_urgent_without_classifier :
  log (mutationFn Sample.offline "comprar leite urgente")
  = [FunctionsInvoke "comprar leite urgente";
     ConsoleWarn "SDK Invocation failed, trying raw fetch fallback:" Sample.networkError;
     Fetch "comprar leite urgente";
     ConsoleError "Fallback failed:" Sample.networkError;
     ToastError "Erro ao chamar IA: Failed to fetch";
     CategoriesSelect "ideas";
     ConsoleLog "Inserting Entry Payload:"
       (regularRow Sample.offline Sample.ana "comprar leite urgente" None);
     EntriesInsertCall
       (EntryInsert (regularRow Sample.offline Sample.ana "comprar leite urgente" None))]
  /\ regularRow Sample.offline Sample.ana "comprar leite urgente" None
     = EntryRow.mk "ana" "comprar leite urgente" None "note"
         (Metadata.mk (Some "comprar leite urgente") None None None None None None
            (Some "urgent") None)
         "pending" None (Some "urgent") [] [].
Proof. split; reflexivity. Qed.

(** A monthly goal of 10 km, captured on Monday 2026-11-02. *)
Example scenario_monthly_goal :
  log (mutationFn (Sample.answering Sample.monthlyGoal) "correr 10km por mes")
  = [FunctionsInvoke "correr 10km por mes";
     GoalsInsert
       (GoalRow.mk "ana" "correr 10km por mes" "🎯" 10 "km" "monthly" "2026-11-01" 0 "work");
     EntriesInsertCall
       (HistoryInsert
          (HistoryRow.mk "ana" "correr 10km por mes" "task"
             (Metadata.mk None None None (Some 10) (Some "km") (Some "monthly")
                None None None)
             true "pending" []))].
Proof. reflexivity. Qed.

(** The same capture as a weekly and as a daily goal, on Wednesday
    2026-11-04: the week starts on Monday 2026-11-02. *)
Example scenario_period_start :
  getDay (mkDate 2026 10 4) = 3
  /\ format_yyyy_MM_dd (periodStart (mkDate 2026 10 4) "weekly") = "2026-11-02"
  /\ format_yyyy_MM_dd (periodStart (mkDate 2026 10 4) "monthly") = "2026-11-01"
  /\ format_yyyy_MM_dd (periodStart (mkDate 2026 10 4) "daily") = "2026-11-04"
  /\ format_yyyy_MM_dd (periodStart (mkDate 2026 10 1) "weekly") = "2026-10-26".
Proof. repeat split; reflexivity. Qed.

(** The classifier answers [entry_type: "BOOKMARK"]. *)
Example scenario_wrong_case_bookmark :
  map EntryRow.entry_type
    (submittedEntries
       (log (mutationFn
               (Sample.answering (Sample.classified "BOOKMARK" Sample.noMetadata))
               "ler https://rocq-prover.org")))
  = ["bookmark"].
Proof. reflexivity. Qed.

(** The classifier answers [entry_type: "TAS\u212A"], spelled with the Kelvin
    sign, whose lower case is the letter k: the entry is a task.  A first
    letter with a dot above, U+0130, keeps its dot in lower case and the
    type falls back to "note". *)
Example scenario_kelvin_sign_task :
  toLowerCase ("TAS" ++ Sample.kelvinSign) = "task"
  /\ map EntryRow.entry_type
       (submittedEntries
          (log (mutationFn
                  (Sample.answering
                     (Sample.classified ("TAS" ++ Sample.kelvinSign) Sample.noMetadata))
                  "pagar a conta de luz")))
     = ["task"]
  /\ map EntryRow.entry_type
       (submittedEntries
          (log (mutationFn
                  (Sample.answering
                     (Sample.classified ("BOOKMAR" ++ Sample.kelvinSign) Sample.noMetadata))
                  "ler https://rocq-prover.org")))
     = ["bookmark"]
  /\ map EntryRow.entry_type
       (submittedEntries
          (log (mutationFn
                  (Sample.answering
                     (Sample.classified
                        (String (ascii_of_N 196) (String (ascii_of_N 176) "NSIGHT"))
                        Sample.noMetadata))
                  "dormir cedo rende mais")))
     = ["note"].
Proof. repeat split; reflexivity. Qed.

(** A weekly goal captured on Sunday 2026-11-01 starts on Monday 2026-10-26,
    in the month before; one captured on Sunday 2024-03-03 starts on Monday
    2024-02-26, across the leap day. *)
Example scenario_week_across_months :
  getDay Sample.sunday = 0
  /\ startOfWeek Sample.sunday 1 = mkDate 2026 9 26
  /\ map GoalRow.period_start
       (submittedGoals
          (log (mutationFn (Sample.answeringOn Sample.sunday Sample.weeklyGoal)
                  "treinar 3 vezes")))
     = ["2026-10-26"]
  /\ getDay (mkDate 2024 2 3) = 0
  /\ startOfWeek (mkDate 2024 2 3) 1 = mkDate 2024 1 26
  /\ format_yyyy_MM_dd (periodStart (mkDate 2024 2 3) "weekly") = "2024-02-26".
Proof. repeat split; reflexivity. Qed.

(** * Further properties of the hook *)

(** ** The session and the two transports *)

(** X1. A capture without a signed-in user throws "User not authenticated"
    before anything is called or written; with a user, the first thing the
    capture does is invoke the classifier with the text. *)
Theorem capture_starts_with_the_session (env : Env) (text : string) :
  match user env with
  | None =>
      mutationFn env text = ([], Throws (mkError (Some "User not authenticated")))
  | Some _ =>
      exists rest, log (mutationFn env text) = FunctionsInvoke text :: rest
  end.
Proof.
  destruct (user env) as [u |] eqn:Hu.
  - destruct (classify_returns env text) as [c Hc].
    destruct (mutationFn_log env text u c Hu Hc) as [-> _].
    unfold classify, await_invoke.
    destruct (functions_invoke env text) as [[d [e |]] | e]; cbn;
      try (eexists; reflexivity).
    all: destruct (tryCatch _ _) as [l r]; cbn; eexists; reflexivity.
  - unfold mutationFn. now rewrite Hu.
Qed.

Ltac transports env text :=
  unfold primaryFailed, fallbackFailed, classify, await_invoke, rawFetch, await_json;
  destruct (functions_invoke env text) as [[d [e |]] | e];
  destruct (truthy (VITE_SUPABASE_ANON_KEY env));
  destruct (fetch_classify_entry env text) as [[|] st [d' | e'] | e'];
  cbn.

Ltac event_cases :=
  repeat match goal with
         | H : _ \/ _ |- _ => destruct H as [H | H]
         | H : False |- _ => elim H
         | H : _ /\ _ |- _ => destruct H
         | H : ex _ |- _ => destruct H
         end;
  try discriminate.

(** X2. The raw fetch is attempted exactly when the primary invocation
    failed and an anon key is configured; in particular a primary answer,
    even a null one, never triggers the fallback. *)
Theorem fallback_is_fetched_iff (env : Env) (text : string) :
  In (Fetch text) (log (classify env text))
  <-> primaryFailed env text = true
      /\ truthy (VITE_SUPABASE_ANON_KEY env) = true.
Proof.
  transports env text; split; intros H; event_cases; auto 8.
Qed.

(** X3. The user is shown the "Erro ao chamar IA" toast exactly when both
    transports failed, and the toast carries the message of the primary
    error, not of the fallback's (or "Erro de rede" when it has none). *)
Theorem classifier_toast_iff_both_failed (env : Env) (text : string) :
  ((exists notice, In (ToastError notice) (log (classify env text)))
   <-> primaryFailed env text = true /\ fallbackFailed env text = true)
  /\ Forall (fun ev =>
               match ev with
               | ToastError notice =>
                   exists e,
                     notice = "Erro ao chamar IA: " ++ str_or (message e) "Erro de rede"
                     /\ (functions_invoke env text = InvokeRejected e
                         \/ exists d, functions_invoke env text
                                      = InvokeResolved (mkResponse d (Some e)))
               | _ => True
               end)
            (log (classify env text)).
Proof.
  split.
  - transports env text; split; intros H; event_cases; auto;
      eexists; repeat (try (left; reflexivity); right).
  - unfold classify, await_invoke, rawFetch, await_json.
    destruct (functions_invoke env text) as [[d [e |]] | e];
      destruct (truthy (VITE_SUPABASE_ANON_KEY env));
      destruct (fetch_classify_entry env text) as [[|] st [d' | e'] | e'];
      cbn; repeat (apply Forall_cons || apply Forall_nil); try exact I;
      exists e; split; eauto.
Qed.

(** X4. When the primary invocation fails and the raw fetch answers, the
    capture goes on exactly as if the primary invocation had given that
    answer: the same rows are submitted and the capture completes the same
    way; no toast about the classifier is shown. *)
Theorem fallback_answer_stands_in (env : Env) (text : string) (st : Z)
  (d : option Classification.t) :
  primaryFailed env text = true ->
  truthy (VITE_SUPABASE_ANON_KEY env) = true ->
  fetch_classify_entry env text = FetchResolved true st (JsonParsed d) ->
  let env' := withInvoke env (fun _ => InvokeResolved (mkResponse d None)) in
  completion (classify env text) = Returns d
  /\ fallbackFailed env text = false
  /\ completion (mutationFn env text) = completion (mutationFn env' text)
  /\ submittedEntries (log (mutationFn env text))
     = submittedEntries (log (mutationFn env' text))
  /\ submittedGoals (log (mutationFn env text))
     = submittedGoals (log (mutationFn env' text))
  /\ submittedHistory (log (mutationFn env text))
     = submittedHistory (log (mutationFn env' text)).
Proof.
  intros H1 Hk Hf env'.
  assert (Hc : completion (classify env text) = Returns d).
  { revert H1. unfold primaryFailed, classify, await_invoke, rawFetch, await_json.
    rewrite Hk, Hf.
    destruct (functions_invoke env text) as [[d0 [e |]] | e]; cbn;
      intros H1; try discriminate; reflexivity. }
  assert (Hc' : completion (classify env' text) = Returns d) by reflexivity.
  split; [exact Hc |]. split.
  { unfold fallbackFailed. now rewrite Hk, Hf. }
  destruct (user env) as [u |] eqn:Hu.
  - destruct (mutationFn_log env text u d Hu Hc) as [_ ->].
    destruct (mutationFn_log env' text u d Hu Hc') as [_ ->].
    destruct (mutationFn_submits env text u d Hu Hc) as (-> & -> & ->).
    destruct (mutationFn_submits env' text u d Hu Hc') as (-> & -> & ->).
    repeat split.
  - unfold mutationFn. cbn [user env' withInvoke]. rewrite Hu. repeat split.
Qed.

Lemma fallback_answer_stands_in_witness :
  let c := Sample.classified "task" (Sample.withPriority "high") in
  let env :=
    mkEnv (Some Sample.ana) (fun _ => InvokeRejected Sample.networkError)
          (Some "anon-key") (fun _ => FetchResolved true 200 (JsonParsed (Some c)))
          Sample.monday Sample.noCategory Sample.stored Sample.stored in
  let env' := withInvoke env (fun _ => InvokeResolved (mkResponse (Some c) None)) in
  primaryFailed env "pagar boleto" = true
  /\ truthy (VITE_SUPABASE_ANON_KEY env) = true
  /\ fetch_classify_entry env "pagar boleto" = FetchResolved true 200 (JsonParsed (Some c))
  /\ (completion (classify env "pagar boleto") = Returns (Some c)
      /\ fallbackFailed env "pagar boleto" = false
      /\ completion (mutationFn env "pagar boleto")
         = completion (mutationFn env' "pagar boleto")
      /\ submittedEntries (log (mutationFn env "pagar boleto"))
         = submittedEntries (log (mutationFn env' "pagar boleto"))
      /\ submittedGoals (log (mutationFn env "pagar boleto"))
         = submittedGoals (log (mutationFn env' "pagar boleto"))
      /\ submittedHistory (log (mutationFn env "pagar boleto"))
         = submittedHistory (log (mutationFn env' "pagar boleto"))).
Proof.
  intros c env env'.
  do 3 (split; [reflexivity |]).
  exact (fallback_answer_stands_in env "pagar boleto" 200 (Some c)
           eq_refl eq_refl eq_refl).
Defined.

(** ** The tables *)

Lemma persist_withCategories (env : Env) (u : User) (text : string)
  (c : option Classification.t) (answer : string -> Response Category) :
  (forall slug, data (answer slug) = data (categories_single env slug)) ->
  persist (withCategories env answer) u text c = persist env u text c.
Proof.
  intros H. unfold persist.
  destruct (overridePriority text c) as [metadata c'].
  destruct (String.eqb (entryType c) "goal"); [reflexivity |].
  unfold await_categories_single, await_entries_insert.
  cbn [bind emit ret app categories_single withCategories entries_insert].
  now rewrite H.
Qed.

(** X5. The error of the category lookup is never looked at: two
    [categories] tables that hand back the same data make the capture log
    and complete the same way, whatever errors they report. *)
Theorem category_lookup_error_is_ignored (env : Env) (text : string)
  (answer : string -> Response Category) :
  (forall slug, data (answer slug) = data (categories_single env slug)) ->
  mutationFn (withCategories env answer) text = mutationFn env text.
Proof.
  intros H. unfold mutationFn. cbn [user withCategories].
  destruct (user env) as [u |]; [| reflexivity].
  change (classify (withCategories env answer) text) with (classify env text).
  destruct (classify env text) as [l [c | e]]; [| reflexivity].
  cbn [bind]. now rewrite (persist_withCategories env u text c answer H).
Qed.

Lemma category_lookup_error_is_ignored_witness :
  let silent := fun _ : string => mkResponse (A := Category) None None in
  (forall slug, data (silent slug) = data (categories_single Sample.offline slug))
  /\ error (categories_single Sample.offline "ideas") <> error (silent "ideas")
  /\ mutationFn (withCategories Sample.offline silent) "comprar leite"
     = mutationFn Sample.offline "comprar leite".
Proof.
  intros silent.
  assert (H : forall slug, data (silent slug) = data (categories_single Sample.offline slug))
    by (intros slug; reflexivity).
  split; [exact H |]. split; [discriminate |].
  exact (category_lookup_error_is_ignored Sample.offline "comprar leite" silent H).
Defined.

(** X6. On the regular route the entry is submitted once and a refusal of
    that insert is the outcome of the capture: the error is thrown, and the
    user sees "Erro ao salvar" with the error's message (or "Tente
    novamente." when it has none); nothing is invalidated. *)
Theorem refused_entry_fails_the_capture (env : Env) (text : string) (u : User)
  (c : option Classification.t) (e : Error) :
  user env = Some u ->
  completion (classify env text) = Returns c ->
  entryType c <> "goal" ->
  error (entries_insert env (EntryInsert (regularRow env u text c))) = Some e ->
  submittedEntries (log (mutationFn env text)) = [regularRow env u text c]
  /\ completion (mutationFn env text) = Throws e
  /\ Callbacks.feedback env text
     = [Callbacks.ConsoleErrorLog e;
        Callbacks.ToastFailure "Erro ao salvar" (str_or (message e) "Tente novamente.")].
Proof.
  intros Hu Hc Hg He.
  apply String.eqb_neq in Hg.
  destruct (mutationFn_log env text u c Hu Hc) as [_ Hr].
  destruct (mutationFn_submits env text u c Hu Hc) as (Hs & _).
  destruct (persist_regular env u text c Hg) as [Hl Hp].
  rewrite He in Hp.
  unfold Callbacks.feedback. rewrite Hs, Hr, Hp, Hl. repeat split.
Qed.

Lemma refused_entry_fails_the_capture_witness :
  let env := withEntriesInsert Sample.offline Sample.refused in
  let e := mkError (Some "violates check constraint") in
  user env = Some Sample.ana
  /\ completion (classify env "comprar leite") = Returns None
  /\ entryType None <> "goal"
  /\ error (entries_insert env (EntryInsert (regularRow env Sample.ana "comprar leite" None)))
     = Some e
  /\ (submittedEntries (log (mutationFn env "comprar leite"))
      = [regularRow env Sample.ana "comprar leite" None]
      /\ completion (mutationFn env "comprar leite") = Throws e
      /\ Callbacks.feedback env "comprar leite"
         = [Callbacks.ConsoleErrorLog e;
            Callbacks.ToastFailure "Erro ao salvar"
              (str_or (message e) "Tente novamente.")]).
Proof.
  intros env e.
  assert (Hg : entryType None <> "goal") by discriminate.
  do 2 (split; [reflexivity |]). split; [exact Hg |]. split; [reflexivity |].
  exact (refused_entry_fails_the_capture env "comprar leite" Sample.ana None e
           eq_refl eq_refl Hg eq_refl).
Defined.

(** X7. A saved regular entry invalidates the entries query and is announced
    as "Salvo em" followed by the name of the category found for the slug, or
    "Inbox" when none was found, always described as classified by the AI:
    the description is the same when the classifier was unavailable. *)
Theorem saved_entry_feedback (env : Env) (text : string) (u : User)
  (c : option Classification.t) :
  user env = Some u ->
  completion (classify env text) = Returns c ->
  entryType c <> "goal" ->
  error (entries_insert env (EntryInsert (regularRow env u text c))) = None ->
  Callbacks.feedback env text
  = [Callbacks.InvalidateQueries ["entries"];
     Callbacks.ToastSuccess
       ("Salvo em "
        ++ str_or (option_map name (data (categories_single env (targetSlug c)))) "Inbox")
       "Classificado com sucesso pela IA" (Some "✨")].
Proof.
  intros Hu Hc Hg He.
  apply String.eqb_neq in Hg.
  destruct (mutationFn_log env text u c Hu Hc) as [_ Hr].
  destruct (persist_regular env u text c Hg) as [_ Hp].
  rewrite He in Hp.
  unfold Callbacks.feedback. rewrite Hr, Hp. reflexivity.
Qed.

Lemma saved_entry_feedback_witness :
  user Sample.offline = Some Sample.ana
  /\ completion (classify Sample.offline "comprar leite") = Returns None
  /\ entryType None <> "goal"
  /\ error (entries_insert Sample.offline
              (EntryInsert (regularRow Sample.offline Sample.ana "comprar leite" None)))
     = None
  /\ Callbacks.feedback Sample.offline "comprar leite"
     = [Callbacks.InvalidateQueries ["entries"];
        Callbacks.ToastSuccess
          ("Salvo em "
           ++ str_or (option_map name
                        (data (categories_single Sample.offline (targetSlug None))))
                     "Inbox")
          "Classificado com sucesso pela IA" (Some "✨")].
Proof.
  assert (Hg : entryType None <> "goal") by discriminate.
  do 2 (split; [reflexivity |]). split; [exact Hg |]. split; [reflexivity |].
  exact (saved_entry_feedback Sample.offline "comprar leite" Sample.ana None
           eq_refl eq_refl Hg eq_refl).
Defined.

(** X8. A created goal invalidates the goals query only, although its
    companion entry went into the entries table, and is announced as
    "Adicionado em" followed by "Meta Semanal", "Meta Mensal" or "Meta
    Diária" according to the sanitized period type. *)
Theorem created_goal_feedback (env : Env) (text : string) (u : User)
  (c : option Classification.t) :
  user env = Some u ->
  completion (classify env text) = Returns c ->
  entryType c = "goal" ->
  error (goals_insert env (goalRow env u text c)) = None ->
  let period := periodType (fst (overridePriority text c)) in
  Callbacks.feedback env text
  = [Callbacks.InvalidateQueries ["goals"];
     Callbacks.ToastSuccess "Meta criada! 🎯"
       ("Adicionado em " ++ goalCategoryName period) None]
  /\ submittedHistory (log (mutationFn env text)) = [historyRow u text c]
  /\ goalCategoryName period
     = (if String.eqb (GoalRow.period_type (goalRow env u text c)) "weekly"
        then "Meta Semanal"
        else if String.eqb (GoalRow.period_type (goalRow env u text c)) "monthly"
             then "Meta Mensal" else "Meta Diária").
Proof.
  intros Hu Hc Hg He period.
  assert (Hg' : String.eqb (entryType c) "goal" = true) by now rewrite Hg.
  destruct (mutationFn_log env text u c Hu Hc) as [_ Hr].
  destruct (mutationFn_submits env text u c Hu Hc) as (_ & Hh & _).
  destruct (persist_goal env u text c Hg') as [_ Hp].
  pose proof (persist_submits env u text c) as Hs. rewrite Hg' in Hs.
  destruct Hs as (_ & _ & Hs).
  rewrite He in Hp, Hs.
  unfold Callbacks.feedback. rewrite Hr, Hp, Hh, Hs. repeat split.
Qed.

Lemma created_goal_feedback_witness :
  let env := Sample.answering Sample.monthlyGoal in
  let c := Some Sample.monthlyGoal in
  user env = Some Sample.ana
  /\ completion (classify env "correr 10km por mes") = Returns c
  /\ entryType c = "goal"
  /\ error (goals_insert env (goalRow env Sample.ana "correr 10km por mes" c)) = None
  /\ (let period := periodType (fst (overridePriority "correr 10km por mes" c)) in
      Callbacks.feedback env "correr 10km por mes"
      = [Callbacks.InvalidateQueries ["goals"];
         Callbacks.ToastSuccess "Meta criada! 🎯"
           ("Adicionado em " ++ goalCategoryName period) None]
      /\ submittedHistory (log (mutationFn env "correr 10km por mes"))
         = [historyRow Sample.ana "correr 10km por mes" c]
      /\ goalCategoryName period
         = (if String.eqb
                 (GoalRow.period_type (goalRow env Sample.ana "correr 10km por mes" c))
                 "weekly"
            then "Meta Semanal"
            else if String.eqb
                      (GoalRow.period_type
                         (goalRow env Sample.ana "correr 10km por mes" c))
                      "monthly"
                 then "Meta Mensal" else "Meta Diária")).
Proof.
  intros env c.
  do 4 (split; [reflexivity |]).
  exact (created_goal_feedback env "correr 10km por mes" Sample.ana c
           eq_refl eq_refl eq_refl eq_refl).
Defined.

(** ** What the normalization keeps *)

Lemma overridePriority_keeps (text : string) (c : Classification.t) (m : Metadata.t) :
  Classification.metadata c = Some m ->
  forall p,
    Metadata.set_priority (fst (overridePriority text (Some c))) p
    = Metadata.set_priority m p.
Proof.
  intros Hm p. unfold overridePriority, assignPriority. rewrite Hm. cbn [isNull andb fst].
  destruct (urgentKeyword text); reflexivity.
Qed.

(** X9. The normalization rewrites nothing of the classifier's metadata but
    its priority: every row submitted carries the metadata with all other
    fields as the classifier gave them, the capture's text as content, the
    user's id, and, on a regular entry, the metadata's tags, checklist and
    due date as columns (an absent one as the empty list or null). *)
Theorem metadata_is_kept_but_for_priority (env : Env) (text : string) (u : User)
  (c : Classification.t) (m : Metadata.t) :
  user env = Some u ->
  completion (classify env text) = Returns (Some c) ->
  Classification.metadata c = Some m ->
  Forall (fun row =>
            (forall p, Metadata.set_priority (EntryRow.metadata row) p
                       = Metadata.set_priority m p)
            /\ EntryRow.content row = text
            /\ EntryRow.user_id row = id u
            /\ EntryRow.tags row = arr_or (Metadata.tags m) []
            /\ EntryRow.checklist row = arr_or (Metadata.checklist m) []
            /\ EntryRow.due_date row = str_or_null (Metadata.due_date m))
         (submittedEntries (log (mutationFn env text)))
  /\ Forall (fun row =>
               (forall p, Metadata.set_priority (HistoryRow.metadata row) p
                          = Metadata.set_priority m p)
               /\ HistoryRow.content row = text
               /\ HistoryRow.user_id row = id u
               /\ HistoryRow.checklist row = arr_or (Metadata.checklist m) [])
            (submittedHistory (log (mutationFn env text)))
  /\ (submittedEntries (log (mutationFn env text)) <> []
      \/ submittedGoals (log (mutationFn env text)) <> []).
Proof.
  intros Hu Hc Hm.
  destruct (mutationFn_submits env text u (Some c) Hu Hc) as (-> & -> & ->).
  pose proof (persist_submits env u text (Some c)) as Hs.
  pose proof (overridePriority_keeps text c m Hm) as Hk.
  assert (Hf : forall (A : Type) (f : Metadata.t -> A),
             (forall p q, f (Metadata.set_priority q p) = f q) ->
             f (fst (overridePriority text (Some c))) = f m).
  { intros A f Hf. rewrite <- (Hf "" (fst _)), Hk. apply Hf. }
  destruct (String.eqb (entryType (Some c)) "goal"); destruct Hs as (-> & -> & ->).
  - split; [constructor |]. split; [| right; discriminate].
    destruct (error (goals_insert env _)); constructor; [| constructor].
    unfold historyRow, historyPayload; cbn [HistoryRow.metadata HistoryRow.content
      HistoryRow.user_id HistoryRow.checklist].
    repeat split; [exact Hk |].
    apply (Hf _ (fun q => arr_or (Metadata.checklist q) [])). reflexivity.
  - split; [| split; [constructor | left; discriminate]].
    constructor; [| constructor].
    unfold regularRow, insertPayload; cbn [EntryRow.metadata EntryRow.content
      EntryRow.user_id EntryRow.tags EntryRow.checklist EntryRow.due_date].
    repeat split; [exact Hk | | |].
    + apply (Hf _ (fun q => arr_or (Metadata.tags q) [])). reflexivity.
    + apply (Hf _ (fun q => arr_or (Metadata.checklist q) [])). reflexivity.
    + apply (Hf _ (fun q => str_or_null (Metadata.due_date q))). reflexivity.
Qed.

Lemma metadata_is_kept_but_for_priority_witness :
  let m := Metadata.mk (Some "Pagar o boleto") (Some ["contas"]) None None None None
                       (Some "2026-11-05") (Some "low")
                       (Some [PlainItem "luz"; CheckItem "agua" false]) in
  let c := Sample.classified "task" m in
  let env := Sample.answering c in
  user env = Some Sample.ana
  /\ completion (classify env "pagar boleto urgente") = Returns (Some c)
  /\ Classification.metadata c = Some m
  /\ map EntryRow.metadata (submittedEntries (log (mutationFn env "pagar boleto urgente")))
     = [Metadata.set_priority m "urgent"]
  /\ (Forall (fun row =>
                (forall p, Metadata.set_priority (EntryRow.metadata row) p
                           = Metadata.set_priority m p)
                /\ EntryRow.content row = "pagar boleto urgente"
                /\ EntryRow.user_id row = id Sample.ana
                /\ EntryRow.tags row = arr_or (Metadata.tags m) []
                /\ EntryRow.checklist row = arr_or (Metadata.checklist m) []
                /\ EntryRow.due_date row = str_or_null (Metadata.due_date m))
             (submittedEntries (log (mutationFn env "pagar boleto urgente")))
      /\ Forall (fun row =>
                   (forall p, Metadata.set_priority (HistoryRow.metadata row) p
                              = Metadata.set_priority m p)
                   /\ HistoryRow.content row = "pagar boleto urgente"
                   /\ HistoryRow.user_id row = id Sample.ana
                   /\ HistoryRow.checklist row = arr_or (Metadata.checklist m) [])
                (submittedHistory (log (mutationFn env "pagar boleto urgente")))
      /\ (submittedEntries (log (mutationFn env "pagar boleto urgente")) <> []
          \/ submittedGoals (log (mutationFn env "pagar boleto urgente")) <> [])).
Proof.
  intros m c env.
  do 4 (split; [reflexivity |]).
  exact (metadata_is_kept_but_for_priority env "pagar boleto urgente" Sample.ana c m
           eq_refl eq_refl eq_refl).
Defined.

(** X10. Without a progress keyword in the text, a regular entry is
    submitted with the classifier's status lower-cased when that is pending,
    in_progress or done, and with "pending" when it is anything else, empty
    or absent. *)
Theorem status_sanitized (env : Env) (text : string) (u : User)
  (c : option Classification.t) :
  user env = Some u ->
  completion (classify env text) = Returns c ->
  entryType c <> "goal" ->
  ~ progress_worded text ->
  map EntryRow.status (submittedEntries (log (mutationFn env text)))
  = [match opt_field c Classification.status with
     | Some s =>
         if array_includes validStatuses (toLowerCase s) then toLowerCase s
         else "pending"
     | None => "pending"
     end].
Proof.
  intros Hu Hc Hg Hk.
  apply String.eqb_neq in Hg.
  assert (Hk' : progressKeyword text = false).
  { destruct (progressKeyword text) eqn:E; [| reflexivity].
    elim Hk. now apply progressKeyword_iff. }
  destruct (mutationFn_submits env text u c Hu Hc) as (-> & _).
  pose proof (persist_submits env u text c) as Hs. rewrite Hg in Hs.
  destruct Hs as (-> & _).
  unfold regularRow, insertPayload, finalStatus; cbn [map EntryRow.status].
  rewrite Hk'. f_equal.
  assert (Hst : opt_field (snd (overridePriority text c)) Classification.status
                = opt_field c Classification.status)
    by (destruct c as [[slug ty st [m |]] |]; reflexivity).
  rewrite Hst.
  destruct (opt_field c Classification.status) as [s |]; [| reflexivity].
  cbn [option_map str_or].
  destruct (String.eqb_spec (toLowerCase s) "") as [E | E].
  - rewrite E. reflexivity.
  - now destruct (array_includes validStatuses (toLowerCase s)).
Qed.

Lemma status_sanitized_witness :
  let c := Some (Classification.mk (Some "home") (Some "task") (Some "DONE") None) in
  let env := Sample.answering (Classification.mk (Some "home") (Some "task") (Some "DONE") None) in
  user env = Some Sample.ana
  /\ completion (classify env "lavei a louca") = Returns c
  /\ entryType c <> "goal"
  /\ ~ progress_worded "lavei a louca"
  /\ map EntryRow.status (submittedEntries (log (mutationFn env "lavei a louca")))
     = ["done"]
  /\ map EntryRow.status (submittedEntries (log (mutationFn env "lavei a louca")))
     = [match opt_field c Classification.status with
        | Some s =>
            if array_includes validStatuses (toLowerCase s) then toLowerCase s
            else "pending"
        | None => "pending"
        end].
Proof.
  intros c env.
  assert (Hg : entryType c <> "goal") by discriminate.
  assert (Hk : ~ progress_worded "lavei a louca")
    by (intros H%progressKeyword_iff; discriminate H).
  do 2 (split; [reflexivity |]). split; [exact Hg |]. split; [exact Hk |].
  split; [reflexivity |].
  exact (status_sanitized env "lavei a louca" Sample.ana c eq_refl eq_refl Hg Hk).
Defined.

(** ** What a capture never submits *)

Lemma str_or_nonempty (o : option string) (d : string) :
  d <> "" -> str_or o d <> "".
Proof.
  intros Hd. destruct o as [s |]; cbn; [| exact Hd].
  destruct (String.eqb_spec s ""); assumption.
Qed.

(** X11. No goal is ever submitted with a target of zero, an empty unit, an
    empty emoji or an empty category, and its title is empty only when the
    captured text is: an absent or falsy field of the classifier's metadata is
    replaced by its default (1, "unidade", the target emoji, the resolved
    slug, the text). *)
Theorem goal_fields_are_defaulted (env : Env) (text : string) :
  Forall (fun g =>
            GoalRow.target g <> 0
            /\ GoalRow.unit g <> ""
            /\ GoalRow.emoji g <> ""
            /\ GoalRow.category g <> ""
            /\ (GoalRow.title g <> "" \/ text = ""))
         (submittedGoals (log (mutationFn env text))).
Proof.
  destruct (user env) as [u |] eqn:Hu.
  - destruct (classify_returns env text) as [c Hc].
    destruct (mutationFn_submits env text u c Hu Hc) as (_ & _ & ->).
    pose proof (persist_submits env u text c) as Hs.
    destruct (String.eqb (entryType c) "goal"); destruct Hs as (_ & -> & _);
      constructor; [| constructor].
    unfold goalRow, goalPayload;
      cbn [GoalRow.target GoalRow.unit GoalRow.emoji GoalRow.category GoalRow.title].
    repeat split.
    + unfold num_or. destruct (Metadata.target _) as [n |]; [| discriminate].
      destruct (Z.eqb_spec n 0); [discriminate | assumption].
    + apply str_or_nonempty. discriminate.
    + apply str_or_nonempty. discriminate.
    + apply str_or_nonempty. discriminate.
    + destruct (String.eqb_spec text ""); [now right | left].
      now apply str_or_nonempty.
  - rewrite (mutationFn_signed_out env text Hu). constructor.
Qed.

(** X12. A capture takes one route: a signed-in user's capture submits
    either exactly one regular entry and no goal, or exactly one goal, no
    regular entry and at most one companion entry; a signed-out capture
    submits nothing. *)
Theorem capture_takes_one_route (env : Env) (text : string) :
  match user env with
  | Some _ =>
      (exists row,
          submittedEntries (log (mutationFn env text)) = [row]
          /\ submittedGoals (log (mutationFn env text)) = []
          /\ submittedHistory (log (mutationFn env text)) = [])
      \/ (exists g,
             submittedGoals (log (mutationFn env text)) = [g]
             /\ submittedEntries (log (mutationFn env text)) = []
             /\ (List.length (submittedHistory (log (mutationFn env text))) <= 1)%nat)
  | None =>
      submittedEntries (log (mutationFn env text)) = []
      /\ submittedGoals (log (mutationFn env text)) = []
      /\ submittedHistory (log (mutationFn env text)) = []
  end.
Proof.
  destruct (user env) as [u |] eqn:Hu.
  - destruct (classify_returns env text) as [c Hc].
    destruct (mutationFn_submits env text u c Hu Hc) as (-> & -> & ->).
    pose proof (persist_submits env u text c) as Hs.
    destruct (String.eqb (entryType c) "goal"); destruct Hs as (-> & -> & ->).
    + right. eexists. repeat split.
      destruct (error (goals_insert env _)); cbn; lia.
    + left. eexists. repeat split.
  - rewrite (mutationFn_signed_out env text Hu). repeat split.
Qed.

(** * The Kanban board *)

Section Board.

Import Kanban.

Lemma filter_cons_if {A : Type} (f : A -> bool) (x : A) (l : list A) :
  filter f (x :: l) = if f x then x :: filter f l else filter f l.
Proof. reflexivity. Qed.

Lemma status_is_unique (entry : Entry) (a b : string) :
  status_is entry a = true -> status_is entry b = true -> a = b.
Proof.
  unfold status_is. destruct (status entry) as [s |]; [| discriminate].
  intros Ha%String.eqb_eq Hb%String.eqb_eq. congruence.
Qed.

Ltac place_card IH :=
  cbn [orb app]; rewrite ?app_nil_r in *;
  first
    [ exact IH
    | apply perm_skip; exact IH
    | apply Permutation_sym, Permutation_cons_app, Permutation_sym; exact IH
    | rewrite app_assoc; apply Permutation_sym, Permutation_cons_app, Permutation_sym;
      rewrite <- app_assoc; exact IH
    | rewrite !app_assoc; apply Permutation_sym, Permutation_cons_app, Permutation_sym;
      rewrite <- !app_assoc; exact IH ].

(** X13. Grouped by status, the board shows each task at most once, and it
    shows exactly the tasks whose status is pending, in_progress or done: a
    task with any other status, or none, is on no column. *)
Theorem status_board_shows_each_task_once (entries : list Entry) :
  Permutation
    (cards ByStatus (Some entries))
    (filter (fun entry => status_is entry "pending" || status_is entry "in_progress"
                          || status_is entry "done")
            entries).
Proof.
  unfold cards; cbn [activeColumns statusColumns map column_id List.concat
                     getColumnEntries option_map arr_or].
  rewrite app_nil_r.
  induction entries as [| e l IH]; [constructor |].
  rewrite !filter_cons_if.
  destruct (status_is e "pending") eqn:E1;
    destruct (status_is e "in_progress") eqn:E2;
    destruct (status_is e "done") eqn:E3;
    try (pose proof (status_is_unique e _ _ E1 E2); discriminate);
    try (pose proof (status_is_unique e _ _ E1 E3); discriminate);
    try (pose proof (status_is_unique e _ _ E2 E3); discriminate);
    place_card IH.
Qed.

Lemma priorityOrMedium_truthy (entry : Entry) :
  truthy (Some (priorityOrMedium entry)) = true.
Proof.
  unfold priorityOrMedium, str_or, truthy.
  destruct (match metadata entry with Some m => Metadata.priority m | None => None end)
    as [p |]; [| reflexivity].
  destruct (String.eqb_spec p ""); [reflexivity |].
  destruct (String.eqb_spec p ""); [contradiction | reflexivity].
Qed.

Lemma priorityOrMedium_counted (entry : Entry) :
  priorityOrMedium entry = countedPriority entry.
Proof.
  unfold priorityOrMedium, countedPriority, str_or.
  destruct (metadata entry) as [[? ? ? ? ? ? ? [[| c p] |] ?] |]; reflexivity.
Qed.

Lemma getColumnEntries_priority (entries : list Entry) (columnId : string) :
  getColumnEntries ByPriority (Some entries) columnId
  = tasksOfPriority columnId entries.
Proof.
  unfold tasksOfPriority; cbn [getColumnEntries option_map arr_or].
  induction entries as [| e l IH]; [reflexivity |].
  rewrite !filter_cons_if, IH, (priorityOrMedium_truthy e), andb_false_r.
  now rewrite priorityOrMedium_counted.
Qed.

(** X14. Grouped by priority, the board has the columns Urgente, Alta,
    Média and Baixa, in this order, and each column shows, in their order,
    exactly the tasks whose metadata priority is the column's own (urgent,
    high, medium, low), the column Média also those whose metadata has no
    priority, an empty one, or that have no metadata.  So each task is shown
    at most once, and a task whose metadata priority is anything but urgent,
    high, medium or low is on no column.  Before the tasks are loaded every
    column is empty. *)
Theorem priority_board_shows_each_task_once (entries : list Entry) :
  boardColumns ByPriority (Some entries)
  = [(mkColumn "urgent" "Urgente", tasksOfPriority "urgent" entries);
     (mkColumn "high" "Alta", tasksOfPriority "high" entries);
     (mkColumn "medium" "Média", tasksOfPriority "medium" entries);
     (mkColumn "low" "Baixa", tasksOfPriority "low" entries)]
  /\ (forall columnId,
        getColumnEntries ByPriority (Some entries) columnId
        = tasksOfPriority columnId entries)
  /\ (forall columnId entry,
        In entry (getColumnEntries ByPriority (Some entries) columnId)
        <-> In entry entries /\ countedPriority entry = columnId)
  /\ cards ByPriority (Some entries)
     = List.concat (map snd (boardColumns ByPriority (Some entries)))
  /\ Permutation
       (cards ByPriority (Some entries))
       (filter (fun entry =>
                  array_includes ["urgent"; "high"; "medium"; "low"]
                    (priorityOrMedium entry))
               entries)
  /\ map snd (boardColumns ByPriority None) = [[]; []; []; []].
Proof.
  split; [| split; [| split; [| split; [| split]]]].
  - unfold boardColumns; cbn [activeColumns priorityColumns map column_id].
    now rewrite !getColumnEntries_priority.
  - apply getColumnEntries_priority.
  - intros columnId entry. rewrite getColumnEntries_priority.
    unfold tasksOfPriority. rewrite filter_In.
    split; intros [Hin He]; (split; [exact Hin |]).
    + now apply String.eqb_eq.
    + now apply String.eqb_eq.
  - reflexivity.
  - unfold cards; cbn [activeColumns priorityColumns map column_id List.concat
                       getColumnEntries option_map arr_or].
    rewrite app_nil_r.
    induction entries as [| e l IH]; [constructor |].
    rewrite !filter_cons_if. cbn [array_includes].
    rewrite (priorityOrMedium_truthy e). cbn [negb andb]. rewrite !andb_false_r.
    rewrite !(String.eqb_sym (priorityOrMedium e)).
    destruct (String.eqb_spec "urgent" (priorityOrMedium e)) as [E1 | E1];
      destruct (String.eqb_spec "high" (priorityOrMedium e)) as [E2 | E2];
      destruct (String.eqb_spec "medium" (priorityOrMedium e)) as [E3 | E3];
      destruct (String.eqb_spec "low" (priorityOrMedium e)) as [E4 | E4];
      try congruence; place_card IH.
  - reflexivity.
Qed.

(** X15. A column is highlighted as a drop target exactly when dropping the
    dragged card on it would start an update; a drop on the card's own column
    starts none, and after any drop no card is being dragged and the grouping
    is unchanged. *)
Theorem drop_updates_iff_highlighted (board : Board) (columnId : string) :
  isDragOver board columnId
  = negb (match fst (handleDrop board columnId) with [] => true | _ => false end)
  /\ draggedEntry (snd (handleDrop board columnId)) = None
  /\ groupBy (snd (handleDrop board columnId)) = groupBy board
  /\ match draggedEntry board with
     | Some dragged =>
         forall ev, In ev (fst (handleDrop board columnId)) ->
                    ev = MutateStatus (id dragged) columnId
                    \/ ev = MutatePriority (id dragged) columnId dragged
                    \/ exists message, ev = ToastMoved message
     | None => fst (handleDrop board columnId) = []
     end.
Proof.
  unfold isDragOver, handleDrop.
  destruct board as [[dragged |] [|]]; cbn [draggedEntry groupBy fst snd];
    try (repeat split; reflexivity).
  - destruct (status_is dragged columnId); cbn; repeat split; try tauto.
    intros ev [<- | [<- | []]]; eauto.
  - destruct (String.eqb (priorityOrMedium dragged) columnId); cbn;
      repeat split; try tauto.
    intros ev [<- | []]; eauto.
Qed.

Lemma priorityOrMedium_updated (entry : Entry) (priority : string) :
  priority <> "" ->
  priorityOrMedium (withPriorityUpdate entry (priorityUpdate entry priority)) = priority.
Proof.
  intros Hp. unfold priorityOrMedium, withPriorityUpdate, priorityUpdate.
  cbn [metadata update_metadata]. unfold Metadata.set_priority. cbn [Metadata.priority str_or].
  destruct (String.eqb_spec priority ""); [contradiction | reflexivity].
Qed.

(** X16. Dropping a card on another priority column starts one priority
    update, whose payload sets the priority column and the metadata priority
    to the column's id and keeps every other metadata field (an entry without
    metadata gets a metadata object holding just the priority); with that
    update applied, the card is on that column of the priority board and on no
    other. *)
Theorem priority_drop_moves_the_card (board : Board) (dragged : Entry)
  (columnId : string) :
  draggedEntry board = Some dragged ->
  groupBy board = ByPriority ->
  In columnId (map column_id priorityColumns) ->
  priorityOrMedium dragged <> columnId ->
  let update := priorityUpdate dragged columnId in
  let moved := withPriorityUpdate dragged update in
  fst (handleDrop board columnId) = [MutatePriority (id dragged) columnId dragged]
  /\ update_priority update = columnId
  /\ Metadata.priority (update_metadata update) = Some columnId
  /\ (forall p,
        Metadata.set_priority (update_metadata update) p
        = Metadata.set_priority
            (match metadata dragged with Some m => m | None => emptyMetadata end) p)
  /\ getColumnEntries ByPriority (Some [moved]) columnId = [moved]
  /\ cards ByPriority (Some [moved]) = [moved].
Proof.
  intros Hd Hg Hin Hne update moved.
  assert (Hp : columnId <> "").
  { cbn in Hin. intros ->. intuition discriminate. }
  assert (Hm : priorityOrMedium moved = columnId)
    by (apply priorityOrMedium_updated; exact Hp).
  split.
  { unfold handleDrop. rewrite Hd, Hg. cbn [fst].
    destruct (String.eqb_spec (priorityOrMedium dragged) columnId);
      [contradiction | reflexivity]. }
  do 3 (split; [reflexivity |]).
  unfold cards; cbn [activeColumns priorityColumns map column_id List.concat
                     getColumnEntries option_map arr_or filter].
  rewrite Hm, String.eqb_refl.
  replace (String.eqb columnId "medium" && negb (truthy (Some columnId))) with false.
  2:{ unfold truthy. destruct (String.eqb_spec columnId ""); [contradiction |].
      cbn. now rewrite andb_false_r. }
  split; [reflexivity |].
  cbn in Hin. destruct Hin as [<- | [<- | [<- | [<- | []]]]]; reflexivity.
Qed.

Lemma priority_drop_moves_the_card_witness :
  let dragged := mkEntry "e1" (Some "pending") None None in
  let board := mkBoard (Some dragged) ByPriority in
  let update := priorityUpdate dragged "urgent" in
  let moved := withPriorityUpdate dragged update in
  draggedEntry board = Some dragged
  /\ groupBy board = ByPriority
  /\ In "urgent" (map column_id priorityColumns)
  /\ priorityOrMedium dragged <> "urgent"
  /\ (fst (handleDrop board "urgent") = [MutatePriority (id dragged) "urgent" dragged]
      /\ update_priority update = "urgent"
      /\ Metadata.priority (update_metadata update) = Some "urgent"
      /\ (forall p,
            Metadata.set_priority (update_metadata update) p
            = Metadata.set_priority
                (match metadata dragged with Some m => m | None => emptyMetadata end) p)
      /\ getColumnEntries ByPriority (Some [moved]) "urgent" = [moved]
      /\ cards ByPriority (Some [moved]) = [moved]).
Proof.
  intros dragged board update moved.
  assert (Hin : In "urgent" (map column_id priorityColumns)) by (left; reflexivity).
  assert (Hne : priorityOrMedium dragged <> "urgent") by discriminate.
  do 2 (split; [reflexivity |]). split; [exact Hin |]. split; [exact Hne |].
  exact (priority_drop_moves_the_card board dragged "urgent" eq_refl eq_refl Hin Hne).
Defined.

Lemma assignAt_length (l : list ChecklistItem) (i : nat) (v : ChecklistItem) :
  List.length (assignAt l i v) = List.length l.
Proof.
  revert i; induction l as [| x l IH]; intros [| i]; cbn; auto.
Qed.

Lemma assignAt_same (l : list ChecklistItem) (i : nat) (v x : ChecklistItem) :
  nth_error l i = Some x -> nth_error (assignAt l i v) i = Some v.
Proof.
  revert i; induction l as [| y l IH]; intros [| i]; cbn; try discriminate; auto.
Qed.

Lemma assignAt_other (l : list ChecklistItem) (i j : nat) (v : ChecklistItem) :
  j <> i -> nth_error (assignAt l i v) j = nth_error l j.
Proof.
  revert i j; induction l as [| y l IH]; intros [| i] [| j] H; cbn; auto.
  now elim H.
Qed.

(** X17. Clicking a line of a card's checklist that is there starts one
    checklist update: the list keeps its length and every other item, and the
    clicked item keeps its text and has what the card shows as done flipped
    (a plain string counts as not done). Clicking an index that is not there,
    as any index is on an entry without a checklist, starts no update: reading
    the missing item throws. *)
Theorem toggle_changes_one_line (entry : Entry) (itemIndex : nat) :
  let current := arr_or (checklist entry) [] in
  match nth_error current itemIndex with
  | Some item =>
      exists updated,
        handleToggleChecklist entry itemIndex = Some (MutateChecklist (id entry) updated)
        /\ List.length updated = List.length current
        /\ (exists item',
              nth_error updated itemIndex = Some item'
              /\ itemText item' = itemText item
              /\ itemDone item' = negb (itemDone item))
        /\ (forall j, j <> itemIndex -> nth_error updated j = nth_error current j)
  | None =>
      handleToggleChecklist entry itemIndex = None
      /\ (List.length current <= itemIndex)%nat
  end.
Proof.
  intros current. unfold handleToggleChecklist. fold current.
  destruct (nth_error current itemIndex) as [item |] eqn:E.
  - eexists. split; [reflexivity |].
    split; [apply assignAt_length |]. split.
    + exists (toggled item). split; [now apply assignAt_same with item |].
      destruct item; split; reflexivity.
    + intros j Hj. now apply assignAt_other.
  - split; [reflexivity | now apply nth_error_None].
Qed.

Lemma assignAt_twice (l : list ChecklistItem) (i : nat) (v w : ChecklistItem) :
  assignAt (assignAt l i v) i w = assignAt l i w.
Proof.
  revert i; induction l as [| y l IH]; intros [| i]; cbn; auto. now rewrite IH.
Qed.

Lemma assignAt_shows_same (l : list ChecklistItem) (i : nat) (v x : ChecklistItem) :
  nth_error l i = Some x ->
  itemText v = itemText x -> itemDone v = itemDone x ->
  map (fun item => (itemText item, itemDone item)) (assignAt l i v)
  = map (fun item => (itemText item, itemDone item)) l.
Proof.
  revert i; induction l as [| y l IH]; intros [| i]; cbn; try discriminate.
  - intros [= ->] -> ->. reflexivity.
  - intros H Ht Hd. now rewrite IH.
Qed.

(** X18. Clicking the same checklist line twice, the first update applied in
    between, brings back what the card shows: every line has its text and its
    done mark as before. The list itself comes back too when the clicked item
    was an object; a plain string comes back as an object that is not done. *)
Theorem toggle_twice_restores_the_card (entry : Entry) (itemIndex : nat)
  (item : ChecklistItem) :
  let current := arr_or (checklist entry) [] in
  nth_error current itemIndex = Some item ->
  exists once twice,
    handleToggleChecklist entry itemIndex = Some (MutateChecklist (id entry) once)
    /\ handleToggleChecklist (withChecklist entry once) itemIndex
       = Some (MutateChecklist (id entry) twice)
    /\ map (fun item => (itemText item, itemDone item)) twice
       = map (fun item => (itemText item, itemDone item)) current
    /\ twice = assignAt current itemIndex (CheckItem (itemText item) (itemDone item))
    /\ match item with
       | CheckItem _ _ => twice = current
       | PlainItem _ => twice <> current
       end.
Proof.
  intros current H.
  exists (assignAt current itemIndex (toggled item)),
         (assignAt current itemIndex (toggled (toggled item))).
  assert (H1 : handleToggleChecklist entry itemIndex
               = Some (MutateChecklist (id entry)
                         (assignAt current itemIndex (toggled item)))).
  { unfold handleToggleChecklist. fold current. now rewrite H. }
  split; [exact H1 |]. split.
  { unfold handleToggleChecklist, withChecklist. cbn [checklist arr_or id].
    rewrite (assignAt_same current itemIndex (toggled item) item H).
    now rewrite assignAt_twice. }
  assert (Ht : toggled (toggled item) = CheckItem (itemText item) (itemDone item))
    by (destruct item as [t | t []]; reflexivity).
  rewrite Ht. split.
  { now apply assignAt_shows_same with item. }
  split; [reflexivity |].
  assert (Hn : nth_error (assignAt current itemIndex
                            (CheckItem (itemText item) (itemDone item))) itemIndex
               = Some (CheckItem (itemText item) (itemDone item)))
    by now apply assignAt_same with item.
  destruct item as [t | t d]; cbn [itemText itemDone] in *.
  - intros E. rewrite E, H in Hn. discriminate.
  - clear Hn H1 Ht. revert itemIndex H.
    induction current as [| y l IH]; intros [| i]; cbn; try discriminate.
    + now intros [= ->].
    + intros H. now rewrite IH.
Qed.

Lemma toggle_twice_restores_the_card_witness :
  let entry := mkEntry "e1" (Some "pending") None
                 (Some [PlainItem "leite"; CheckItem "ovos" true]) in
  let current := arr_or (checklist entry) [] in
  nth_error current 0 = Some (PlainItem "leite")
  /\ exists once twice,
       handleToggleChecklist entry 0 = Some (MutateChecklist (id entry) once)
       /\ handleToggleChecklist (withChecklist entry once) 0
          = Some (MutateChecklist (id entry) twice)
       /\ map (fun item => (itemText item, itemDone item)) twice
          = map (fun item => (itemText item, itemDone item)) current
       /\ twice = assignAt current 0
                    (CheckItem (itemText (PlainItem "leite"))
                               (itemDone (PlainItem "leite")))
       /\ match PlainItem "leite" with
          | CheckItem _ _ => twice = current
          | PlainItem _ => twice <> current
          end.
Proof.
  intros entry current.
  split; [reflexivity |].
  exact (toggle_twice_restores_the_card entry 0 (PlainItem "leite") eq_refl).
Defined.

(** X19. A card accounts for every item of its checklist: it lists at most
    three, the first three, and counts the rest behind "+ N itens"; the count
    is left out exactly when the whole checklist is listed. *)
Theorem card_accounts_for_every_item (l : list ChecklistItem) :
  (List.length (shownItems l) <= 3)%nat
  /\ (List.length (shownItems l)
      + match hiddenCount l with Some n => n | None => 0 end
      = List.length l)%nat
  /\ (exists rest, l = (shownItems l ++ rest)%list
                   /\ List.length rest
                      = match hiddenCount l with Some n => n | None => 0%nat end)
  /\ (hiddenCount l = None <-> shownItems l = l)
  /\ hiddenCount l <> Some 0%nat.
Proof.
  unfold shownItems, hiddenCount.
  pose proof (firstn_skipn 3 l) as Hs.
  pose proof (length_firstn 3 l) as Hf.
  pose proof (length_skipn 3 l) as Hk.
  destruct (Nat.ltb_spec 3 (List.length l)) as [Hl | Hl].
  - repeat split; try lia.
    + exists (skipn 3 l). split; [now rewrite Hs | lia].
    + discriminate.
    + intros E. rewrite E in Hf. lia.
    + intros [= E]. lia.
  - repeat split; try lia.
    + exists (skipn 3 l). split; [now rewrite Hs | lia].
    + intros _. now apply firstn_all2.
    + discriminate.
Qed.

End Board.

(** ** From the capture to the board *)

(** X20. A classifier priority in the wrong letter case is repaired in the
    priority column only: without an urgency keyword in the text, a valid
    priority that is not written in lower case is persisted lower-cased in the
    column, while the metadata keeps it as the classifier wrote it; and since
    the board reads the metadata, a task stored with that metadata is on no
    column of the priority board. *)
Theorem wrong_case_priority_is_off_the_board (env : Env) (text : string) (u : User)
  (c : Classification.t) (m : Metadata.t) (p : string) :
  user env = Some u ->
  completion (classify env text) = Returns (Some c) ->
  entryType (Some c) <> "goal" ->
  Classification.metadata c = Some m ->
  Metadata.priority m = Some p ->
  In (toLowerCase p) validPriorities ->
  p <> toLowerCase p ->
  ~ urgency_worded text ->
  exists row,
    submittedEntries (log (mutationFn env text)) = [row]
    /\ EntryRow.priority row = Some (toLowerCase p)
    /\ Metadata.priority (EntryRow.metadata row) = Some p
    /\ forall task,
         Kanban.metadata task = Some (EntryRow.metadata row) ->
         Kanban.cards Kanban.ByPriority (Some [task]) = [].
Proof.
  intros Hu Hc Hg Hm Hp Hv Hne Hk.
  apply String.eqb_neq in Hg.
  assert (Hk' : urgentKeyword text = false).
  { destruct (urgentKeyword text) eqn:E; [| reflexivity].
    elim Hk. now apply urgentKeyword_iff. }
  destruct (mutationFn_submits env text u (Some c) Hu Hc) as (-> & _).
  pose proof (persist_submits env u text (Some c)) as Hs. rewrite Hg in Hs.
  destruct Hs as (-> & _).
  exists (regularRow env u text (Some c)). split; [reflexivity |].
  unfold regularRow, insertPayload; cbn [EntryRow.priority EntryRow.metadata].
  rewrite (overridePriority_classified text c m Hm Hk').
  assert (He : p <> "").
  { intros ->. cbn in Hv. intuition discriminate. }
  assert (Hl : toLowerCase p <> "").
  { intros E. rewrite E in Hv. cbn in Hv. intuition discriminate. }
  split.
  { unfold finalPriority. rewrite Hp. cbn [option_map str_or_null].
    destruct (String.eqb_spec (toLowerCase p) ""); [contradiction |].
    now rewrite (proj2 (array_includes_In _ _) Hv), andb_false_r. }
  split; [exact Hp |].
  intros task Ht.
  assert (Hpm : Kanban.priorityOrMedium task = p).
  { unfold Kanban.priorityOrMedium. rewrite Ht, Hp. cbn.
    destruct (String.eqb_spec p ""); [contradiction | reflexivity]. }
  unfold Kanban.cards;
    cbn [Kanban.activeColumns Kanban.priorityColumns map Kanban.column_id List.concat
         Kanban.getColumnEntries option_map arr_or filter].
  rewrite Hpm.
  replace (truthy (Some p)) with true
    by (unfold truthy; now destruct (String.eqb_spec p "")).
  cbn [negb]. rewrite !andb_false_r.
  destruct (String.eqb_spec p "urgent") as [-> |]; [now elim Hne |].
  destruct (String.eqb_spec p "high") as [-> |]; [now elim Hne |].
  destruct (String.eqb_spec p "medium") as [-> |]; [now elim Hne |].
  destruct (String.eqb_spec p "low") as [-> |]; [now elim Hne |].
  reflexivity.
Qed.

Lemma wrong_case_priority_is_off_the_board_witness :
  let m := Sample.withPriority "High" in
  let c := Sample.classified "task" m in
  let env := Sample.answering c in
  user env = Some Sample.ana
  /\ completion (classify env "pagar boleto") = Returns (Some c)
  /\ entryType (Some c) <> "goal"
  /\ Classification.metadata c = Some m
  /\ Metadata.priority m = Some "High"
  /\ In (toLowerCase "High") validPriorities
  /\ "High" <> toLowerCase "High"
  /\ ~ urgency_worded "pagar boleto"
  /\ exists row,
       submittedEntries (log (mutationFn env "pagar boleto")) = [row]
       /\ EntryRow.priority row = Some (toLowerCase "High")
       /\ Metadata.priority (EntryRow.metadata row) = Some "High"
       /\ forall task,
            Kanban.metadata task = Some (EntryRow.metadata row) ->
            Kanban.cards Kanban.ByPriority (Some [task]) = [].
Proof.
  intros m c env.
  assert (Hg : entryType (Some c) <> "goal") by discriminate.
  assert (Hv : In (toLowerCase "High") validPriorities)
    by (apply array_includes_In; reflexivity).
  assert (Hne : "High" <> toLowerCase "High") by discriminate.
  assert (Hk : ~ urgency_worded "pagar boleto")
    by (intros H%urgentKeyword_iff; discriminate H).
  do 2 (split; [reflexivity |]). split; [exact Hg |].
  do 2 (split; [reflexivity |]). split; [exact Hv |].
  split; [exact Hne |]. split; [exact Hk |].
  exact (wrong_case_priority_is_off_the_board env "pagar boleto" Sample.ana c m "High"
           eq_refl eq_refl Hg eq_refl eq_refl Hv Hne Hk).
Defined.

(** * The sidebar *)

(** X21. For every path at most one navigation item is active, and the link
    of every item leads to a path on which that item, and no other, is
    active; in particular "Dashboard" is active on "/dashboard", where its
    link leads, as well as on "/". *)
Theorem navigation_marks_one_item (pathname : string) :
  (List.length (filter (Sidebar.isActive pathname) Sidebar.navItems) <= 1)%nat
  /\ Forall (fun item =>
               filter (Sidebar.isActive (Sidebar.linkTo item)) Sidebar.navItems = [item])
            Sidebar.navItems.
Proof.
  split.
  - unfold Sidebar.navItems, Sidebar.isActive; cbn [filter Sidebar.slug String.eqb].
    cbn [Ascii.eqb Bool.eqb andb orb].
    rewrite !orb_false_r.
    destruct (String.eqb_spec pathname "/") as [-> | H0]; [cbn; lia |].
    destruct (String.eqb_spec pathname "/dashboard") as [-> | H1]; [cbn; lia |].
    destruct (String.eqb_spec pathname "/kanban") as [-> | H2]; [cbn; lia |].
    destruct (String.eqb_spec pathname "/calendar") as [-> | H3]; [cbn; lia |].
    destruct (String.eqb_spec pathname "/home") as [-> | H4]; [cbn; lia |].
    destruct (String.eqb_spec pathname "/work") as [-> | H5]; [cbn; lia |].
    destruct (String.eqb_spec pathname "/uni") as [-> | H6]; [cbn; lia |].
    destruct (String.eqb_spec pathname "/ideas") as [-> | H7]; cbn; lia.
  - repeat constructor.
Qed.

(** * The goal dialog *)

Section Dialog.

Import GoalDialog.

Lemma trimStart_blank_upto (n : nat) (s : string) :
  (String.length s <= n)%nat -> isBlank (trimStart s) = isBlank s.
Proof.
  revert s. induction n as [| n IH]; intros s Hn.
  - destruct s; [reflexivity | cbn in Hn; lia].
  - destruct s as [| c1 s1]; [reflexivity |].
    cbn [trimStart]. cbn [isBlank].
    destruct (isWhiteSpace c1) eqn:E1.
    { apply IH. cbn in Hn. lia. }
    destruct s1 as [| c2 s2].
    { cbn [isBlank]. now rewrite E1. }
    destruct (isWhiteSpace2 c1 c2) eqn:E2.
    { apply IH. cbn in Hn. lia. }
    destruct s2 as [| c3 s3].
    { cbn [isBlank]. now rewrite E1, E2. }
    destruct (isWhiteSpace3 c1 c2 c3) eqn:E3.
    { cbn [andb]. apply IH. cbn in Hn. lia. }
    cbn [isBlank]. now rewrite E1, E2, E3.
Qed.

Lemma trimStart_blank (s : string) : isBlank (trimStart s) = isBlank s.
Proof. exact (trimStart_blank_upto (String.length s) s (Nat.le_refl _)). Qed.

Lemma trimEnd_empty (s : string) : trimEnd s = "" <-> isBlank s = true.
Proof.
  destruct s as [| c s]; [cbn; tauto |].
  cbn [trimEnd]. destruct (isBlank (String c s)); split; congruence.
Qed.

Lemma trim_blank (s : string) : truthy (Some (trim s)) = negb (isBlank s).
Proof.
  unfold truthy, trim. rewrite <- trimStart_blank.
  pose proof (trimEnd_empty (trimStart s)) as H.
  destruct (String.eqb_spec (trimEnd (trimStart s)) "") as [E | E].
  - now rewrite (proj1 H E).
  - destruct (isBlank (trimStart s)); [| reflexivity].
    elim E. now apply H.
Qed.

Lemma handleSave_cases (st : State) :
  handleSave st
  = if isBlank (title st) then ([], st)
    else ([OnSave (mkGoal (title st) (emoji st) (target st) (unit st) None); OnClose],
          initial).
Proof.
  unfold handleSave. rewrite trim_blank.
  now destruct (isBlank (title st)).
Qed.

Lemma trim_empty (s : string) : trim s = "" <-> isBlank s = true.
Proof. unfold trim. now rewrite trimEnd_empty, trimStart_blank. Qed.

(** X22. Saving a goal whose title holds nothing but white space (the
    white space and line terminators that [trim] strips, the no-break space
    and the byte order mark among them) does nothing at all: no goal is
    handed on, the dialog stays open and keeps its fields. With any other
    title the goal is handed on once, with the title as typed (not trimmed),
    the emoji, target and unit of the fields and no category; the dialog is
    then closed and its fields are back at their initial values. *)
Theorem save_needs_a_title (st : State) :
  (isBlank (title st) = true /\ trim (title st) = "" /\ handleSave st = ([], st))
  \/ (isBlank (title st) = false
      /\ trim (title st) <> ""
      /\ handleSave st
         = ([OnSave (mkGoal (title st) (emoji st) (target st) (unit st) None); OnClose],
            initial)
      /\ snd (handleSave st) = mkState "" "🎯" 4 "dias").
Proof.
  rewrite handleSave_cases. pose proof (trim_empty (title st)) as Ht.
  destruct (isBlank (title st)); [left | right].
  - split; [reflexivity |]. split; [now apply Ht | reflexivity].
  - split; [reflexivity |]. split; [| split; reflexivity].
    intros E. apply Ht in E. discriminate.
Qed.

(** A title of one no-break space, or of a byte order mark and a space, is
    not saved; a title with white space around it is saved as typed. *)
Example scenario_blank_titles :
  handleSave (mkState noBreakSpace "🎯" 4 "dias")
  = ([], mkState noBreakSpace "🎯" 4 "dias")
  /\ handleSave (mkState (byteOrderMark ++ " ") "🎯" 4 "dias")
     = ([], mkState (byteOrderMark ++ " ") "🎯" 4 "dias")
  /\ trim (noBreakSpace ++ " Correr " ++ noBreakSpace) = "Correr"
  /\ handleSave (mkState (noBreakSpace ++ "Correr ") "🏃" 3 "vezes")
     = ([OnSave (mkGoal (noBreakSpace ++ "Correr ") "🏃" 3 "vezes" None); OnClose],
        initial).
Proof. repeat split; reflexivity. Qed.

Lemma step_keeps_target (st : State) (a : Action) :
  1 <= target st -> isUserAction a = true ->
  1 <= target (snd (step st a))
  /\ Forall (fun g => 1 <= goal_target g
                      /\ isBlank (goal_title g) = false
                      /\ goal_category g = None)
            (savedGoals (fst (step st a))).
Proof.
  intros Ht Ha.
  destruct a as [v | e | | | v | | [g |]]; cbn in *; try discriminate;
    try (split; [lia | constructor]).
  rewrite handleSave_cases.
  destruct (isBlank (title st)) eqn:E; cbn; split; try lia; repeat constructor; auto.
Qed.

(** X23. Whatever the user types and clicks in the dialog, starting from
    fields whose target is at least one (as the initial fields are), the
    target stays at least one, and every goal the dialog hands on has a target
    of at least one, a title that is not blank and no category. *)
Theorem dialog_saves_positive_targets (st : State) (actions : list Action) :
  1 <= target st ->
  forallb isUserAction actions = true ->
  1 <= target (snd (run st actions))
  /\ Forall (fun g => 1 <= goal_target g
                      /\ isBlank (goal_title g) = false
                      /\ goal_category g = None)
            (savedGoals (fst (run st actions))).
Proof.
  revert st. induction actions as [| a rest IH]; intros st Ht Ha.
  - cbn. split; [exact Ht | constructor].
  - cbn in Ha. apply andb_true_iff in Ha as [Ha Hrest].
    destruct (step_keeps_target st a Ht Ha) as [H1 H2].
    cbn [run]. destruct (step st a) as [e1 st1]. cbn [fst snd] in H1, H2.
    destruct (IH st1 H1 Hrest) as [H3 H4].
    destruct (run st1 rest) as [e2 st2]. cbn [fst snd] in *.
    split; [exact H3 |].
    assert (Happ : forall l l', savedGoals (l ++ l')
                                = (savedGoals l ++ savedGoals l')%list).
    { induction l as [| [g |] l IHl]; intros l'; cbn; now rewrite ?IHl. }
    rewrite Happ. apply Forall_app. now split.
Qed.

Lemma dialog_saves_positive_targets_witness :
  let actions := [TypeTitle "Correr"; Minus; Minus; Minus; Minus; Minus; Save] in
  1 <= target initial
  /\ forallb isUserAction actions = true
  /\ savedGoals (fst (run initial actions)) = [mkGoal "Correr" "🎯" 1 "dias" None]
  /\ (1 <= target (snd (run initial actions))
      /\ Forall (fun g => 1 <= goal_target g
                          /\ isBlank (goal_title g) = false
                          /\ goal_category g = None)
                (savedGoals (fst (run initial actions)))).
Proof.
  intros actions.
  assert (Ht : 1 <= target initial) by (cbn; lia).
  split; [exact Ht |]. do 2 (split; [reflexivity |]).
  exact (dialog_saves_positive_targets initial actions Ht eq_refl).
Defined.

End Dialog.

(** * The edge function *)

Section Edge.

Import EdgeFunction.

Lemma throughLastClose_none (s : string) :
  throughLastClose s = None <-> lacks isClose s = true.
Proof.
  induction s as [| c s IH]; cbn; [tauto |].
  destruct (throughLastClose s) as [p |].
  - split; [discriminate |]. intros [_ H]%andb_true_iff.
    apply IH in H. discriminate.
  - destruct (isClose c); cbn; [split; discriminate |].
    split; [intros _; now apply IH | reflexivity].
Qed.

Lemma throughLastClose_some (s p : string) :
  throughLastClose s = Some p <->
  exists body post,
    s = body ++ "}" ++ post /\ p = body ++ "}" /\ lacks isClose post = true.
Proof.
  revert p; induction s as [| c s IH]; intros p; cbn.
  - split; [discriminate |]. intros (body & post & H & _). now destruct body.
  - destruct (throughLastClose s) as [q |] eqn:E.
    + split.
      * intros [= <-]. destruct (proj1 (IH q) eq_refl) as (body & post & -> & -> & Hp).
        now exists (String c body), post.
      * intros (body & post & H & -> & Hp).
        destruct body as [| b body]; cbn in H; injection H as -> ->.
        -- apply throughLastClose_none in Hp. congruence.
        -- assert (Hq : Some q = Some (body ++ "}"))
             by (apply IH; now exists body, post).
           injection Hq as ->. reflexivity.
    + apply throughLastClose_none in E. split.
      * destruct (isClose c) eqn:Ec; [| discriminate]. intros [= <-].
        apply Ascii.eqb_eq in Ec. subst c. now exists "", s.
      * intros (body & post & H & -> & Hp).
        destruct body as [| b body]; cbn in H; injection H as -> ->.
        -- reflexivity.
        -- exfalso. clear - E. induction body as [| x body IHb]; cbn in E.
           ++ discriminate.
           ++ apply andb_true_iff in E as [_ E]. auto.
Qed.

Lemma jsonMatch_lacks_close (s : string) :
  lacks isClose s = true -> jsonMatch s = None.
Proof.
  induction s as [| c s IH]; cbn; [reflexivity |].
  intros [_ H]%andb_true_iff.
  rewrite (proj2 (throughLastClose_none s) H), (IH H).
  now destruct (isOpen c).
Qed.

Lemma jsonMatch_iff (text found : string) :
  jsonMatch text = Some found
  <-> exists pre body post,
        text = pre ++ "{" ++ body ++ "}" ++ post
        /\ found = "{" ++ body ++ "}"
        /\ lacks isOpen pre = true
        /\ lacks isClose post = true.
Proof.
  revert found; induction text as [| c s IH]; intros found; cbn.
  - split; [discriminate |]. intros (pre & body & post & H & _). now destruct pre.
  - destruct (isOpen c) eqn:Ec.
    + apply Ascii.eqb_eq in Ec. subst c.
      destruct (throughLastClose s) as [p |] eqn:E.
      * split.
        -- intros [= <-]. apply throughLastClose_some in E as (body & post & -> & -> & Hp).
           now exists "", body, post.
        -- intros (pre & body & post & H & -> & Ho & Hp).
           destruct pre as [| x pre]; cbn in H, Ho.
           ++ injection H as ->.
              assert (Hq : Some p = Some (body ++ "}"))
                by (rewrite <- E; apply throughLastClose_some; now exists body, post).
              injection Hq as ->. reflexivity.
           ++ injection H as <- _. discriminate Ho.
      * apply throughLastClose_none in E.
        rewrite (jsonMatch_lacks_close s E). split; [discriminate |].
        intros (pre & body & post & H & _ & Ho & Hp). exfalso.
        destruct pre as [| x pre]; cbn in H, Ho.
        -- injection H as ->. clear - E. induction body as [| y body IHb]; cbn in E.
           ++ discriminate.
           ++ apply andb_true_iff in E as [_ E]. auto.
        -- injection H as <- _. discriminate Ho.
    + rewrite IH. split.
      * intros (pre & body & post & -> & -> & Ho & Hp).
        exists (String c pre), body, post. cbn. rewrite Ec. auto.
      * intros (pre & body & post & H & -> & Ho & Hp).
        destruct pre as [| x pre]; cbn in H, Ho.
        -- injection H as -> _. discriminate Ec.
        -- injection H as <- ->. apply andb_true_iff in Ho as [_ Ho].
           now exists pre, body, post.
Qed.

(** X24. What the edge function cuts out of the model's text: the pattern
    matches exactly the texts that have an opening brace with a closing brace
    somewhere after it, and the match runs from the first opening brace of the
    text to its last closing brace, whatever stands between them, before them
    or after them (a Markdown fence, a sentence, further braces). *)
Theorem jsonMatch_spans_first_open_to_last_close (text found : string) :
  jsonMatch text = Some found
  <-> exists pre body post,
        text = pre ++ "{" ++ body ++ "}" ++ post
        /\ found = "{" ++ body ++ "}"
        /\ lacks isOpen pre = true
        /\ lacks isClose post = true.
Proof.
  split.
  - intros H. now apply jsonMatch_iff in H.
  - intros H. now apply jsonMatch_iff.
Qed.

(** X25. Cutting is stable: what was cut out of a text is what would be cut
    out of the cut itself, so a text that already is one object in braces is
    handed to the parser as it is, and so is a text with no braces to match. *)
Theorem jsonCandidate_is_stable (text : string) :
  jsonCandidate (jsonCandidate text) = jsonCandidate text
  /\ match jsonMatch text with
     | Some found => jsonCandidate text = found /\ jsonMatch found = Some found
     | None => jsonCandidate text = text
     end.
Proof.
  assert (Hs : forall found, jsonMatch text = Some found ->
                             str_or (Some found) text = found
                             /\ jsonMatch found = Some found).
  { intros found H. pose proof H as H'.
    apply jsonMatch_iff in H'
      as (pre & body & post & -> & -> & Ho & Hp).
    split; [reflexivity |].
    apply jsonMatch_iff.
    exists "", body, "". repeat split. }
  unfold jsonCandidate.
  destruct (jsonMatch text) as [found |] eqn:E.
  - destruct (Hs found eq_refl) as [H1 H2]. rewrite H1, H2.
    split; [| split; reflexivity].
    apply jsonMatch_iff in H2
      as (pre & body & post & _ & -> & _). reflexivity.
  - cbn. rewrite E. split; reflexivity.
Qed.

Lemma str_or_content (content : string) :
  content <> "" -> str_or (Some content) "" = content.
Proof.
  intros Hc. cbn. destruct (String.eqb_spec content ""); [contradiction | reflexivity].
Qed.

Lemma truthy_text (text : string) : text <> "" -> truthy (Some text) = true.
Proof.
  intros Ht. cbn. destruct (String.eqb_spec text ""); [contradiction | reflexivity].
Qed.

Lemma serve_success (req : Request) (content text result : string) :
  succeeds req content text result ->
  serve req = ([GenerateContent content], mkHttp 200 (ResultJson result)).
Proof.
  intros (Hm & Hk & Hb & Hc & (status & errText & Hg) & Ht & Hr).
  unfold serve, classifyRequest.
  destruct (String.eqb_spec (method req) "OPTIONS"); [contradiction |].
  rewrite Hk, Hb, (truthy_text content Hc), (str_or_content content Hc), Hg.
  cbn [negb]. rewrite (truthy_text text Ht). cbn [negb].
  rewrite (str_or_content text Ht), Hr. reflexivity.
Qed.

Lemma serve_result (req : Request) (result : string) :
  http_body (snd (serve req)) = ResultJson result ->
  exists content text, succeeds req content text result.
Proof.
  unfold serve, classifyRequest, succeeds.
  destruct (String.eqb_spec (method req) "OPTIONS") as [Hm | Hm]; [discriminate |].
  destruct (truthy (GEMINI_API_KEY req)) eqn:Hk; cbn [negb]; [| discriminate].
  destruct (body req) as [[content |] | e] eqn:Hb; cbn [truthy negb];
    try discriminate.
  destruct (String.eqb_spec content "") as [Hc | Hc]; cbn [negb]; [discriminate |].
  rewrite (str_or_content content Hc).
  destruct (gemini req content) as [[|] st err [[t |] | e] | e] eqn:Hg;
    cbn [negb truthy]; try discriminate.
  destruct (String.eqb_spec t "") as [Ht | Ht]; cbn [negb]; [discriminate |].
  rewrite (str_or_content t Ht).
  destruct (reserialize req (jsonCandidate t)) as [e | r] eqn:Hr; cbn; [discriminate |].
  intros [= <-]. exists content, t. repeat split; try assumption. now exists st, err.
Qed.

(** X26. The edge function answers a preflight with 200 and "ok", without
    calling the model.  When every step succeeds (the key is configured, the
    body has a content that is not empty, the model answers with a text that
    is not empty, and what is cut out of it parses) it calls the model once,
    with the content, and answers 200 with the re-serialized object; it
    answers with an object in no other case.  Every other request is
    answered 400 with an error object: "Missing GEMINI_API_KEY" without the
    key and "Content is required" without a content, both before any call of
    the model.  The model is called at most once, and only for a request
    that is not a preflight, with the key configured and a content that is
    not empty. *)
Theorem serve_guards_the_model_call (req : Request) :
  match fst (serve req) with
  | [] => True
  | [GenerateContent content] =>
      method req <> "OPTIONS"
      /\ truthy (GEMINI_API_KEY req) = true
      /\ body req = BodyParsed (Some content)
      /\ content <> ""
  | _ => False
  end
  /\ match http_body (snd (serve req)) with
     | OkText => http_status (snd (serve req)) = 200 /\ method req = "OPTIONS"
     | ResultJson json =>
         http_status (snd (serve req)) = 200
         /\ exists content, fst (serve req) = [GenerateContent content]
     | ErrorObject _ => http_status (snd (serve req)) = 400
     end
  /\ (method req = "OPTIONS" -> serve req = ([], mkHttp 200 OkText))
  /\ (forall content text result,
        succeeds req content text result ->
        serve req = ([GenerateContent content], mkHttp 200 (ResultJson result)))
  /\ (forall result,
        http_body (snd (serve req)) = ResultJson result ->
        exists content text, succeeds req content text result)
  /\ (method req <> "OPTIONS" ->
      (forall content text result, ~ succeeds req content text result) ->
      exists message, snd (serve req) = mkHttp 400 (ErrorObject message))
  /\ (method req <> "OPTIONS" ->
      truthy (GEMINI_API_KEY req) = false ->
      serve req = ([], mkHttp 400 (ErrorObject (Some "Missing GEMINI_API_KEY"))))
  /\ (method req <> "OPTIONS" ->
      truthy (GEMINI_API_KEY req) = true ->
      forall content,
        body req = BodyParsed content -> truthy content = false ->
        serve req = ([], mkHttp 400 (ErrorObject (Some "Content is required")))).
Proof.
  split; [| split; [| split; [| split; [| split; [| split; [| split]]]]]].
  - unfold serve, classifyRequest.
    destruct (String.eqb_spec (method req) "OPTIONS") as [Hm | Hm]; [exact I |].
    destruct (truthy (GEMINI_API_KEY req)) eqn:Hk; cbn [negb]; [| exact I].
    destruct (body req) as [[content |] | e] eqn:Hb; cbn [truthy negb];
      try exact I.
    destruct (String.eqb_spec content "") as [Hc | Hc]; cbn [negb]; [exact I |].
    rewrite (str_or_content content Hc).
    destruct (gemini req content) as [[|] st err [[t |] | e] | e]; cbn [negb truthy];
      try (now repeat split).
    destruct (String.eqb t ""); cbn [negb]; [now repeat split |].
    destruct (reserialize req _) as [e | result]; cbn; now repeat split.
  - unfold serve, classifyRequest.
    destruct (String.eqb_spec (method req) "OPTIONS") as [Hm | Hm]; [now split |].
    destruct (truthy (GEMINI_API_KEY req)) eqn:Hk; cbn [negb]; [| reflexivity].
    destruct (body req) as [[content |] | e] eqn:Hb; cbn [truthy negb];
      try reflexivity.
    destruct (String.eqb_spec content "") as [Hc | Hc]; cbn [negb]; [reflexivity |].
    rewrite (str_or_content content Hc).
    destruct (gemini req content) as [[|] st err [[t |] | e] | e]; cbn [negb truthy];
      try reflexivity.
    destruct (String.eqb t ""); cbn [negb]; [reflexivity |].
    destruct (reserialize req _) as [e | result]; cbn; [reflexivity |].
    split; [reflexivity | now exists content].
  - intros Hm. unfold serve. now rewrite Hm.
  - apply serve_success.
  - apply serve_result.
  - intros Hm Hno.
    destruct (snd (serve req)) as [st [| message | json]] eqn:Hs.
    + exfalso. revert Hs. unfold serve.
      destruct (String.eqb_spec (method req) "OPTIONS"); [contradiction |].
      destruct (classifyRequest req) as [calls [e | r]]; discriminate.
    + exists message. f_equal. revert Hs. unfold serve.
      destruct (String.eqb_spec (method req) "OPTIONS"); [contradiction |].
      destruct (classifyRequest req) as [calls [e | r]]; cbn; congruence.
    + exfalso. destruct (serve_result req json) as (content & text & H).
      * now rewrite Hs.
      * exact (Hno _ _ _ H).
  - intros Hm Hk. unfold serve, classifyRequest.
    destruct (String.eqb_spec (method req) "OPTIONS"); [contradiction |].
    now rewrite Hk.
  - intros Hm Hk content Hb Hc. unfold serve, classifyRequest.
    destruct (String.eqb_spec (method req) "OPTIONS"); [contradiction |].
    now rewrite Hk, Hb, Hc.
Qed.

Lemma serve_guards_the_model_call_witness :
  succeeds sampleRequest "comprar leite" "```json {} ```" "{}"
  /\ serve sampleRequest
     = ([GenerateContent "comprar leite"], mkHttp 200 (ResultJson "{}")).
Proof.
  assert (H : succeeds sampleRequest "comprar leite" "```json {} ```" "{}").
  { unfold succeeds. split; [discriminate |]. split; [reflexivity |].
    split; [reflexivity |]. split; [discriminate |].
    split; [exists 200, ""; reflexivity |]. split; [discriminate | reflexivity]. }
  split; [exact H |].
  exact (proj1 (proj2 (proj2 (proj2 (serve_guards_the_model_call sampleRequest))))
           _ _ _ H).
Defined.

End Edge.

(** * Priority sanitization, in full *)

(** X27. Without an urgency keyword in the text, the priority column of a
    regular entry is: the default "medium" when the classifier gave no
    metadata object (or gave nothing at all); the metadata's priority
    lower-cased when that is low, medium, high or urgent; and null when the
    metadata has no priority or any other one. *)
Theorem priority_sanitized (env : Env) (text : string) (u : User)
  (c : option Classification.t) :
  user env = Some u ->
  completion (classify env text) = Returns c ->
  entryType c <> "goal" ->
  ~ urgency_worded text ->
  map EntryRow.priority (submittedEntries (log (mutationFn env text)))
  = [match opt_field c Classification.metadata with
     | None => Some "medium"
     | Some m =>
         match Metadata.priority m with
         | Some p =>
             if array_includes validPriorities (toLowerCase p)
             then Some (toLowerCase p)
             else None
         | None => None
         end
     end].
Proof.
  intros Hu Hc Hg Hk.
  apply String.eqb_neq in Hg.
  assert (Hk' : urgentKeyword text = false).
  { destruct (urgentKeyword text) eqn:E; [| reflexivity].
    elim Hk. now apply urgentKeyword_iff. }
  destruct (mutationFn_submits env text u c Hu Hc) as (-> & _).
  pose proof (persist_submits env u text c) as Hs. rewrite Hg in Hs.
  destruct Hs as (-> & _).
  unfold regularRow, insertPayload; cbn [map EntryRow.priority]. f_equal.
  destruct c as [[slug ty st [m |]] |]; cbn [opt_field Classification.metadata].
  - rewrite (overridePriority_classified text
               (Classification.mk slug ty st (Some m)) m eq_refl Hk').
    unfold finalPriority.
    destruct (Metadata.priority m) as [p |]; cbn [option_map str_or_null];
      [| reflexivity].
    destruct (String.eqb_spec (toLowerCase p) "") as [E | E].
    + rewrite E. reflexivity.
    + destruct (array_includes validPriorities (toLowerCase p)); cbn.
      * now rewrite andb_false_r.
      * destruct (String.eqb_spec (toLowerCase p) ""); [contradiction | reflexivity].
  - unfold overridePriority, assignPriority; cbn. now rewrite Hk'.
  - unfold overridePriority, assignPriority; cbn. now rewrite Hk'.
Qed.

Lemma priority_sanitized_witness :
  let c := Some (Sample.classified "task" (Sample.withPriority "HIGH")) in
  let env := Sample.answering (Sample.classified "task" (Sample.withPriority "HIGH")) in
  user env = Some Sample.ana
  /\ completion (classify env "pagar boleto") = Returns c
  /\ entryType c <> "goal"
  /\ ~ urgency_worded "pagar boleto"
  /\ map EntryRow.priority (submittedEntries (log (mutationFn env "pagar boleto")))
     = [Some "high"]
  /\ map EntryRow.priority (submittedEntries (log (mutationFn env "pagar boleto")))
     = [match opt_field c Classification.metadata with
        | None => Some "medium"
        | Some m =>
            match Metadata.priority m with
            | Some p =>
                if array_includes validPriorities (toLowerCase p)
                then Some (toLowerCase p)
                else None
            | None => None
            end
        end].
Proof.
  intros c env.
  assert (Hg : entryType c <> "goal") by discriminate.
  assert (Hk : ~ urgency_worded "pagar boleto")
    by (intros H%urgentKeyword_iff; discriminate H).
  do 2 (split; [reflexivity |]). split; [exact Hg |]. split; [exact Hk |].
  split; [reflexivity |].
  exact (priority_sanitized env "pagar boleto" Sample.ana c eq_refl eq_refl Hg Hk).
Defined.
